(** * Document-analysis pipeline: a shallow embedding and its properties

    The Python sources embedded here are
    - [agents/base_agent.py]      ([BaseAgent._call_llm_json]),
    - [agents/info_extractor.py]  ([InfoExtractor]),
    - [agents/document_classifier.py], [agents/rag_agent.py],
    - [agents/action_planner.py]  ([ActionPlanner]),
    - [agents/simplifier.py]      ([Simplifier]),
    - [core/pipeline.py]          ([DocumentAnalysisPipeline]),
    - [api/main.py]               (the history log).

    Python values are dynamically typed; they are embedded as the
    inductive type [pyval].  A Python [str] is a sequence of Unicode code
    points, embedded as [list N].  Calls that leave the process (the chat
    completion, the text acquisition, the similarity search, the clock)
    are inputs of a run: their outcomes are fields of the record [World]. *)

From Stdlib Require Import List NArith ZArith QArith Bool Arith Lia String Ascii.
Import ListNotations.
Close Scope Q_scope.

Set Implicit Arguments.

(** ** Python strings *)

Module PyStr.

Definition pystr := list N.

(** Decoding of the UTF-8 bytes of a Rocq string literal into code
    points, so that constants of the sources can be written as they are. *)
Fixpoint utf8_decode_bytes (fuel : nat) (bs : list N) : pystr :=
  match fuel with
  | O => []
  | S fuel' =>
    match bs with
    | [] => []
    | b0 :: r0 =>
      if (b0 <? 128)%N then b0 :: utf8_decode_bytes fuel' r0
      else if (b0 <? 224)%N then
        match r0 with
        | b1 :: r1 =>
            ((b0 - 192) * 64 + (b1 - 128))%N :: utf8_decode_bytes fuel' r1
        | _ => []
        end
      else if (b0 <? 240)%N then
        match r0 with
        | b1 :: b2 :: r2 =>
            ((b0 - 224) * 4096 + (b1 - 128) * 64 + (b2 - 128))%N
              :: utf8_decode_bytes fuel' r2
        | _ => []
        end
      else
        match r0 with
        | b1 :: b2 :: b3 :: r3 =>
            ((b0 - 240) * 262144 + (b1 - 128) * 4096
               + (b2 - 128) * 64 + (b3 - 128))%N
              :: utf8_decode_bytes fuel' r3
        | _ => []
        end
    end
  end.

Definition u8 (s : string) : pystr :=
  let bs := map N_of_ascii (list_ascii_of_string s) in
  utf8_decode_bytes (List.length bs) bs.

Fixpoint str_eqb (a b : pystr) : bool :=
  match a, b with
  | [], [] => true
  | x :: a', y :: b' => (x =? y)%N && str_eqb a' b'
  | _, _ => false
  end.

Fixpoint starts_with (p s : pystr) : bool :=
  match p, s with
  | [], _ => true
  | x :: p', y :: s' => (x =? y)%N && starts_with p' s'
  | _ :: _, [] => false
  end.

(** [needle in haystack] on strings. *)
Fixpoint str_contains (needle hay : pystr) : bool :=
  starts_with needle hay ||
  match hay with
  | [] => false
  | _ :: hay' => str_contains needle hay'
  end.

(** [sep.join(parts)] *)
Fixpoint str_join (sep : pystr) (parts : list pystr) : pystr :=
  match parts with
  | [] => []
  | [p] => p
  | p :: rest => p ++ sep ++ str_join sep rest
  end.

(** Code points for which [str.isspace] holds; these are also the
    characters that [\s] matches in a [str] pattern and that a bare
    [str.strip()] removes (Unicode 14, the table of CPython 3.11). *)
Definition space_points : list N :=
  [9; 10; 11; 12; 13; 28; 29; 30; 31; 32; 133; 160; 5760;
   8192; 8193; 8194; 8195; 8196; 8197; 8198; 8199; 8200; 8201; 8202;
   8232; 8233; 8239; 8287; 12288]%N.

Definition is_space (c : N) : bool := existsb (N.eqb c) space_points.

(** First code points of the runs of ten decimal digits (category Nd);
    [\d] in a [str] pattern matches exactly these (Unicode 14). *)
Definition digit_run_starts : list N :=
  [48; 1632; 1776; 1984; 2406; 2534; 2662; 2790; 2918; 3046; 3174; 3302;
   3430; 3558; 3664; 3792; 3872; 4160; 4240; 6112; 6160; 6470; 6608; 6784;
   6800; 6992; 7088; 7232; 7248; 42528; 43216; 43264; 43472; 43504; 43600;
   44016; 65296; 66720; 68912; 69734; 69872; 69942; 70096; 70384; 70736;
   70864; 71248; 71360; 71472; 71904; 72016; 72784; 73040; 73120; 92768;
   92864; 93008; 120782; 120792; 120802; 120812; 120822; 123200; 123632;
   125264; 130032]%N.

Definition is_digit (c : N) : bool :=
  existsb (fun lo => (lo <=? c)%N && (c <? lo + 10)%N) digit_run_starts.

(** [not s.strip()]: the string has only white space. *)
Definition is_blank (s : pystr) : bool := forallb is_space s.

End PyStr.
Import PyStr.

(** ** Regular expressions, as [re] runs them

    A backtracking matcher explores alternatives in a fixed order: a
    greedy repetition first tries one more iteration.  [runs r s caps]
    lists, in that order, every way in which [r] matches a prefix of [s]:
    the remaining input and the groups captured so far (latest first).
    The head of the list is the match that [re] reports. *)

Module Regex.

Inductive regex : Type :=
| Eps : regex
| Chr : (N -> bool) -> regex                  (* one character of a class *)
| Cat : regex -> regex -> regex
| Rep : regex -> nat -> option nat -> regex   (* greedy {lo,hi}; hi = None: unbounded *)
| Grp : nat -> regex -> regex.                (* capturing group number n *)

Definition captures := list (nat * pystr).

Definition run := (pystr * captures)%type.

Section RepLoop.
Variable step : pystr -> captures -> list run.

(** Greedy repetition.  An iteration that consumes nothing is not
    repeated; every iteration shortens the input, so [fuel] = length of
    the input is enough. *)
Fixpoint rep_loop (fuel : nat) (lo : nat) (hi : option nat)
         (s : pystr) (caps : captures) : list run :=
  let stop := if Nat.eqb lo 0 then [(s, caps)] else [] in
  match fuel with
  | O => stop
  | S fuel' =>
    match hi with
    | Some O => stop
    | _ =>
      flat_map
        (fun sc : run =>
           if Nat.ltb (List.length (fst sc)) (List.length s)
           then rep_loop fuel' (Nat.pred lo) (option_map Nat.pred hi)
                         (fst sc) (snd sc)
           else [])
        (step s caps) ++ stop
    end
  end.
End RepLoop.

Fixpoint runs (r : regex) (s : pystr) (caps : captures) : list run :=
  match r with
  | Eps => [(s, caps)]
  | Chr p =>
      match s with
      | c :: s' => if p c then [(s', caps)] else []
      | [] => []
      end
  | Cat r1 r2 =>
      flat_map (fun sc : run => runs r2 (fst sc) (snd sc)) (runs r1 s caps)
  | Rep r1 lo hi => rep_loop (runs r1) (List.length s) lo hi s caps
  | Grp n r1 =>
      map (fun sc : run =>
             (fst sc,
              (n, firstn (List.length s - List.length (fst sc)) s) :: snd sc))
          (runs r1 s caps)
  end.

(** A match object: [group(0)] and the captured groups. *)
Record rmatch : Type := { group0 : pystr; groups : captures }.

(** [pattern.match] at the start of [s]. *)
Definition match_at (r : regex) (s : pystr) : option (rmatch * pystr) :=
  match runs r s [] with
  | (rest, caps) :: _ =>
      Some ({| group0 := firstn (List.length s - List.length rest) s;
               groups := caps |}, rest)
  | [] => None
  end.

(** [pattern.finditer]: non-overlapping matches, scanning left to
    right; the next search starts where the last match ended (one
    character further after an empty match). *)
Fixpoint finditer_from (r : regex) (fuel : nat) (s : pystr) : list rmatch :=
  match fuel with
  | O => []
  | S fuel' =>
    match match_at r s with
    | Some (m, rest) =>
        m :: match group0 m with
             | [] => match s with
                     | [] => []
                     | _ :: s' => finditer_from r fuel' s'
                     end
             | _ :: _ => finditer_from r fuel' rest
             end
    | None =>
        match s with
        | [] => []
        | _ :: s' => finditer_from r fuel' s'
        end
    end
  end.

Definition finditer (r : regex) (s : pystr) : list rmatch :=
  finditer_from r (S (List.length s)) s.

(** [re.search]: the first match of the scan. *)
Definition search (r : regex) (s : pystr) : option rmatch :=
  match finditer r s with
  | m :: _ => Some m
  | [] => None
  end.

(** [match.group(n)] and [match.lastindex]. *)
Definition group (m : rmatch) (n : nat) : option pystr :=
  match find (fun c => Nat.eqb (fst c) n) (groups m) with
  | Some c => Some (snd c)
  | None => None
  end.

Definition lastindex (m : rmatch) : option nat :=
  match groups m with
  | c :: _ => Some (fst c)
  | [] => None
  end.

(** Pattern syntax. *)
Definition lit (c : N) : N -> bool := N.eqb c.
Definition any_of (cs : list (N -> bool)) : N -> bool :=
  fun c => existsb (fun p => p c) cs.
Definition none_of (cs : list (N -> bool)) : N -> bool :=
  fun c => negb (any_of cs c).
Definition dot_all : N -> bool := fun _ => true.

Definition star (r : regex) : regex := Rep r 0 None.
Definition plus (r : regex) : regex := Rep r 1 None.
Definition opt (r : regex) : regex := Rep r 0 (Some 1).
Definition times (r : regex) (n : nat) : regex := Rep r n (Some n).

Fixpoint cats (rs : list regex) : regex :=
  match rs with
  | [] => Eps
  | [r] => r
  | r :: rs' => Cat r (cats rs')
  end.

(** A literal string. *)
Definition str (s : pystr) : regex := cats (map (fun c => Chr (lit c)) s).

End Regex.
Import Regex.

(** ** Python values and exceptions *)

Module Py.

(** A [float] read from a decimal literal [mant * 10^exp10], or one of
    the three constants that [json] accepts. *)
Inductive pyfloat : Type :=
| FDec : bool -> N -> Z -> pyfloat      (* negative?, digits, exponent *)
| FNaN : pyfloat
| FInf : bool -> pyfloat.

#[warnings="-register-all"]
Inductive pyval : Type :=
| PNone : pyval
| PBool : bool -> pyval
| PInt : Z -> pyval
| PFloat : pyfloat -> pyval
| PStr : pystr -> pyval
| PList : list pyval -> pyval
| PDict : list (pystr * pyval) -> pyval.  (* insertion order, keys distinct *)

(** The exceptions that the embedded code can meet; all of them derive
    from [Exception].  [External] stands for a failure of a call that
    leaves the process. *)
Inductive exn : Type :=
| JSONDecodeError : exn
| RecursionError : exn
| ValueError : exn
| TypeError : exn
| AttributeError : exn
| KeyError : exn
| External : pystr -> exn.

Inductive res (A : Type) : Type :=
| Ok : A -> res A
| Raise : exn -> res A.
Arguments Ok {A} _.
Arguments Raise {A} _.

Definition bind {A B : Type} (m : res A) (k : A -> res B) : res B :=
  match m with
  | Ok a => k a
  | Raise e => Raise e
  end.

Declare Scope py_scope.
Delimit Scope py_scope with py.
Notation "x <- m ;; k" := (bind m (fun x => k))
  (at level 61, m at next level, right associativity) : py_scope.
Open Scope py_scope.

(** A literal [m * 10^e] is read as [0.0] when it is at most half of the
    least positive double, [2^-1075]. *)
Definition dec_is_zero (m : N) (e : Z) : bool :=
  (m =? 0)%N ||
  ((e <? 0)%Z && (Z.of_N m * 2 ^ 1075 <=? 10 ^ (- e))%Z).

Definition float_truthy (f : pyfloat) : bool :=
  match f with
  | FDec _ m e => negb (dec_is_zero m e)
  | FNaN => true
  | FInf _ => true
  end.

(** [bool(v)] *)
Definition truthy (v : pyval) : bool :=
  match v with
  | PNone => false
  | PBool b => b
  | PInt z => negb (z =? 0)%Z
  | PFloat f => float_truthy f
  | PStr s => match s with [] => false | _ => true end
  | PList l => match l with [] => false | _ => true end
  | PDict kvs => match kvs with [] => false | _ => true end
  end.

(** [v == s] for a string [s]: only a [str] can be equal to a [str]. *)
Definition eq_str (v : pyval) (s : pystr) : bool :=
  match v with
  | PStr t => str_eqb t s
  | _ => false
  end.

(** Dictionaries *)
Fixpoint lookup (k : pystr) (kvs : list (pystr * pyval)) : option pyval :=
  match kvs with
  | [] => None
  | (k', v) :: rest => if str_eqb k k' then Some v else lookup k rest
  end.

(** [d[k] = v]: an existing key keeps its place. *)
Fixpoint store (k : pystr) (v : pyval) (kvs : list (pystr * pyval))
  : list (pystr * pyval) :=
  match kvs with
  | [] => [(k, v)]
  | (k', v') :: rest =>
      if str_eqb k k' then (k', v) :: rest else (k', v') :: store k v rest
  end.

(** [d.get(key, default)] on a dict *)
Definition lookup_or (kvs : list (pystr * pyval)) (key : pystr) (default : pyval)
  : pyval :=
  match lookup key kvs with
  | Some v => v
  | None => default
  end.

(** [key in obj] for a string [key]. *)
Definition contains (key : pystr) (obj : pyval) : res bool :=
  match obj with
  | PDict kvs => Ok (match lookup key kvs with Some _ => true | None => false end)
  | PList l => Ok (existsb (fun v => eq_str v key) l)
  | PStr s => Ok (str_contains key s)
  | _ => Raise TypeError          (* argument of type ... is not iterable *)
  end.

(** [obj[key]] for a string [key]. *)
Definition getitem (obj : pyval) (key : pystr) : res pyval :=
  match obj with
  | PDict kvs =>
      match lookup key kvs with
      | Some v => Ok v
      | None => Raise KeyError
      end
  | _ => Raise TypeError          (* indices must be integers; not subscriptable *)
  end.

(** [obj[key] = v] for a string [key]. *)
Definition setitem (obj : pyval) (key : pystr) (v : pyval) : res pyval :=
  match obj with
  | PDict kvs => Ok (PDict (store key v kvs))
  | _ => Raise TypeError          (* no item assignment with a str key *)
  end.

(** [obj.get(key, default)]: only a dict has the method. *)
Definition get (obj : pyval) (key : pystr) (default : pyval) : res pyval :=
  match obj with
  | PDict kvs => Ok (lookup_or kvs key default)
  | _ => Raise AttributeError
  end.

End Py.
Import Py.

(** ** [json.loads]

    The decoder of the standard library, in its default configuration
    (strict strings, no hooks), on a [str] argument, under the limits
    of the interpreter that it can meet.  The scanner enters a
    recursive call at every opening bracket and brace and raises
    [RecursionError] when no level is free; near that limit the calls
    that report an error or build a constant fail in the same way.
    [int] refuses a literal of too many digits with [ValueError].
    Only the levels that the decoder takes are counted, which grow
    with its argument; the calls of the program itself are supposed to
    find the levels that they need. *)

Module Json.

(** The limits under which one call of [json.loads] runs.  In
    CPython 3.11 the four rooms are 3, 1, 2 and 1. *)
Record Limits : Type := {
  depth : nat;          (* arrays and objects, one in another, that the
                           scanner can enter *)
  max_digits : N;       (* sys.get_int_max_str_digits(); 0: no cap *)
  error_room : nat;     (* free levels that the scanner needs to raise a
                           JSONDecodeError of its own *)
  constant_room : nat;  (* free levels that it needs to call
                           parse_constant *)
  value_room : nat;     (* levels that raw_decode needs to raise
                           "Expecting value" *)
  extra_room : nat      (* levels that decode needs to raise
                           "Extra data" *)
}.

(** The same limits with another depth. *)
Definition at_depth (d : nat) (lim : Limits) : Limits :=
  {| depth := d; max_digits := max_digits lim; error_room := error_room lim;
     constant_room := constant_room lim; value_room := value_room lim;
     extra_room := extra_room lim |}.

(** [raise_errmsg] with [free] levels left: the scanner calls
    [JSONDecodeError] where it stands. *)
Definition scanner_error (lim : Limits) (free : nat) : exn :=
  if (free <? error_room lim)%nat then RecursionError else JSONDecodeError.

(** [StopIteration] leaves the scanner, and [raw_decode] raises
    "Expecting value" from where the scan started. *)
Definition expecting_value (lim : Limits) : exn :=
  if (depth lim <? value_room lim)%nat then RecursionError else JSONDecodeError.

(** "Extra data", raised by [decode]. *)
Definition extra_data (lim : Limits) : exn :=
  if (depth lim <? extra_room lim)%nat then RecursionError else JSONDecodeError.

(** [_parse_constant] with [free] levels left. *)
Definition parse_constant (lim : Limits) (free : nat) (v : pyval) (rest : pystr)
  : res (pyval * pystr) :=
  if (free <? constant_room lim)%nat then Raise RecursionError else Ok (v, rest).

(** The scan starts with the levels free that the decoder needs to
    report an error and to build a constant. *)
Definition has_room (lim : Limits) : bool :=
  (error_room lim <=? depth lim)%nat && (constant_room lim <=? depth lim)%nat
  && (value_room lim <=? depth lim)%nat && (extra_room lim <=? depth lim)%nat.

Definition c (s : string) : N := hd 0%N (u8 s).

(** [WHITESPACE = [ \t\n\r]*] *)
Definition is_ws (x : N) : bool :=
  (x =? 32)%N || (x =? 9)%N || (x =? 10)%N || (x =? 13)%N.

Fixpoint skip_ws (s : pystr) : pystr :=
  match s with
  | x :: s' => if is_ws x then skip_ws s' else s
  | [] => []
  end.

Definition is_ascii_digit (x : N) : bool := (48 <=? x)%N && (x <=? 57)%N.

Definition hex_value (x : N) : option N :=
  if (48 <=? x)%N && (x <=? 57)%N then Some (x - 48)%N
  else if (97 <=? x)%N && (x <=? 102)%N then Some (x - 87)%N
  else if (65 <=? x)%N && (x <=? 70)%N then Some (x - 55)%N
  else None.

(** Four hexadecimal digits. *)
Definition decode_uXXXX (s : pystr) : option (N * pystr) :=
  match s with
  | a :: b :: x :: y :: rest =>
      match hex_value a, hex_value b, hex_value x, hex_value y with
      | Some ha, Some hb, Some hx, Some hy =>
          Some ((ha * 4096 + hb * 256 + hx * 16 + hy)%N, rest)
      | _, _, _, _ => None
      end
  | _ => None
  end.

(** The character after a backslash, other than [u]. *)
Definition simple_escape (x : N) : option N :=
  if (x =? 34)%N then Some 34%N
  else if (x =? 92)%N then Some 92%N
  else if (x =? c "/")%N then Some (c "/")
  else if (x =? c "b")%N then Some 8%N
  else if (x =? c "f")%N then Some 12%N
  else if (x =? c "n")%N then Some 10%N
  else if (x =? c "r")%N then Some 13%N
  else if (x =? c "t")%N then Some 9%N
  else None.

(** [scanstring], after the opening quote. *)
Fixpoint scanstring (fuel : nat) (s : pystr) : option (pystr * pystr) :=
  match fuel with
  | O => None
  | S fuel' =>
    match s with
    | [] => None                                  (* unterminated string *)
    | x :: s' =>
      if (x =? 34)%N then Some ([], s')
      else if (x =? 92)%N then
        match s' with
        | [] => None
        | e :: s'' =>
          if (e =? c "u")%N then
            match decode_uXXXX s'' with
            | None => None
            | Some (uni, r1) =>
              let single :=
                match scanstring fuel' r1 with
                | Some (t, r) => Some (uni :: t, r)
                | None => None
                end in
              if (55296 <=? uni)%N && (uni <=? 56319)%N then
                match r1 with
                | b1 :: b2 :: r2 =>
                  if (b1 =? 92)%N && (b2 =? c "u")%N then
                    match decode_uXXXX r2 with
                    | None => None
                    | Some (uni2, r3) =>
                      if (56320 <=? uni2)%N && (uni2 <=? 57343)%N then
                        match scanstring fuel' r3 with
                        | Some (t, r) =>
                            Some ((65536 + ((uni - 55296) * 1024
                                            + (uni2 - 56320)))%N :: t, r)
                        | None => None
                        end
                      else single
                    end
                  else single
                | _ => single
                end
              else single
            end
          else
            match simple_escape e with
            | None => None                        (* invalid \escape *)
            | Some ch =>
              match scanstring fuel' s'' with
              | Some (t, r) => Some (ch :: t, r)
              | None => None
              end
            end
        end
      else if (x <=? 31)%N then None              (* control character *)
      else
        match scanstring fuel' s' with
        | Some (t, r) => Some (x :: t, r)
        | None => None
        end
    end
  end.

(** Numbers: an optional minus sign, then [0] or a digit string without
    leading zero, then optionally a dot with digits, then optionally an
    exponent ([e] or [E], optional sign, digits).  Only ASCII digits. *)
Fixpoint take_digits (s : pystr) : pystr * pystr :=
  match s with
  | x :: s' =>
      if is_ascii_digit x
      then let '(ds, r) := take_digits s' in (x :: ds, r)
      else ([], s)
  | [] => ([], [])
  end.

Definition digits_value (ds : pystr) : N :=
  fold_left (fun acc x => (acc * 10 + (x - 48))%N) ds 0%N.

(** [int(numstr)] refuses a literal of more than [max_digits] digits
    when there is a cap; a literal of at most 640 digits is never
    counted. *)
Definition too_many_digits (max_digits : N) (ds : pystr) : bool :=
  let n := N.of_nat (List.length ds) in
  (640 <? n)%N && (0 <? max_digits)%N && (max_digits <? n)%N.

(** [None]: there is no number here.  The literal is matched in full
    before it is converted. *)
Definition match_number (max_digits : N) (s : pystr)
  : option (res (pyval * pystr)) :=
  let '(neg, s1) :=
    match s with
    | x :: s' => if (x =? c "-")%N then (true, s') else (false, s)
    | [] => (false, s)
    end in
  let int_part :=
    match s1 with
    | x :: s' =>
        if (x =? 48)%N then Some ([48%N], s')
        else if is_ascii_digit x then Some (take_digits s1)
        else None
    | [] => None
    end in
  match int_part with
  | None => None
  | Some (ids, s2) =>
    let '(frac, s3) :=
      match s2 with
      | x :: s' =>
          if (x =? c ".")%N then
            match take_digits s' with
            | ([], _) => ([], s2)
            | (fds, r) => (fds, r)
            end
          else ([], s2)
      | [] => ([], s2)
      end in
    let '(ex, s4) :=
      match s3 with
      | x :: s' =>
          if (x =? c "e")%N || (x =? c "E")%N then
            let '(eneg, s5) :=
              match s' with
              | y :: s6 =>
                  if (y =? c "-")%N then (true, s6)
                  else if (y =? c "+")%N then (false, s6)
                  else (false, s')
              | [] => (false, s')
              end in
            match take_digits s5 with
            | ([], _) => (None, s3)
            | (eds, r) =>
                (Some (if eneg then (- Z.of_N (digits_value eds))%Z
                       else Z.of_N (digits_value eds)), r)
            end
          else (None, s3)
      | [] => (None, s3)
      end in
    match frac, ex with
    | [], None =>
        if too_many_digits max_digits ids then Some (Raise ValueError)
        else
          Some (Ok (PInt (if neg then (- Z.of_N (digits_value ids))%Z
                          else Z.of_N (digits_value ids)), s4))
    | _, _ =>
        Some (Ok (PFloat (FDec neg (digits_value (ids ++ frac))
                               (match ex with Some e => e | None => 0%Z end
                                - Z.of_nat (List.length frac))%Z), s4))
    end
  end.

(** [dict(pairs)] *)
Definition dict_of_pairs (pairs : list (pystr * pyval)) : list (pystr * pyval) :=
  fold_left (fun acc kv => store (fst kv) (snd kv) acc) pairs [].

(** [scan_once], with the loops of [JSONObject] and [JSONArray].  Every
    call is made after at least one more character has been read, so
    fuel above the length of the input is never used up.  [free] is the
    number of levels that are free: an array or an object is entered
    only if there is one, and its items are scanned with one less.
    Where the scanner finds no value it raises [StopIteration]; every
    other error it reports where it stands. *)
Fixpoint scan_once (fuel free : nat) (lim : Limits) (s : pystr)
  : res (pyval * pystr) :=
  match fuel with
  | O => Raise (expecting_value lim)
  | S fuel' =>
    match s with
    | [] => Raise (expecting_value lim)
    | x :: s' =>
      if (x =? 34)%N then
        match scanstring (S (List.length s')) s' with
        | Some (t, r) => Ok (PStr t, r)
        | None => Raise (scanner_error lim free)
        end
      else if (x =? c "{")%N then
        match free with
        | O => Raise RecursionError
        | S free' =>
          let s1 := skip_ws s' in
          match s1 with
          | y :: s2 =>
              if (y =? c "}")%N then Ok (PDict [], s2)
              else if (y =? 34)%N then
                match object_members fuel' free' lim s2 with
                | Ok (pairs, r) => Ok (PDict (dict_of_pairs pairs), r)
                | Raise e => Raise e
                end
              else Raise (scanner_error lim free')
          | [] => Raise (scanner_error lim free')
          end
        end
      else if (x =? c "[")%N then
        match free with
        | O => Raise RecursionError
        | S free' =>
          let s1 := skip_ws s' in
          match s1 with
          | y :: s2 =>
              if (y =? c "]")%N then Ok (PList [], s2)
              else
                match array_items fuel' free' lim s1 with
                | Ok (items, r) => Ok (PList items, r)
                | Raise e => Raise e
                end
          | [] => Raise (expecting_value lim)
          end
        end
      else if starts_with (u8 "null") s then Ok (PNone, skipn 4 s)
      else if starts_with (u8 "true") s then Ok (PBool true, skipn 4 s)
      else if starts_with (u8 "false") s then Ok (PBool false, skipn 5 s)
      else
        match match_number (max_digits lim) s with
        | Some number => number
        | None =>
            if starts_with (u8 "NaN") s
            then parse_constant lim free (PFloat FNaN) (skipn 3 s)
            else if starts_with (u8 "Infinity") s
            then parse_constant lim free (PFloat (FInf false)) (skipn 8 s)
            else if starts_with (u8 "-Infinity") s
            then parse_constant lim free (PFloat (FInf true)) (skipn 9 s)
            else Raise (expecting_value lim)
        end
    end
  end

(** after the opening quote of a property name *)
with object_members (fuel free : nat) (lim : Limits) (s : pystr)
  : res (list (pystr * pyval) * pystr) :=
  match fuel with
  | O => Raise (expecting_value lim)
  | S fuel' =>
    match scanstring (S (List.length s)) s with
    | None => Raise (scanner_error lim free)
    | Some (key, r0) =>
      match skip_ws r0 with
      | x :: r1 =>
        if (x =? c ":")%N then
          match scan_once fuel' free lim (skip_ws r1) with
          | Raise e => Raise e
          | Ok (v, r2) =>
            match skip_ws r2 with
            | y :: r3 =>
              if (y =? c "}")%N then Ok ([(key, v)], r3)
              else if (y =? c ",")%N then
                match skip_ws r3 with
                | z :: r4 =>
                  if (z =? 34)%N then
                    match object_members fuel' free lim r4 with
                    | Ok (more, r) => Ok ((key, v) :: more, r)
                    | Raise e => Raise e
                    end
                  else Raise (scanner_error lim free)
                | [] => Raise (scanner_error lim free)
                end
              else Raise (scanner_error lim free)
            | [] => Raise (scanner_error lim free)
            end
          end
        else Raise (scanner_error lim free)
      | [] => Raise (scanner_error lim free)
      end
    end
  end

(** at the first character of an item *)
with array_items (fuel free : nat) (lim : Limits) (s : pystr)
  : res (list pyval * pystr) :=
  match fuel with
  | O => Raise (expecting_value lim)
  | S fuel' =>
    match scan_once fuel' free lim s with
    | Raise e => Raise e
    | Ok (v, r0) =>
      match skip_ws r0 with
      | y :: r1 =>
        if (y =? c "]")%N then Ok ([v], r1)
        else if (y =? c ",")%N then
          match array_items fuel' free lim (skip_ws r1) with
          | Ok (more, r) => Ok (v :: more, r)
          | Raise e => Raise e
          end
        else Raise (scanner_error lim free)
      | [] => Raise (scanner_error lim free)
      end
    end
  end.

(** [json.loads(s)]: no byte-order mark, one value between optional
    white space, nothing after it. *)
Definition loads (lim : Limits) (s : pystr) : res pyval :=
  if starts_with [65279%N] s then Raise JSONDecodeError
  else
    match scan_once (2 * List.length s + 2) (depth lim) lim (skip_ws s) with
    | Ok (v, r) =>
        match skip_ws r with
        | [] => Ok v
        | _ :: _ => Raise (extra_data lim)
        end
    | Raise e => Raise e
    end.

End Json.

(** ** What the interpreter provides

    Operations of the Python runtime whose tables or rounding are not
    modelled, and the limits of the interpreter in which the code runs.
    A [float] is carried as the rational it denotes. *)

Record Runtime : Type := {
  lower : pystr -> pystr;           (* str.lower() *)
  text_of_exn : exn -> pystr;       (* str(e) *)
  elapsed_ms : Q -> Q -> Z;         (* int((stop - start) * 1000) *)
  mean : list Q -> Q;               (* sum(xs) / len(xs), xs not empty *)
  json : Json.Limits;               (* the limits of json.loads where
                                       _call_llm_json calls it *)
  guide_json_depth : nat            (* its depth where
                                       _generate_simple_explanation calls it *)
}.

(** ** [agents/base_agent.py] *)

Module BaseAgent.

(** [re.search(r'\{.*\}', response, re.DOTALL)] *)
Definition braces : regex :=
  cats [str (u8 "{"); star (Chr dot_all); str (u8 "}")].

Definition parse_failure (response : pystr) : pyval :=
  PDict [(u8 "error", PStr (u8 "Failed to parse JSON"));
         (u8 "raw_response", PStr response)].

(** [json.loads] as [_call_llm_json] calls it. *)
Definition json_loads (rt : Runtime) (s : pystr) : res pyval :=
  Json.loads (json rt) s.

(** [_call_llm_json].  The prompts are not modelled: [reply] is the
    outcome of [self._call_llm(...)], either the text of the completion
    or the exception that the call raised (a completion without text
    makes [json.loads] raise [TypeError], which no clause catches, and
    counts as a raising call).  The clause [except json.JSONDecodeError]
    catches neither [RecursionError] nor the [ValueError] of [int].  The
    second [json.loads] sits inside the [except] clause, so nothing that
    it raises is caught. *)
Definition _call_llm_json (rt : Runtime) (reply : res pystr) : res pyval :=
  response <- reply ;;
  match json_loads rt response with
  | Ok v => Ok v
  | Raise JSONDecodeError =>
      match search braces response with
      | Some json_match => json_loads rt (group0 json_match)
      | None => Ok (parse_failure response)
      end
  | Raise e => Raise e
  end.

(** [if key not in result: result[key] = default] *)
Definition setdefault_missing (result : pyval) (key : pystr) (default : pyval)
  : res pyval :=
  present <- contains key result ;;
  if present then Ok result else setitem result key default.

(** [if key not in result or not result[key]: result[key] = default] *)
Definition setdefault_falsy (result : pyval) (key : pystr) (default : pyval)
  : res pyval :=
  present <- contains key result ;;
  if present then
    v <- getitem result key ;;
    if truthy v then Ok result else setitem result key default
  else setitem result key default.

(** [for key, default in defaults.items(): ...] *)
Fixpoint fill (step : pyval -> pystr -> pyval -> res pyval)
         (defaults : list (pystr * pyval)) (result : pyval) : res pyval :=
  match defaults with
  | [] => Ok result
  | (key, default) :: rest =>
      result' <- step result key default ;;
      fill step rest result'
  end.

End BaseAgent.
Import BaseAgent.

(** ** [agents/document_classifier.py] *)

Module DocumentClassifier.

(** [_llm_classify]; the keyword hint of [_keyword_match] only enters the
    prompt. *)
Definition _llm_classify (rt : Runtime) (reply : res pystr) : res pyval :=
  result <- _call_llm_json rt reply ;;
  fill setdefault_missing
       [(u8 "doc_type", PStr (u8 "기타_공공문서"));
        (u8 "doc_type_name", PStr (u8 "기타 공공문서"));
        (u8 "confidence", PFloat (FDec false 5 (-1)));
        (u8 "organization", PStr (u8 "알 수 없음"))]
       result.

Definition process (rt : Runtime) (reply : res pystr) (ocr_text : pystr)
  : res pyval :=
  _llm_classify rt reply.

End DocumentClassifier.

(** ** [agents/info_extractor.py] *)

Module InfoExtractor.

Definition ch (s : string) : N := hd 0%N (u8 s).

Definition d : regex := Chr is_digit.                      (* \d *)
Definition sp : regex := Chr is_space.                     (* \s *)
Definition colon_or_space : regex :=                       (* [:\s] *)
  Chr (any_of [lit (ch ":"); is_space]).
Definition digit_or_dash : regex :=                        (* [\d\-] *)
  Chr (any_of [is_digit; lit (ch "-")]).
Definition date_sep : regex :=                             (* [-./] *)
  Chr (any_of [lit (ch "-"); lit (ch "."); lit (ch "/")]).

(** [\d{1,3}(?:,\d{3})*] *)
Definition grouped_number : regex :=
  Cat (Rep d 1 (Some 3)) (star (Cat (Chr (lit (ch ","))) (times d 3))).

(** The first amount pattern: a grouped number (captured), optional
    white space, then the character 원. *)
Definition won_amount : regex :=
  cats [Grp 1 grouped_number; star sp; str (u8 "원")].

(** [self.amount_patterns] *)
Definition amount_patterns : list regex :=
  [ won_amount;
    cats [str (u8 "₩"); star sp; Grp 1 grouped_number];
    cats [str (u8 "금"); star sp; Grp 1 grouped_number; star sp; str (u8 "원")];
    cats [str (u8 "합계"); star colon_or_space; Grp 1 grouped_number;
          star sp; str (u8 "원")];
    cats [str (u8 "총액"); star colon_or_space; Grp 1 grouped_number;
          star sp; str (u8 "원")];
    cats [str (u8 "납부금액"); star colon_or_space; Grp 1 grouped_number;
          star sp; str (u8 "원")] ].

(** [\d{4}[-./]\d{1,2}[-./]\d{1,2}] *)
Definition plain_date : regex :=
  cats [times d 4; date_sep; Rep d 1 (Some 2); date_sep; Rep d 1 (Some 2)].

(** [self.date_patterns] *)
Definition date_patterns : list regex :=
  [ cats [Grp 1 (times d 4);
          Chr (any_of [lit (ch "-"); lit (ch "."); lit (ch "/"); lit (ch "년")]);
          star sp;
          Grp 2 (Rep d 1 (Some 2));
          Chr (any_of [lit (ch "-"); lit (ch "."); lit (ch "/"); lit (ch "월")]);
          star sp;
          Grp 3 (Rep d 1 (Some 2));
          opt (str (u8 "일"))];
    cats [Grp 1 (times d 4); str (u8 "."); Grp 2 (times d 2); str (u8 ".");
          Grp 3 (times d 2)];
    cats [str (u8 "납부기한"); star colon_or_space; Grp 1 plain_date];
    cats [str (u8 "마감일"); star colon_or_space; Grp 1 plain_date];
    cats [str (u8 "기한"); star colon_or_space; Grp 1 plain_date] ].

(** [self.phone_patterns] *)
Definition phone_patterns : list regex :=
  [ cats [Grp 1 (Rep d 2 (Some 4));
          Chr (any_of [lit (ch "-"); lit (ch ")"); is_space]);
          Grp 2 (Rep d 3 (Some 4));
          Chr (any_of [lit (ch "-"); is_space]);
          Grp 3 (times d 4)];
    Grp 1 (cats [str (u8 "1"); times d 3]);
    cats [str (u8 "전화"); star colon_or_space; Grp 1 (plus digit_or_dash)];
    cats [str (u8 "연락처"); star colon_or_space; Grp 1 (plus digit_or_dash)];
    cats [str (u8 "문의"); star colon_or_space; Grp 1 (plus digit_or_dash)] ].

(** [self.account_patterns] *)
Definition account_patterns : list regex :=
  [ cats [str (u8 "계좌"); star (Chr (none_of [is_digit]));
          Grp 1 (cats [Rep d 2 (Some 4);
                       opt (Chr (any_of [lit (ch "-"); is_space]));
                       Rep d 2 (Some 6);
                       opt (Chr (any_of [lit (ch "-"); is_space]));
                       Rep d 2 (Some 6)])];
    cats [str (u8 "납부번호"); star colon_or_space; Grp 1 (plus digit_or_dash)];
    cats [str (u8 "가상계좌"); star colon_or_space; Grp 1 (plus digit_or_dash)] ].

(** The result dict of [_extract_with_rules]; its four keys are fixed. *)
Record RuleCandidates : Type := {
  amounts : list pystr;
  dates : list pystr;
  phones : list pystr;
  accounts : list pystr
}.

(** [if x not in results[k]: results[k].append(x)] *)
Definition append_new (acc : list pystr) (x : pystr) : list pystr :=
  if existsb (str_eqb x) acc then acc else acc ++ [x].

(** The two nested loops over one family of patterns; [pick] is the
    text that a match contributes. *)
Definition collect (pick : rmatch -> pystr) (patterns : list regex)
           (text : pystr) : list pystr :=
  fold_left
    (fun acc pattern =>
       fold_left (fun acc' m => append_new acc' (pick m))
                 (finditer pattern text) acc)
    patterns [].

(** [match.group(1) if match.lastindex else match.group(0)] *)
Definition account_of (m : rmatch) : pystr :=
  match lastindex m with
  | Some (S _) =>
      match group m 1 with
      | Some g => g
      | None => []
      end
  | _ => group0 m
  end.

Definition _extract_with_rules (text : pystr) : RuleCandidates :=
  {| amounts := collect group0 amount_patterns text;
     dates := collect group0 date_patterns text;
     phones := collect group0 phone_patterns text;
     accounts := collect account_of account_patterns text |}.

Definition defaults : list (pystr * pyval) :=
  [(u8 "amount", PNone);
   (u8 "due_date", PNone);
   (u8 "organization", PNone);
   (u8 "penalty_risk", PStr (u8 "NONE"));
   (u8 "action_required", PBool false);
   (u8 "contact", PNone);
   (u8 "account_number", PNone);
   (u8 "recipient_name", PNone)].

(** [_extract_with_llm]: the candidates, the document type and the text
    go into the prompt; the list of urgent keywords is part of the system
    prompt and of nothing else. *)
Definition _extract_with_llm (rt : Runtime) (reply : res pystr)
           (ocr_text : pystr) (doc_type : pyval)
           (rule_candidates : RuleCandidates) : res pyval :=
  result <- _call_llm_json rt reply ;;
  fill setdefault_missing defaults result.

Definition process (rt : Runtime) (reply : res pystr) (ocr_text : pystr)
           (doc_type : pyval) : res pyval :=
  let rule_based := _extract_with_rules ocr_text in
  let llm_result := _extract_with_llm rt reply ocr_text doc_type rule_based in
  llm_result.

End InfoExtractor.

(** ** [agents/rag_agent.py] *)

Module RAGAgent.

(** One entry of [retrieved_chunks], as the dict literal of [process]
    builds it. *)
Record Chunk : Type := {
  chunk_text : pyval;
  chunk_source : pyval;
  chunk_doc_type : pyval;
  chunk_topic : pyval;
  chunk_score : pyval
}.

Definition chunk_dict (ch : Chunk) : pyval :=
  PDict [(u8 "text", chunk_text ch);
         (u8 "source", chunk_source ch);
         (u8 "doc_type", chunk_doc_type ch);
         (u8 "topic", chunk_topic ch);
         (u8 "score", chunk_score ch)].

(** [" ".join(query_parts)]: every part has to be a [str]. *)
Fixpoint join_values (sep : pystr) (parts : list pyval) : res pystr :=
  match parts with
  | [] => Ok []
  | [PStr s] => Ok s
  | PStr s :: rest => t <- join_values sep rest ;; Ok (s ++ sep ++ t)
  | _ :: _ => Raise TypeError
  end.

Definition _build_query (doc_type : pyval) (key_info : pyval) : res pystr :=
  organization <- get key_info (u8 "organization") PNone ;;
  let parts1 := if truthy organization then [doc_type; organization]
                else [doc_type] in
  action_required <- get key_info (u8 "action_required") PNone ;;
  let parts2 := if truthy action_required
                then parts1 ++ [PStr (u8 "처리방법 절차 안내")] else parts1 in
  penalty_risk <- get key_info (u8 "penalty_risk") PNone ;;
  let parts3 := if eq_str penalty_risk (u8 "MEDIUM") || eq_str penalty_risk (u8 "HIGH")
                then parts2 ++ [PStr (u8 "연체 불이익 주의사항")] else parts2 in
  join_values (u8 " ") parts3.

(** [process].  The query is built before the [try]; [attempt] is the
    outcome of the [try] block (similarity search, formatting of the
    chunks and, when there are chunks, the summary completion). *)
Definition process (rt : Runtime) (attempt : res (list Chunk * pyval))
           (doc_type : pyval) (key_info : pyval) : res pyval :=
  query <- _build_query doc_type key_info ;;
  match attempt with
  | Ok (chunks, summary) =>
      Ok (PDict [(u8 "retrieved_chunks", PList (map chunk_dict chunks));
                 (u8 "query", PStr query);
                 (u8 "summary", match chunks with
                                | [] => PStr []
                                | _ :: _ => summary
                                end)])
  | Raise e =>
      Ok (PDict [(u8 "retrieved_chunks", PList []);
                 (u8 "query", PStr query);
                 (u8 "summary", PStr []);
                 (u8 "error", PStr (text_of_exn rt e))])
  end.

End RAGAgent.

(** ** [agents/action_planner.py] *)

Module ActionPlanner.

Inductive ActionType : Type :=
| NONE | PAY | CALL | VISIT | CHECK | SUBMIT | URGENT.

Definition value (a : ActionType) : pystr :=
  match a with
  | NONE => u8 "NONE"
  | PAY => u8 "PAY"
  | CALL => u8 "CALL"
  | VISIT => u8 "VISIT"
  | CHECK => u8 "CHECK"
  | SUBMIT => u8 "SUBMIT"
  | URGENT => u8 "URGENT"
  end.

(** [doc_type.lower()]: a method of [str]. *)
Definition lower_method (rt : Runtime) (v : pyval) : res pystr :=
  match v with
  | PStr s => Ok (lower rt s)
  | _ => Raise AttributeError
  end.

Definition _determine_action_type (rt : Runtime) (doc_type : pyval)
           (key_info : pyval) : res ActionType :=
  amount <- get key_info (u8 "amount") PNone ;;
  payment <- (if truthy amount
              then due_date <- get key_info (u8 "due_date") PNone ;;
                   Ok (truthy due_date)
              else Ok false) ;;
  if payment then
    penalty_risk <- get key_info (u8 "penalty_risk") PNone ;;
    if eq_str penalty_risk (u8 "HIGH") then Ok URGENT else Ok PAY
  else
    action_required <- get key_info (u8 "action_required") PNone ;;
    if truthy action_required then
      penalty_risk <- get key_info (u8 "penalty_risk") PNone ;;
      if eq_str penalty_risk (u8 "HIGH") then Ok URGENT else Ok CHECK
    else
      doc_type_lower <- lower_method rt doc_type ;;
      amount' <- (if str_contains (u8 "고지서") doc_type_lower
                     || str_contains (u8 "납부") doc_type_lower
                  then get key_info (u8 "amount") PNone
                  else Ok PNone) ;;
      if truthy amount' then Ok PAY
      else if str_contains (u8 "통지서") doc_type_lower
              || str_contains (u8 "체납") doc_type_lower
      then Ok URGENT
      else if str_contains (u8 "안내문") doc_type_lower
      then Ok NONE
      else Ok CHECK.

Definition _determine_urgency (key_info : pyval) : res pystr :=
  penalty_risk <- get key_info (u8 "penalty_risk") (PStr (u8 "NONE")) ;;
  if eq_str penalty_risk (u8 "HIGH") then Ok (u8 "HIGH")
  else if eq_str penalty_risk (u8 "MEDIUM") then Ok (u8 "MEDIUM")
  else
    action_required <- get key_info (u8 "action_required") PNone ;;
    if truthy action_required then Ok (u8 "MEDIUM") else Ok (u8 "LOW").

(** [rag_context and rag_context.get("summary")] *)
Definition context_summary (rag_context : pyval) : res pyval :=
  if truthy rag_context then get rag_context (u8 "summary") PNone
  else Ok rag_context.

Definition generic_step : pyval :=
  PList [PStr (u8 "이 문서에 대해 추가 확인이 필요합니다.")].

(** [_generate_action_plan]; the prompt reads [key_info] with [.get]. *)
Definition _generate_action_plan (rt : Runtime) (reply : res pystr)
           (doc_type : pyval) (key_info : pyval) (action_type : ActionType)
           (urgency : pystr) (rag_context : pyval) : res pyval :=
  _ <- context_summary rag_context ;;
  _ <- get key_info (u8 "amount") PNone ;;
  result <- _call_llm_json rt reply ;;
  result <- setdefault_falsy result (u8 "steps") generic_step ;;
  result <- setdefault_missing result (u8 "action_type") (PStr (value action_type)) ;;
  result <- setdefault_missing result (u8 "urgency") (PStr urgency) ;;
  Ok result.

Definition process (rt : Runtime) (reply : res pystr) (doc_type : pyval)
           (key_info : pyval) (rag_context : pyval) : res pyval :=
  action_type <- _determine_action_type rt doc_type key_info ;;
  urgency <- _determine_urgency key_info ;;
  _generate_action_plan rt reply doc_type key_info action_type urgency
                        rag_context.

End ActionPlanner.

(** ** [agents/simplifier.py] *)

Module Simplifier.

(** [guide.get(key)] and, when it is truthy, the [.get] calls on it. *)
Definition channel (guide : pyval) (key field : pystr) : res pyval :=
  part <- get guide key PNone ;;
  if truthy part then _ <- get part field (PStr []) ;; Ok part
  else Ok part.

(** [', '.join(visit['documents'])]: a list of [str], the characters of
    a [str] or the keys of a dict. *)
Definition join_documents (documents : pyval) : res unit :=
  match documents with
  | PList l => _ <- RAGAgent.join_values (u8 ", ") l ;; Ok tt
  | PStr _ => Ok tt
  | PDict _ => Ok tt
  | _ => Raise TypeError
  end.

(** The body of [if metadata.get("action_guide"):]; the text it builds
    only enters the prompt.  Its [json.loads] is inside a bare [except]
    that catches whatever it raises. *)
Definition render_action_guide (rt : Runtime) (action_guide : pyval) : res unit :=
  let guide :=
    match action_guide with
    | PStr s =>
        match Json.loads (Json.at_depth (guide_json_depth rt) (json rt)) s with
        | Ok v => v
        | Raise _ => PDict []
        end
    | _ => action_guide
    end in
  _ <- channel guide (u8 "phone") (u8 "number") ;;
  _ <- channel guide (u8 "online") (u8 "url") ;;
  visit <- channel guide (u8 "visit") (u8 "place") ;;
  if truthy visit then
    documents <- get visit (u8 "documents") PNone ;;
    if truthy documents then join_documents documents else Ok tt
  else Ok tt.

(** [for chunk in rag_context["retrieved_chunks"]: ...] with its
    [break] at the first chunk that has an action guide. *)
Fixpoint scan_chunks (rt : Runtime) (chunks : list pyval) : res unit :=
  match chunks with
  | [] => Ok tt
  | chunk :: rest =>
      metadata <- get chunk (u8 "metadata") (PDict []) ;;
      action_guide <- get metadata (u8 "action_guide") PNone ;;
      if truthy action_guide then render_action_guide rt action_guide
      else scan_chunks rt rest
  end.

Definition action_guide_info (rt : Runtime) (rag_context : pyval) : res unit :=
  if truthy rag_context then
    chunks <- get rag_context (u8 "retrieved_chunks") PNone ;;
    if truthy chunks then
      match chunks with
      | PList l => scan_chunks rt l
      | PStr _ | PDict _ => Raise AttributeError    (* a str has no .get *)
      | _ => Raise TypeError                        (* not iterable *)
      end
    else Ok tt
  else Ok tt.

Definition defaults : list (pystr * pyval) :=
  [(u8 "summary_one_line", PStr (u8 "확인이 필요한 문서입니다."));
   (u8 "risk_level", PStr (u8 "LOW"));
   (u8 "risk_message", PStr []);
   (u8 "what_is_this", PStr (u8 "공공기관에서 보낸 문서입니다."));
   (u8 "key_points", PList []);
   (u8 "steps_easy", PList [PStr (u8 "자세히 읽어보세요.")]);
   (u8 "help_channels", PDict []);
   (u8 "dont_worry", PStr []);
   (u8 "need_help_message", PStr (u8 "가까운 주민센터에 문의하세요."))].

Definition _generate_simple_explanation (rt : Runtime) (reply : res pystr)
           (doc_type : pyval) (key_info : pyval) (action_plan : pyval)
           (rag_context : pyval) : res pyval :=
  _ <- action_guide_info rt rag_context ;;
  _ <- get action_plan (u8 "steps") (PList []) ;;
  _ <- get key_info (u8 "amount") PNone ;;
  result <- _call_llm_json rt reply ;;
  fill setdefault_falsy defaults result.

Definition process (rt : Runtime) (reply : res pystr) (doc_type : pyval)
           (key_info : pyval) (action_plan : pyval) (rag_context : pyval)
  : res pyval :=
  _generate_simple_explanation rt reply doc_type key_info action_plan
                               rag_context.

End Simplifier.

(** ** [core/pipeline.py] *)

Module Pipeline.

Record AnalysisResult : Type := {
  doc_type : pyval;
  doc_type_name : pyval;
  organization : pyval;
  risk_level : pyval;
  action_required : pyval;
  key_info : pyval;
  summary_one_line : pyval;
  what_is_this : pyval;
  key_points : pyval;
  steps_easy : pyval;
  dont_worry : pyval;
  need_help_message : pyval;
  action_plan : pyval;
  evidence_chunks : pyval;
  ocr_confidence : Q;
  processing_time_ms : Z
}.

(** [AnalysisResult()] *)
Definition new_result : AnalysisResult :=
  {| doc_type := PStr [];
     doc_type_name := PStr [];
     organization := PStr [];
     risk_level := PStr (u8 "LOW");
     action_required := PBool false;
     key_info := PDict [];
     summary_one_line := PStr [];
     what_is_this := PStr [];
     key_points := PList [];
     steps_easy := PList [];
     dont_worry := PStr [];
     need_help_message := PStr [];
     action_plan := PDict [];
     evidence_chunks := PList [];
     ocr_confidence := 0%Q;
     processing_time_ms := 0%Z |}.

(** Attribute assignments [result.field = v] *)
Definition set_doc_type (v : _) (r : AnalysisResult) : AnalysisResult :=
  {| doc_type := v; doc_type_name := doc_type_name r;
     organization := organization r; risk_level := risk_level r;
     action_required := action_required r; key_info := key_info r;
     summary_one_line := summary_one_line r; what_is_this := what_is_this r;
     key_points := key_points r; steps_easy := steps_easy r;
     dont_worry := dont_worry r; need_help_message := need_help_message r;
     action_plan := action_plan r; evidence_chunks := evidence_chunks r;
     ocr_confidence := ocr_confidence r;
     processing_time_ms := processing_time_ms r |}.

Definition set_doc_type_name (v : _) (r : AnalysisResult) : AnalysisResult :=
  {| doc_type := doc_type r; doc_type_name := v;
     organization := organization r; risk_level := risk_level r;
     action_required := action_required r; key_info := key_info r;
     summary_one_line := summary_one_line r; what_is_this := what_is_this r;
     key_points := key_points r; steps_easy := steps_easy r;
     dont_worry := dont_worry r; need_help_message := need_help_message r;
     action_plan := action_plan r; evidence_chunks := evidence_chunks r;
     ocr_confidence := ocr_confidence r;
     processing_time_ms := processing_time_ms r |}.

Definition set_organization (v : _) (r : AnalysisResult) : AnalysisResult :=
  {| doc_type := doc_type r; doc_type_name := doc_type_name r;
     organization := v; risk_level := risk_level r;
     action_required := action_required r; key_info := key_info r;
     summary_one_line := summary_one_line r; what_is_this := what_is_this r;
     key_points := key_points r; steps_easy := steps_easy r;
     dont_worry := dont_worry r; need_help_message := need_help_message r;
     action_plan := action_plan r; evidence_chunks := evidence_chunks r;
     ocr_confidence := ocr_confidence r;
     processing_time_ms := processing_time_ms r |}.

Definition set_risk_level (v : _) (r : AnalysisResult) : AnalysisResult :=
  {| doc_type := doc_type r; doc_type_name := doc_type_name r;
     organization := organization r; risk_level := v;
     action_required := action_required r; key_info := key_info r;
     summary_one_line := summary_one_line r; what_is_this := what_is_this r;
     key_points := key_points r; steps_easy := steps_easy r;
     dont_worry := dont_worry r; need_help_message := need_help_message r;
     action_plan := action_plan r; evidence_chunks := evidence_chunks r;
     ocr_confidence := ocr_confidence r;
     processing_time_ms := processing_time_ms r |}.

Definition set_action_required (v : _) (r : AnalysisResult) : AnalysisResult :=
  {| doc_type := doc_type r; doc_type_name := doc_type_name r;
     organization := organization r; risk_level := risk_level r;
     action_required := v; key_info := key_info r;
     summary_one_line := summary_one_line r; what_is_this := what_is_this r;
     key_points := key_points r; steps_easy := steps_easy r;
     dont_worry := dont_worry r; need_help_message := need_help_message r;
     action_plan := action_plan r; evidence_chunks := evidence_chunks r;
     ocr_confidence := ocr_confidence r;
     processing_time_ms := processing_time_ms r |}.

Definition set_key_info (v : _) (r : AnalysisResult) : AnalysisResult :=
  {| doc_type := doc_type r; doc_type_name := doc_type_name r;
     organization := organization r; risk_level := risk_level r;
     action_required := action_required r; key_info := v;
     summary_one_line := summary_one_line r; what_is_this := what_is_this r;
     key_points := key_points r; steps_easy := steps_easy r;
     dont_worry := dont_worry r; need_help_message := need_help_message r;
     action_plan := action_plan r; evidence_chunks := evidence_chunks r;
     ocr_confidence := ocr_confidence r;
     processing_time_ms := processing_time_ms r |}.

Definition set_summary_one_line (v : _) (r : AnalysisResult) : AnalysisResult :=
  {| doc_type := doc_type r; doc_type_name := doc_type_name r;
     organization := organization r; risk_level := risk_level r;
     action_required := action_required r; key_info := key_info r;
     summary_one_line := v; what_is_this := what_is_this r;
     key_points := key_points r; steps_easy := steps_easy r;
     dont_worry := dont_worry r; need_help_message := need_help_message r;
     action_plan := action_plan r; evidence_chunks := evidence_chunks r;
     ocr_confidence := ocr_confidence r;
     processing_time_ms := processing_time_ms r |}.

Definition set_what_is_this (v : _) (r : AnalysisResult) : AnalysisResult :=
  {| doc_type := doc_type r; doc_type_name := doc_type_name r;
     organization := organization r; risk_level := risk_level r;
     action_required := action_required r; key_info := key_info r;
     summary_one_line := summary_one_line r; what_is_this := v;
     key_points := key_points r; steps_easy := steps_easy r;
     dont_worry := dont_worry r; need_help_message := need_help_message r;
     action_plan := action_plan r; evidence_chunks := evidence_chunks r;
     ocr_confidence := ocr_confidence r;
     processing_time_ms := processing_time_ms r |}.

Definition set_key_points (v : _) (r : AnalysisResult) : AnalysisResult :=
  {| doc_type := doc_type r; doc_type_name := doc_type_name r;
     organization := organization r; risk_level := risk_level r;
     action_required := action_required r; key_info := key_info r;
     summary_one_line := summary_one_line r; what_is_this := what_is_this r;
     key_points := v; steps_easy := steps_easy r; dont_worry := dont_worry r;
     need_help_message := need_help_message r; action_plan := action_plan r;
     evidence_chunks := evidence_chunks r;
     ocr_confidence := ocr_confidence r;
     processing_time_ms := processing_time_ms r |}.

Definition set_steps_easy (v : _) (r : AnalysisResult) : AnalysisResult :=
  {| doc_type := doc_type r; doc_type_name := doc_type_name r;
     organization := organization r; risk_level := risk_level r;
     action_required := action_required r; key_info := key_info r;
     summary_one_line := summary_one_line r; what_is_this := what_is_this r;
     key_points := key_points r; steps_easy := v; dont_worry := dont_worry r;
     need_help_message := need_help_message r; action_plan := action_plan r;
     evidence_chunks := evidence_chunks r;
     ocr_confidence := ocr_confidence r;
     processing_time_ms := processing_time_ms r |}.

Definition set_dont_worry (v : _) (r : AnalysisResult) : AnalysisResult :=
  {| doc_type := doc_type r; doc_type_name := doc_type_name r;
     organization := organization r; risk_level := risk_level r;
     action_required := action_required r; key_info := key_info r;
     summary_one_line := summary_one_line r; what_is_this := what_is_this r;
     key_points := key_points r; steps_easy := steps_easy r; dont_worry := v;
     need_help_message := need_help_message r; action_plan := action_plan r;
     evidence_chunks := evidence_chunks r;
     ocr_confidence := ocr_confidence r;
     processing_time_ms := processing_time_ms r |}.

Definition set_need_help_message (v : _) (r : AnalysisResult) : AnalysisResult :=
  {| doc_type := doc_type r; doc_type_name := doc_type_name r;
     organization := organization r; risk_level := risk_level r;
     action_required := action_required r; key_info := key_info r;
     summary_one_line := summary_one_line r; what_is_this := what_is_this r;
     key_points := key_points r; steps_easy := steps_easy r;
     dont_worry := dont_worry r; need_help_message := v;
     action_plan := action_plan r; evidence_chunks := evidence_chunks r;
     ocr_confidence := ocr_confidence r;
     processing_time_ms := processing_time_ms r |}.

Definition set_action_plan (v : _) (r : AnalysisResult) : AnalysisResult :=
  {| doc_type := doc_type r; doc_type_name := doc_type_name r;
     organization := organization r; risk_level := risk_level r;
     action_required := action_required r; key_info := key_info r;
     summary_one_line := summary_one_line r; what_is_this := what_is_this r;
     key_points := key_points r; steps_easy := steps_easy r;
     dont_worry := dont_worry r; need_help_message := need_help_message r;
     action_plan := v; evidence_chunks := evidence_chunks r;
     ocr_confidence := ocr_confidence r;
     processing_time_ms := processing_time_ms r |}.

Definition set_evidence_chunks (v : _) (r : AnalysisResult) : AnalysisResult :=
  {| doc_type := doc_type r; doc_type_name := doc_type_name r;
     organization := organization r; risk_level := risk_level r;
     action_required := action_required r; key_info := key_info r;
     summary_one_line := summary_one_line r; what_is_this := what_is_this r;
     key_points := key_points r; steps_easy := steps_easy r;
     dont_worry := dont_worry r; need_help_message := need_help_message r;
     action_plan := action_plan r; evidence_chunks := v;
     ocr_confidence := ocr_confidence r;
     processing_time_ms := processing_time_ms r |}.

Definition set_ocr_confidence (v : _) (r : AnalysisResult) : AnalysisResult :=
  {| doc_type := doc_type r; doc_type_name := doc_type_name r;
     organization := organization r; risk_level := risk_level r;
     action_required := action_required r; key_info := key_info r;
     summary_one_line := summary_one_line r; what_is_this := what_is_this r;
     key_points := key_points r; steps_easy := steps_easy r;
     dont_worry := dont_worry r; need_help_message := need_help_message r;
     action_plan := action_plan r; evidence_chunks := evidence_chunks r;
     ocr_confidence := v; processing_time_ms := processing_time_ms r |}.

Definition set_processing_time_ms (v : _) (r : AnalysisResult) : AnalysisResult :=
  {| doc_type := doc_type r; doc_type_name := doc_type_name r;
     organization := organization r; risk_level := risk_level r;
     action_required := action_required r; key_info := key_info r;
     summary_one_line := summary_one_line r; what_is_this := what_is_this r;
     key_points := key_points r; steps_easy := steps_easy r;
     dont_worry := dont_worry r; need_help_message := need_help_message r;
     action_plan := action_plan r; evidence_chunks := evidence_chunks r;
     ocr_confidence := ocr_confidence r; processing_time_ms := v |}.

(** One page of acquired text ([OCRResult]). *)
Record OCRResult : Type := { text : pystr; confidence : Q }.

(** What one run receives from outside the process. *)
Record World : Type := {
  clock_start : Q;                               (* first time.time() *)
  clock_stop : Q;                                (* time.time() in finally *)
  acquired : res (list OCRResult);               (* stages 1 and 2 *)
  reply_classifier : res pystr;
  reply_extractor : res pystr;
  reply_planner : res pystr;
  reply_simplifier : res pystr;
  rag_attempt : res (list RAGAgent.Chunk * pyval)
}.

(** The local variables of [analyze] that outlive one stage, with the
    result object under construction. *)
Record Frame : Type := {
  result : AnalysisResult;
  full_text : pystr;
  v_key_info : pyval;
  v_rag_result : pyval;
  v_action_plan : pyval
}.

Definition new_frame (r : AnalysisResult) (txt : pystr) : Frame :=
  {| result := r; full_text := txt; v_key_info := PNone;
     v_rag_result := PNone; v_action_plan := PNone |}.

(** Statements of the [try] body: they end normally, by [return result]
    or by an exception; assignments made before that stay. *)
Inductive outcome (A : Type) : Type :=
| Done : A -> outcome A
| Returned : outcome A
| Raised : exn -> outcome A.
Arguments Done {A} _.
Arguments Returned {A}.
Arguments Raised {A} _.

Definition M (A : Type) : Type := Frame -> outcome A * Frame.

Definition ret {A : Type} (a : A) : M A := fun f => (Done a, f).

Definition bindM {A B : Type} (m : M A) (k : A -> M B) : M B :=
  fun f =>
    match m f with
    | (Done a, f') => k a f'
    | (Returned, f') => (Returned, f')
    | (Raised e, f') => (Raised e, f')
    end.

Declare Scope pipe_scope.
Delimit Scope pipe_scope with pipe.
Notation "x <- m ;; k" := (bindM m (fun x => k))
  (at level 61, m at next level, right associativity) : pipe_scope.
Notation "m ;; k" := (bindM m (fun _ => k))
  (at level 61, right associativity) : pipe_scope.

(** A call that returns or raises. *)
Definition call {A : Type} (r : res A) : M A :=
  fun f => match r with
           | Ok a => (Done a, f)
           | Raise e => (Raised e, f)
           end.

Definition read {A : Type} (proj : Frame -> A) : M A := fun f => (Done (proj f), f).

(** [result.field = v] *)
Definition assign (upd : AnalysisResult -> AnalysisResult) : M unit :=
  fun f => (Done tt,
            {| result := upd (result f); full_text := full_text f;
               v_key_info := v_key_info f; v_rag_result := v_rag_result f;
               v_action_plan := v_action_plan f |}).

Definition let_key_info (v : pyval) : M unit :=
  fun f => (Done tt,
            {| result := result f; full_text := full_text f;
               v_key_info := v; v_rag_result := v_rag_result f;
               v_action_plan := v_action_plan f |}).

Definition let_rag_result (v : pyval) : M unit :=
  fun f => (Done tt,
            {| result := result f; full_text := full_text f;
               v_key_info := v_key_info f; v_rag_result := v;
               v_action_plan := v_action_plan f |}).

Definition let_action_plan (v : pyval) : M unit :=
  fun f => (Done tt,
            {| result := result f; full_text := full_text f;
               v_key_info := v_key_info f; v_rag_result := v_rag_result f;
               v_action_plan := v |}).

Definition return_result : M unit := fun f => (Returned, f).

Section Stages.
Variable rt : Runtime.
Variable w : World.

Local Open Scope pipe_scope.

(** Stage 3: Document Classification *)
Definition classification_stage : M unit :=
  txt <- read full_text ;;
  classification <- call (DocumentClassifier.process rt (reply_classifier w) txt) ;;
  v <- call (get classification (u8 "doc_type") (PStr (u8 "기타_공공문서"))) ;;
  assign (set_doc_type v) ;;
  v <- call (get classification (u8 "doc_type_name") (PStr (u8 "기타 공공문서"))) ;;
  assign (set_doc_type_name v) ;;
  v <- call (get classification (u8 "organization") (PStr [])) ;;
  assign (set_organization v).

(** Stage 4: Information Extraction, and the risk level *)
Definition extraction_stage : M unit :=
  txt <- read full_text ;;
  r <- read result ;;
  key_info <- call (InfoExtractor.process rt (reply_extractor w) txt
                                          (doc_type r)) ;;
  let_key_info key_info ;;
  assign (set_key_info key_info) ;;
  v <- call (get key_info (u8 "action_required") (PBool false)) ;;
  assign (set_action_required v) ;;
  penalty_risk <- call (get key_info (u8 "penalty_risk") (PStr (u8 "NONE"))) ;;
  if eq_str penalty_risk (u8 "HIGH") then
    assign (set_risk_level (PStr (u8 "HIGH")))
  else if eq_str penalty_risk (u8 "MEDIUM") then
    assign (set_risk_level (PStr (u8 "MEDIUM")))
  else
    assign (set_risk_level (PStr (u8 "LOW"))).

(** Stage 5: RAG Context Retrieval *)
Definition retrieval_stage : M unit :=
  r <- read result ;;
  key_info <- read v_key_info ;;
  rag_result <- call (RAGAgent.process rt (rag_attempt w) (doc_type r) key_info) ;;
  let_rag_result rag_result ;;
  v <- call (get rag_result (u8 "retrieved_chunks") (PList [])) ;;
  assign (set_evidence_chunks v).

(** Stage 6: Action Planning *)
Definition planning_stage : M unit :=
  r <- read result ;;
  key_info <- read v_key_info ;;
  rag_result <- read v_rag_result ;;
  plan <- call (ActionPlanner.process rt (reply_planner w) (doc_type r)
                                      key_info rag_result) ;;
  let_action_plan plan ;;
  assign (set_action_plan plan).

(** Stage 7: Simplification *)
Definition simplification_stage : M unit :=
  r <- read result ;;
  key_info <- read v_key_info ;;
  rag_result <- read v_rag_result ;;
  plan <- read v_action_plan ;;
  simplified <- call (Simplifier.process rt (reply_simplifier w)
                                         (doc_type_name r) key_info plan
                                         rag_result) ;;
  v <- call (get simplified (u8 "summary_one_line") (PStr [])) ;;
  assign (set_summary_one_line v) ;;
  v <- call (get simplified (u8 "what_is_this") (PStr [])) ;;
  assign (set_what_is_this v) ;;
  v <- call (get simplified (u8 "key_points") (PList [])) ;;
  assign (set_key_points v) ;;
  v <- call (get simplified (u8 "steps_easy") (PList [])) ;;
  assign (set_steps_easy v) ;;
  r' <- read result ;;
  v <- call (get simplified (u8 "risk_level") (risk_level r')) ;;
  assign (set_risk_level v) ;;
  v <- call (get simplified (u8 "dont_worry") (PStr [])) ;;
  assign (set_dont_worry v) ;;
  v <- call (get simplified (u8 "need_help_message") (PStr [])) ;;
  assign (set_need_help_message v).

(** The five stages that follow the acquisition, in the order in which
    both [analyze] and [analyze_text] run them. *)
Definition stages : list (M unit) :=
  [classification_stage; extraction_stage; retrieval_stage;
   planning_stage; simplification_stage].

Fixpoint run_all (ms : list (M unit)) : M unit :=
  match ms with
  | [] => ret tt
  | m :: rest => m ;; run_all rest
  end.

(** Stages 1 and 2, then the test [if not full_text.strip()]. *)
Definition acquisition_stage : M unit :=
  ocr_results <- call (acquired w) ;;
  let txt := str_join [10; 10]%N (map text ocr_results) in
  let avg_confidence :=
    match ocr_results with
    | [] => 0%Q
    | _ :: _ => mean rt (map confidence ocr_results)
    end in
  (fun f => (Done tt,
             {| result := set_ocr_confidence avg_confidence (result f);
                full_text := txt; v_key_info := v_key_info f;
                v_rag_result := v_rag_result f;
                v_action_plan := v_action_plan f |})) ;;
  if is_blank txt then
    assign (set_summary_one_line (PStr (u8 "문서를 읽을 수 없습니다."))) ;;
    assign (set_what_is_this
              (PStr (u8 "이미지 품질이 좋지 않아 글자를 인식하지 못했습니다."))) ;;
    assign (set_steps_easy (PList [PStr (u8 "더 선명한 사진을 다시 찍어주세요.")])) ;;
    return_result
  else ret tt.

(** [except Exception as e:] *)
Definition on_exception (e : exn) (r : AnalysisResult) : AnalysisResult :=
  set_steps_easy (PList [PStr (u8 "다시 시도해주세요.")])
    (set_what_is_this (PStr (u8 "오류: " ++ text_of_exn rt e))
       (set_summary_one_line (PStr (u8 "문서 분석 중 오류가 발생했습니다.")) r)).

(** [try: body / except Exception / finally], then [return result]. *)
Definition guarded (body : M unit) (f0 : Frame) : AnalysisResult :=
  let '(o, f1) := body f0 in
  let r1 := match o with
            | Raised e => on_exception e (result f1)
            | _ => result f1
            end in
  set_processing_time_ms (elapsed_ms rt (clock_start w) (clock_stop w)) r1.

Definition analyze : AnalysisResult :=
  guarded (acquisition_stage ;; run_all stages) (new_frame new_result []).

Definition analyze_text (txt : pystr) : AnalysisResult :=
  guarded (run_all stages)
          (new_frame (set_ocr_confidence 100%Q new_result) txt).

End Stages.

End Pipeline.

(** ** [api/main.py]: the history log *)

Module History.

(** What [HISTORY_FILE] holds. *)
Inductive file : Type :=
| Absent : file                   (* the file does not exist *)
| Saved : list pyval -> file      (* the complete dump of a list *)
| Broken : file.                  (* the rest of an interrupted dump: not JSON *)

(** How a write ends: the dump completes; [open] fails and leaves the
    file as it was; or [open] has emptied the file and the dump fails
    before it is complete. *)
Inductive write : Type :=
| Written : write
| Refused : write
| Interrupted : write.

(** The module-level list [analysis_history] and the file. *)
Record Store : Type := {
  analysis_history : list pyval;
  history_file : file
}.

(** [xs[-n:]] for a positive [n] *)
Definition last_n {A : Type} (n : nat) (xs : list A) : list A :=
  skipn (List.length xs - n) xs.

(** [save_history]; a failed write is swallowed by [except: pass], but
    the mode ['w'] has emptied the file once [open] has returned. *)
Definition save_history (outcome : write) (st : Store) : Store :=
  match outcome with
  | Written =>
      {| analysis_history := analysis_history st;
         history_file := Saved (last_n 50 (analysis_history st)) |}
  | Refused => st
  | Interrupted =>
      {| analysis_history := analysis_history st; history_file := Broken |}
  end.

(** One call of [add_to_history]: its arguments and what it reads from
    outside ([uuid.uuid4()], [datetime.now()], the file system). *)
Record Request : Type := {
  req_result : list (pystr * pyval);
  req_filename : option pystr;
  req_uuid : pystr;
  req_now : pystr;
  req_write : write
}.

Definition history_entry (rq : Request) : pyval :=
  PDict [(u8 "id", lookup_or (req_result rq) (u8 "analysis_id") (PStr (req_uuid rq)));
         (u8 "timestamp", PStr (req_now rq));
         (u8 "filename", PStr (match req_filename rq with
                               | Some (ch :: name) => ch :: name
                               | _ => u8 "텍스트 입력"
                               end));
         (u8 "doc_type_name",
          lookup_or (req_result rq) (u8 "doc_type_name") (PStr (u8 "알 수 없음")));
         (u8 "summary_one_line",
          lookup_or (req_result rq) (u8 "summary_one_line") (PStr []));
         (u8 "risk_level", lookup_or (req_result rq) (u8 "risk_level") (PStr (u8 "LOW")));
         (u8 "result", PDict (req_result rq))].

(** [add_to_history]: [insert(0, entry)], then [save_history()]. *)
Definition add_to_history (st : Store) (rq : Request) : Store :=
  save_history (req_write rq)
    {| analysis_history := history_entry rq :: analysis_history st;
       history_file := history_file st |}.

(** [load_history] at start-up; a file that cannot be opened or decoded
    gives []. *)
Definition load_history (readable : bool) (st : Store) : Store :=
  match history_file st with
  | Absent => st
  | Saved entries =>
      {| analysis_history := if readable then entries else [];
         history_file := history_file st |}
  | Broken => {| analysis_history := []; history_file := history_file st |}
  end.

(** [GET /history]: [analysis_history[:limit]] for [limit >= 0] *)
Definition get_history (limit : nat) (st : Store) : list pyval :=
  firstn limit (analysis_history st).

Definition empty_store : Store :=
  {| analysis_history := []; history_file := Absent |}.

(** A sequence of appends, oldest request first. *)
Definition add_all (st : Store) (rqs : list Request) : Store :=
  fold_left add_to_history rqs st.

End History.

(** ** [agents/document_classifier.py]: the keyword pre-filter *)

Module Keywords.

Record DocumentType : Type := {
  type_code : pystr;
  keywords : list pystr;
  description : pystr
}.

(** [DOCUMENT_TYPES], in the order of the dict literal *)
Definition DOCUMENT_TYPES : list DocumentType :=
  [ {| type_code := u8 "건강보험료_고지서";
       keywords := [u8 "건강보험"; u8 "보험료"; u8 "납부"; u8 "국민건강보험공단"];
       description := u8 "건강보험료 납부 고지서" |};
    {| type_code := u8 "국민연금_안내문";
       keywords := [u8 "국민연금"; u8 "연금공단"; u8 "수급"; u8 "지급"];
       description := u8 "국민연금 관련 안내문" |};
    {| type_code := u8 "세금_통지서";
       keywords := [u8 "국세청"; u8 "세금"; u8 "소득세"; u8 "부가가치세";
                    u8 "종합소득"; u8 "체납"];
       description := u8 "세금 관련 통지서" |};
    {| type_code := u8 "지방세_고지서";
       keywords := [u8 "지방세"; u8 "재산세"; u8 "자동차세"; u8 "주민세"];
       description := u8 "지방세 관련 고지서" |};
    {| type_code := u8 "주민센터_안내문";
       keywords := [u8 "주민센터"; u8 "동사무소"; u8 "행정복지센터"; u8 "민원"];
       description := u8 "주민센터/행정복지센터 안내문" |};
    {| type_code := u8 "복지_안내문";
       keywords := [u8 "복지"; u8 "수급"; u8 "기초생활"; u8 "차상위"; u8 "지원금"];
       description := u8 "복지 관련 안내문" |};
    {| type_code := u8 "공과금_고지서";
       keywords := [u8 "전기요금"; u8 "가스요금"; u8 "수도요금"; u8 "관리비";
                    u8 "아파트"];
       description := u8 "공과금/관리비 고지서" |};
    {| type_code := u8 "은행_통지서";
       keywords := [u8 "은행"; u8 "대출"; u8 "이자"; u8 "예금"; u8 "적금"; u8 "카드"];
       description := u8 "금융기관 통지서" |};
    {| type_code := u8 "법원_통지서";
       keywords := [u8 "법원"; u8 "소송"; u8 "재판"; u8 "출석"; u8 "판결"];
       description := u8 "법원 관련 통지서" |};
    {| type_code := u8 "기타_공공문서";
       keywords := [];
       description := u8 "기타 공공문서" |} ].

(** The inner loop [for keyword in info["keywords"]], which stops at the
    first keyword found in the text: does it append? *)
Fixpoint first_keyword_found (kws : list pystr) (text_lower : pystr) : bool :=
  match kws with
  | [] => false
  | keyword :: rest =>
      if str_contains keyword text_lower then true
      else first_keyword_found rest text_lower
  end.

(** The outer loop over a catalog. *)
Definition match_types (catalog : list DocumentType) (text_lower : pystr)
  : list pystr :=
  fold_left
    (fun matches info =>
       if first_keyword_found (keywords info) text_lower
       then matches ++ [type_code info]
       else matches)
    catalog [].

Definition _keyword_match (rt : Runtime) (txt : pystr) : list pystr :=
  match_types DOCUMENT_TYPES (lower rt txt).

End Keywords.

(** ** [agents/simplifier.py]: which action guide the loop takes *)

Module Guide.

(** The chunk loop of [_generate_simple_explanation] up to its [if]:
    the first truthy [metadata["action_guide"]], if there is one. *)
Fixpoint find_action_guide (chunks : list pyval) : res (option pyval) :=
  match chunks with
  | [] => Ok None
  | chunk :: rest =>
      metadata <- get chunk (u8 "metadata") (PDict []) ;;
      action_guide <- get metadata (u8 "action_guide") PNone ;;
      if truthy action_guide then Ok (Some action_guide)
      else find_action_guide rest
  end.

End Guide.

(** ** [api/main.py]: reading and clearing the history *)

Module HistoryApi.
Import History.

(** [{"status": "success", **mapping}] *)
Definition with_status (mapping : pyval) : res pyval :=
  match mapping with
  | PDict kvs =>
      Ok (PDict (fold_left (fun acc kv => store (fst kv) (snd kv) acc) kvs
                           [(u8 "status", PStr (u8 "success"))]))
  | _ => Raise TypeError
  end.

(** [get_history_detail]: the first entry whose id is [analysis_id];
    [Ok None] stands for the 404 response. *)
Fixpoint find_detail (analysis_id : pystr) (entries : list pyval)
  : res (option pyval) :=
  match entries with
  | [] => Ok None
  | h :: rest =>
      id <- getitem h (u8 "id") ;;
      if eq_str id analysis_id then
        result <- getitem h (u8 "result") ;;
        response <- with_status result ;;
        Ok (Some response)
      else find_detail analysis_id rest
  end.

Definition get_history_detail (analysis_id : pystr) (st : Store)
  : res (option pyval) :=
  find_detail analysis_id (analysis_history st).

(** [clear_history] *)
Definition clear_history (outcome : write) (st : Store) : Store :=
  save_history outcome
    {| analysis_history := []; history_file := history_file st |}.

End HistoryApi.

(** ** [rag/embeddings.py]: the text sent for embedding *)

Module Embeddings.

(** [text.replace("\n", " ")] *)
Definition replace_newlines (s : pystr) : pystr :=
  map (fun ch => if (ch =? 10)%N then 32%N else ch) s.

Fixpoint lstrip (s : pystr) : pystr :=
  match s with
  | ch :: s' => if is_space ch then lstrip s' else s
  | [] => []
  end.

Definition rstrip (s : pystr) : pystr := rev (lstrip (rev s)).

(** [s.strip()] *)
Definition strip (s : pystr) : pystr := rstrip (lstrip s).

(** The cleaning at the head of [embed_text], and of the loop of
    [embed_texts]. *)
Definition max_chars : nat := N.to_nat 8000.

Definition clean (txt : pystr) : pystr :=
  let t := strip (replace_newlines txt) in
  if Nat.ltb max_chars (List.length t) then firstn max_chars t else t.

End Embeddings.

(** * Specifications and scenarios *)

Import Pipeline.

(** ** The decision table of the planner *)

Module PlannerTable.
Import ActionPlanner.

(** A fact is present when [facts.get(key)] is truthy: neither missing,
    nor [None], nor empty, nor zero. *)
Definition present (facts : list (pystr * pyval)) (key : pystr) : bool :=
  truthy (lookup_or facts key PNone).

Definition risk_is_high (facts : list (pystr * pyval)) : bool :=
  eq_str (lookup_or facts (u8 "penalty_risk") PNone) (u8 "HIGH").

(** The type code, in lower case, has one of the words as a substring. *)
Definition category (words : list pystr) (code : pystr) : bool :=
  existsb (fun word => str_contains word code) words.

Definition notice_or_payment : list pystr := [u8 "고지서"; u8 "납부"].
Definition collection_or_overdue : list pystr := [u8 "통지서"; u8 "체납"].
Definition informational : list pystr := [u8 "안내문"].

(** The eight rules, in priority order. *)
Definition priority_table (rt : Runtime) (type_code : pystr)
           (facts : list (pystr * pyval)) : list (bool * ActionType) :=
  let code := lower rt type_code in
  [ (present facts (u8 "amount") && present facts (u8 "due_date")
       && risk_is_high facts, URGENT);
    (present facts (u8 "amount") && present facts (u8 "due_date"), PAY);
    (present facts (u8 "action_required") && risk_is_high facts, URGENT);
    (present facts (u8 "action_required"), CHECK);
    (category notice_or_payment code && present facts (u8 "amount"), PAY);
    (category collection_or_overdue code, URGENT);
    (category informational code, NONE);
    (true, CHECK) ].

Fixpoint first_match (table : list (bool * ActionType)) : ActionType :=
  match table with
  | [] => CHECK
  | (true, a) :: _ => a
  | (false, _) :: rest => first_match rest
  end.

End PlannerTable.

(** JSON text is written with apostrophes in place of double quotes. *)
Definition jq (s : string) : pystr :=
  map (fun ch => if (ch =? 39)%N then 34%N else ch) (u8 s).

(** A notice with high-risk markers, and a refinement that plays it down. *)
Definition overdue_notice : pystr := u8 "건강보험료 체납 독촉장 납부금액: 150,000원".

Definition mild_refinement : res pystr :=
  Ok (jq "{'amount': '150,000원', 'penalty_risk': 'LOW', 'action_required': false}").

(** Facts for which the table decides URGENT with HIGH urgency, and a
    generated plan that says otherwise. *)
Definition urgent_facts : list (pystr * pyval) :=
  [(u8 "amount", PStr (u8 "150,000원"));
   (u8 "due_date", PStr (u8 "2025-01-31"));
   (u8 "penalty_risk", PStr (u8 "HIGH"));
   (u8 "action_required", PBool true)].

Definition relaxed_plan : res pystr :=
  Ok (jq "{'action_type': 'NONE', 'urgency': 'LOW', 'steps': ['보관하세요.']}").

(** A runtime for the scenarios: it agrees with the interpreter on text
    without cased letters outside ASCII, computes with exact rationals,
    and has the default limits (a recursion limit of 1000, of which the
    call stack has used a hundred, and 4300 digits). *)
Definition ascii_lower (s : pystr) : pystr :=
  map (fun ch => if (65 <=? ch)%N && (ch <=? 90)%N then (ch + 32)%N else ch) s.

Definition exn_name (e : exn) : pystr :=
  match e with
  | JSONDecodeError => u8 "Expecting value"
  | RecursionError => u8 "maximum recursion depth exceeded"
  | ValueError => u8 "Exceeds the limit for integer string conversion"
  | TypeError => u8 "TypeError"
  | AttributeError => u8 "AttributeError"
  | KeyError => u8 "KeyError"
  | External msg => msg
  end.

Definition scenario_runtime : Runtime :=
  {| lower := ascii_lower;
     text_of_exn := exn_name;
     elapsed_ms := fun start stop =>
       let ms := ((stop - start) * 1000)%Q in
       Z.quot (Qnum ms) (Z.pos (Qden ms));
     mean := fun xs =>
       (fold_right Qplus 0%Q xs / inject_Z (Z.of_nat (List.length xs)))%Q;
     json := {| Json.depth := 900; Json.max_digits := 4300%N;
                Json.error_room := 3; Json.constant_room := 1;
                Json.value_room := 2; Json.extra_room := 1 |};
     guide_json_depth := 901 |}.

(** [Optional[Dict]] *)
Definition optional_dict (o : option (list (pystr * pyval))) : pyval :=
  match o with
  | Some d => PDict d
  | None => PNone
  end.

(** A completion that wraps an object with unquoted keys in prose. *)
Definition unquoted_reply : pystr := u8 "결과: {penalty_risk: HIGH}".

(** Numbered requests for the history log. *)
Definition two_digits (n : nat) : pystr :=
  [N.of_nat (48 + n / 10); N.of_nat (48 + n mod 10)].

Definition request_no (n : nat) : History.Request :=
  {| History.req_result := [(u8 "analysis_id", PStr (u8 "doc-" ++ two_digits n))];
     History.req_filename := None;
     History.req_uuid := u8 "uuid-" ++ two_digits n;
     History.req_now := u8 "2025-01-" ++ two_digits n;
     History.req_write := History.Written |}.

(** Requests number [1] to [n], oldest first. *)
Definition requests_up_to (n : nat) : list History.Request :=
  map request_no (seq 1 n).

(** Some stage of the list, reached with every earlier stage done,
    raises [e]. *)
Definition stage_raises (ms : list (M unit)) (f0 : Frame) (e : exn) : Prop :=
  exists pre m post f1 f2,
    ms = pre ++ m :: post /\
    run_all pre f0 = (Done tt, f1) /\
    m f1 = (Raised e, f2).

Definition failure_diagnostic (r : AnalysisResult) : Prop :=
  summary_one_line r = PStr (u8 "문서 분석 중 오류가 발생했습니다.") /\
  steps_easy r = PList [PStr (u8 "다시 시도해주세요.")].

(** The frame in which [analyze_text] enters its [try]. *)
Definition text_frame (txt : pystr) : Frame :=
  new_frame (set_ocr_confidence 100%Q new_result) txt.

(** The frame in which [analyze] enters its [try]. *)
Definition file_frame : Frame := new_frame new_result [].

(** A world in which the extraction call times out. *)
Definition broken_extractor : World :=
  {| clock_start := 10%Q;
     clock_stop := (21 # 2)%Q;
     acquired := Ok [{| text := u8 "국민건강보험공단 보험료 납부 고지서";
                        confidence := (9 # 10)%Q |}];
     reply_classifier :=
       Ok (jq "{'doc_type': '건강보험료_고지서', 'doc_type_name': '건강보험료 납부 고지서'}");
     reply_extractor := Raise (External (u8 "Request timed out."));
     reply_planner := Raise (External (u8 "unused"));
     reply_simplifier := Raise (External (u8 "unused"));
     rag_attempt := Raise (External (u8 "unused")) |}.

(** A world in which the acquired pages hold white space only. *)
Definition blank_scan : World :=
  {| clock_start := 10%Q;
     clock_stop := (21 # 2)%Q;
     acquired := Ok [{| text := [32; 10]%N; confidence := 0%Q |};
                     {| text := []; confidence := 0%Q |}];
     reply_classifier := Raise (External (u8 "unused"));
     reply_extractor := Raise (External (u8 "unused"));
     reply_planner := Raise (External (u8 "unused"));
     reply_simplifier := Raise (External (u8 "unused"));
     rag_attempt := Raise (External (u8 "unused")) |}.

(** The three [if ... not in result] statements that end
    [_generate_action_plan]. *)
Definition ensure_plan_fields (result : pyval) (a : ActionPlanner.ActionType)
           (u : pystr) : res pyval :=
  result <- setdefault_falsy result (u8 "steps") ActionPlanner.generic_step ;;
  result <- setdefault_missing result (u8 "action_type")
                               (PStr (ActionPlanner.value a)) ;;
  result <- setdefault_missing result (u8 "urgency") (PStr u) ;;
  Ok result.






(** A world in which every call answers; the extraction finds a HIGH
    risk and the simplification words it as LOW. *)
Definition softened : World :=
  {| clock_start := 10%Q;
     clock_stop := (21 # 2)%Q;
     acquired := Ok [{| text := u8 "건강보험료 체납 독촉장 납부금액: 150,000원";
                        confidence := (9 # 10)%Q |}];
     reply_classifier :=
       Ok (jq "{'doc_type': '건강보험료_고지서', 'doc_type_name': '건강보험료 납부 고지서'}");
     reply_extractor :=
       Ok (jq "{'amount': '150,000원', 'penalty_risk': 'HIGH', 'action_required': true}");
     reply_planner := Ok (jq "{'steps': ['1단계: 공단에 전화하세요.']}");
     reply_simplifier :=
       Ok (jq "{'summary_one_line': '보험료를 내세요.', 'risk_level': 'LOW', 'steps_easy': ['전화하세요.']}");
     rag_attempt := Raise (External (u8 "vector store not available")) |}.

(** A world in which every call answers, with a plan and an explanation
    that have no steps. *)
Definition stepless : World :=
  {| clock_start := 10%Q;
     clock_stop := (21 # 2)%Q;
     acquired := Ok [{| text := u8 "건강보험료 체납 독촉장 납부금액: 150,000원";
                        confidence := (9 # 10)%Q |}];
     reply_classifier :=
       Ok (jq "{'doc_type': '건강보험료_고지서', 'doc_type_name': '건강보험료 납부 고지서'}");
     reply_extractor :=
       Ok (jq "{'amount': '150,000원', 'penalty_risk': 'HIGH', 'action_required': true}");
     reply_planner := Ok (jq "{'action_type': 'PAY', 'steps': []}");
     reply_simplifier := Ok (jq "{'summary_one_line': '보험료를 내세요.'}");
     rag_attempt := Raise (External (u8 "vector store not available")) |}.

(** The strings that a pattern can match in full, as the matcher sees
    them: an iteration of a repetition consumes at least one character. *)
Inductive lang : regex -> pystr -> Prop :=
| lang_eps : lang Eps []
| lang_chr : forall (p : N -> bool) (ch : N), p ch = true -> lang (Chr p) [ch]
| lang_cat : forall r1 r2 a b,
    lang r1 a -> lang r2 b -> lang (Cat r1 r2) (a ++ b)
| lang_grp : forall n r a, lang r a -> lang (Grp n r) a
| lang_rep_stop : forall r hi, lang (Rep r 0 hi) []
| lang_rep_more : forall r lo hi a b,
    hi <> Some 0 -> a <> [] ->
    lang r a ->
    lang (Rep r (Nat.pred lo) (option_map Nat.pred hi)) b ->
    lang (Rep r lo hi) (a ++ b).

(** [pattern.fullmatch(s) is not None] *)
Definition fullmatch (r : regex) (s : pystr) : bool :=
  existsb (fun sc : run => match fst sc with [] => true | _ :: _ => false end)
          (runs r s []).

Definition won : N := InfoExtractor.ch "원".
Definition comma : N := InfoExtractor.ch ",".

Definition digit_or_comma (ch : N) : bool := is_digit ch || (ch =? comma)%N.

(** The last character of [pre], if any, is a digit or a comma. *)
Definition ends_in_number (pre : pystr) : bool :=
  match rev pre with
  | ch :: _ => digit_or_comma ch
  | [] => false
  end.

(** The scenario of the specification, and a text in which one amount
    is the tail of a longer one. *)
Definition payment_notice : pystr :=
  u8 "납부금액: 150,000원, 납부기한: 2025-01-31, 문의: 1577-1000".

Definition million_notice : pystr := u8 "1,150,000원".

(** A match of the first amount pattern: a digit, then digits and
    commas, then white space, then 원. *)
Definition amount_shape (m : pystr) : Prop :=
  exists d x ws,
    m = (d :: x) ++ ws ++ [won] /\
    is_digit d = true /\
    Forall (fun ch => digit_or_comma ch = true) x /\
    Forall (fun ch => is_space ch = true) ws.

(** ** Further scenarios and notions *)

(** A string with a decimal digit in it. *)
Definition has_digit (m : pystr) : Prop :=
  exists ch, In ch m /\ is_digit ch = true.

(** The braces of the pattern of [_call_llm_json]. *)
Definition lbrace : N := 123%N.
Definition rbrace : N := 125%N.

(** After the white space that [json.loads] skips, the reply does not
    begin with a bracket, a brace, a minus sign or a digit: what it
    holds is neither an array, an object nor a number. *)
Definition starts_plain (response : pystr) : bool :=
  match Json.skip_ws response with
  | x :: _ =>
      negb ((x =? Json.c "[")%N || (x =? lbrace)%N || (x =? Json.c "-")%N
            || Json.is_ascii_digit x)
  | [] => true
  end.

(** A world in which every call answers; the extraction finds a HIGH
    risk and the simplification names no risk level. *)
Definition unrated : World :=
  {| clock_start := 10%Q;
     clock_stop := (21 # 2)%Q;
     acquired := Ok [{| text := u8 "건강보험료 체납 독촉장 납부금액: 150,000원";
                        confidence := (9 # 10)%Q |}];
     reply_classifier :=
       Ok (jq "{'doc_type': '건강보험료_고지서', 'doc_type_name': '건강보험료 납부 고지서'}");
     reply_extractor :=
       Ok (jq "{'amount': '150,000원', 'penalty_risk': 'HIGH', 'action_required': true}");
     reply_planner := Ok (jq "{'steps': ['1단계: 공단에 전화하세요.']}");
     reply_simplifier :=
       Ok (jq "{'summary_one_line': '보험료를 내세요.', 'steps_easy': ['전화하세요.']}");
     rag_attempt := Raise (External (u8 "vector store not available")) |}.

(** [generated.get(key)] is missing or falsy. *)
Definition absent_or_empty (generated : list (pystr * pyval)) (key : pystr) : bool :=
  negb (truthy (lookup_or generated key PNone)).

(** [isinstance(v, str)] *)
Definition is_str (v : pyval) : bool :=
  match v with
  | PStr _ => true
  | _ => false
  end.

(** A world in which the classification answers [null] for the type
    code, and every other call would answer. *)
Definition null_type : World :=
  {| clock_start := 10%Q;
     clock_stop := (21 # 2)%Q;
     acquired := Ok [{| text := u8 "건강보험료 체납 독촉장 납부금액: 150,000원";
                        confidence := (9 # 10)%Q |}];
     reply_classifier := Ok (jq "{'doc_type': null, 'doc_type_name': '알 수 없는 문서'}");
     reply_extractor :=
       Ok (jq "{'amount': '150,000원', 'penalty_risk': 'HIGH', 'action_required': true}");
     reply_planner := Ok (jq "{'steps': ['1단계: 공단에 전화하세요.']}");
     reply_simplifier :=
       Ok (jq "{'summary_one_line': '보험료를 내세요.', 'steps_easy': ['전화하세요.']}");
     rag_attempt := Ok ([], PStr []) |}.

(** The same frame with another confidence in the result. *)
Definition with_confidence (c : Q) (f : Frame) : Frame :=
  {| result := set_ocr_confidence c (result f); full_text := full_text f;
     v_key_info := v_key_info f; v_rag_result := v_rag_result f;
     v_action_plan := v_action_plan f |}.

(** The text that [analyze] hands to the later stages, and the
    confidence that it reports. *)
Definition page_text (pages : list OCRResult) : pystr :=
  str_join [10; 10]%N (map text pages).

Definition page_confidence (rt : Runtime) (pages : list OCRResult) : Q :=
  match pages with
  | [] => 0%Q
  | _ :: _ => mean rt (map confidence pages)
  end.

(** A statement that does not read the confidence. *)
Definition ignores_confidence (m : M unit) : Prop :=
  forall c f, m (with_confidence c f) = (fst (m f), with_confidence c (snd (m f))).

(** The risk level that stage 4 derives from the extracted
    [penalty_risk]. *)
Definition risk_of_penalty (penalty_risk : pyval) : pyval :=
  if eq_str penalty_risk (u8 "HIGH") then PStr (u8 "HIGH")
  else if eq_str penalty_risk (u8 "MEDIUM") then PStr (u8 "MEDIUM")
  else PStr (u8 "LOW").

(** A world in which the extraction finds a HIGH risk and the planning
    call fails. *)
Definition broken_planner : World :=
  {| clock_start := 10%Q;
     clock_stop := (21 # 2)%Q;
     acquired := Ok [{| text := u8 "건강보험료 체납 독촉장 납부금액: 150,000원";
                        confidence := (9 # 10)%Q |}];
     reply_classifier :=
       Ok (jq "{'doc_type': '건강보험료_고지서', 'doc_type_name': '건강보험료 납부 고지서'}");
     reply_extractor :=
       Ok (jq "{'amount': '150,000원', 'penalty_risk': 'HIGH', 'action_required': true}");
     reply_planner := Raise (External (u8 "Rate limit reached."));
     reply_simplifier := Raise (External (u8 "unused"));
     rag_attempt := Raise (External (u8 "vector store not available")) |}.




(** The file holds at most fifty entries. *)
Definition file_bounded (st : History.Store) : Prop :=
  match History.history_file st with
  | History.Saved entries => List.length entries <= 50
  | History.Absent | History.Broken => True
  end.

(** The response of the text endpoint to a short notice. *)
Definition stored_response : History.Request :=
  {| History.req_result :=
       [(u8 "status", PStr (u8 "success"));
        (u8 "analysis_id", PStr (u8 "7f3c"));
        (u8 "doc_type_name", PStr (u8 "건강보험료 납부 고지서"));
        (u8 "risk_level", PStr (u8 "MEDIUM"))];
     History.req_filename := None;
     History.req_uuid := u8 "unused";
     History.req_now := u8 "2025-01-07T09:00:00";
     History.req_write := History.Written |}.

(** * Properties *)

Unset Implicit Arguments.


Arguments u8 : simpl never.

(** ** Strings and dictionaries *)

Lemma str_eqb_eq (a b : pystr) : str_eqb a b = true <-> a = b.
Proof.
  revert b; induction a as [|x a IH]; intros [|y b]; simpl; split;
    try congruence; try reflexivity.
  - intros H. apply andb_true_iff in H as [Hx Hr].
    apply N.eqb_eq in Hx. apply IH in Hr. congruence.
  - intros H. injection H as -> ->.
    apply andb_true_iff; split; [apply N.eqb_refl | now apply IH].
Qed.

Lemma str_eqb_refl (a : pystr) : str_eqb a a = true.
Proof. now apply str_eqb_eq. Qed.

Lemma str_eqb_neq (a b : pystr) : str_eqb a b = false <-> a <> b.
Proof.
  split.
  - intros H E. apply str_eqb_eq in E. congruence.
  - intros H. destruct (str_eqb a b) eqn:E; [|reflexivity].
    apply str_eqb_eq in E. contradiction.
Qed.

Lemma lookup_store_same k v d : lookup k (store k v d) = Some v.
Proof.
  induction d as [|[k' v'] d IH]; simpl.
  - now rewrite str_eqb_refl.
  - destruct (str_eqb k k') eqn:E; simpl; rewrite E; auto.
Qed.

Lemma lookup_store_other k k' v d :
  str_eqb k k' = false -> lookup k (store k' v d) = lookup k d.
Proof.
  intros Hne. induction d as [|[k0 v0] d IH]; simpl.
  - now rewrite Hne.
  - destruct (str_eqb k' k0) eqn:E; simpl.
    + apply str_eqb_eq in E; subst k0. now rewrite Hne.
    + destruct (str_eqb k k0); auto.
Qed.

Lemma lookup_store k k' v d :
  lookup k (store k' v d) = if str_eqb k k' then Some v else lookup k d.
Proof.
  destruct (str_eqb k k') eqn:E.
  - apply str_eqb_eq in E; subst. apply lookup_store_same.
  - now apply lookup_store_other.
Qed.

(** Case analysis on the facts and on the substrings of the type code. *)
Ltac planner_cases facts :=
  unfold ActionPlanner._determine_action_type, ActionPlanner.lower_method,
    get, lookup_or;
  simpl;
  destruct (lookup (u8 "amount") facts) as [?amount|];
  destruct (lookup (u8 "due_date") facts) as [?due|];
  destruct (lookup (u8 "penalty_risk") facts) as [?risk|];
  destruct (lookup (u8 "action_required") facts) as [?req|];
  simpl;
  repeat match goal with
         | |- context [str_contains ?a ?b] => destruct (str_contains a b); simpl
         end;
  repeat match goal with
         | |- context [truthy ?v] =>
             let E := fresh "E" in destruct (truthy v) eqn:E; simpl; rewrite ?E
         | |- context [eq_str ?v ?s] => destruct (eq_str v s); simpl
         end.

Lemma action_type_of_facts (rt : Runtime) (type_code : pystr)
      (facts : list (pystr * pyval)) :
  exists a,
    ActionPlanner._determine_action_type rt (PStr type_code) (PDict facts) = Ok a.
Proof. planner_cases facts; eauto. Qed.

Lemma urgency_of_facts (facts : list (pystr * pyval)) :
  exists u, ActionPlanner._determine_urgency (PDict facts) = Ok u.
Proof.
  unfold ActionPlanner._determine_urgency, get. simpl.
  destruct (eq_str _ (u8 "HIGH")); [eauto|].
  destruct (eq_str _ (u8 "MEDIUM")); [eauto|].
  destruct (truthy _); eauto.
Qed.

(** C7.  For every type code and every dict of facts, the action type
    that [_determine_action_type] returns is the action of the first
    rule of the eight-rule priority table whose condition holds. *)
Theorem determine_action_type_first_matching_rule :
  forall (rt : Runtime) (type_code : pystr) (facts : list (pystr * pyval)),
    ActionPlanner._determine_action_type rt (PStr type_code) (PDict facts)
    = Ok (PlannerTable.first_match
            (PlannerTable.priority_table rt type_code facts)).
Proof.
  intros rt type_code facts.
  unfold PlannerTable.priority_table, PlannerTable.present,
    PlannerTable.risk_is_high, PlannerTable.category,
    PlannerTable.notice_or_payment, PlannerTable.collection_or_overdue,
    PlannerTable.informational.
  planner_cases facts; reflexivity.
Qed.

(** ** Filling in defaults *)

Lemma setdefault_missing_dict d key default :
  setdefault_missing (PDict d) key default
  = Ok (PDict (match lookup key d with
               | Some _ => d
               | None => store key default d
               end)).
Proof.
  unfold setdefault_missing. simpl.
  destruct (lookup key d); reflexivity.
Qed.

Lemma setdefault_falsy_dict d key default :
  setdefault_falsy (PDict d) key default
  = Ok (PDict (match lookup key d with
               | Some v => if truthy v then d else store key default d
               | None => store key default d
               end)).
Proof.
  unfold setdefault_falsy. simpl.
  destruct (lookup key d) as [v|]; simpl; [destruct (truthy v)|]; reflexivity.
Qed.

Lemma setdefault_falsy_needs_dict v key default v' :
  setdefault_falsy v key default = Ok v' -> exists d, v = PDict d.
Proof.
  destruct v as [| | | |s|l|d]; simpl; try discriminate.
  - unfold setdefault_falsy; simpl. destruct (str_contains key s); discriminate.
  - unfold setdefault_falsy; simpl.
    destruct (existsb (fun v => eq_str v key) l); discriminate.
  - intros _. eauto.
Qed.

Lemma lookup_absent k (d : list (pystr * pyval)) :
  ~ In k (map fst d) -> lookup k d = None.
Proof.
  induction d as [|[k' v] d IH]; simpl; intros H; [reflexivity|].
  destruct (str_eqb k k') eqn:E.
  - apply str_eqb_eq in E. subst. tauto.
  - apply IH. tauto.
Qed.

(** After [if key not in result: result[key] = default] for every default,
    a key of the generated dict keeps its value and a missing key has
    its default. *)
Lemma fill_missing_dict defs :
  forall d, exists d',
    fill setdefault_missing defs (PDict d) = Ok (PDict d') /\
    forall k, lookup k d' = match lookup k d with
                            | Some v => Some v
                            | None => lookup k defs
                            end.
Proof.
  induction defs as [|[key default] defs IH]; intros d; simpl.
  - exists d. split; [reflexivity|]. intros k. now destruct (lookup k d).
  - rewrite setdefault_missing_dict. simpl.
    destruct (IH (match lookup key d with
                  | Some _ => d
                  | None => store key default d
                  end)) as [d' [Hfill Hlook]].
    exists d'. split; [exact Hfill|]. intros k. rewrite Hlook.
    destruct (lookup key d) as [v0|] eqn:Hkey.
    + destruct (lookup k d) eqn:Hk; [reflexivity|].
      destruct (str_eqb k key) eqn:E; [|reflexivity].
      apply str_eqb_eq in E. subst. congruence.
    + rewrite lookup_store.
      destruct (str_eqb k key) eqn:E.
      * apply str_eqb_eq in E. subst. now rewrite Hkey.
      * reflexivity.
Qed.

(** The same for [if key not in result or not result[key]]: a falsy
    generated value is replaced as well. *)
Lemma fill_falsy_dict defs :
  NoDup (map fst defs) ->
  forall d, exists d',
    fill setdefault_falsy defs (PDict d) = Ok (PDict d') /\
    forall k, lookup k d' =
              match lookup k defs with
              | Some default =>
                  match lookup k d with
                  | Some v => if truthy v then Some v else Some default
                  | None => Some default
                  end
              | None => lookup k d
              end.
Proof.
  induction defs as [|[key default] defs IH]; intros Hnd d; simpl.
  - exists d. split; reflexivity.
  - rewrite setdefault_falsy_dict. simpl.
    inversion Hnd as [|? ? Hnot Hnd']; subst.
    set (d1 := match lookup key d with
               | Some v => if truthy v then d else store key default d
               | None => store key default d
               end).
    destruct (IH Hnd' d1) as [d' [Hfill Hlook]].
    exists d'. split; [exact Hfill|]. intros k. rewrite Hlook.
    destruct (str_eqb k key) eqn:E.
    + apply str_eqb_eq in E. subst k.
      rewrite (lookup_absent _ _ Hnot). subst d1.
      destruct (lookup key d) as [v|] eqn:Hkey.
      * destruct (truthy v); [exact Hkey | apply lookup_store_same].
      * apply lookup_store_same.
    + assert (Hd1 : lookup k d1 = lookup k d).
      { subst d1. destruct (lookup key d) as [v|];
          [destruct (truthy v)|]; try reflexivity;
          now apply lookup_store_other. }
      now rewrite Hd1.
Qed.

Lemma fill_falsy_needs_dict defs v v' :
  defs <> [] -> fill setdefault_falsy defs v = Ok v' -> exists d, v = PDict d.
Proof.
  destruct defs as [|[key default] defs]; [congruence|]. intros _. simpl.
  destruct (setdefault_falsy v key default) eqn:E; simpl; [|discriminate].
  intros _. eapply setdefault_falsy_needs_dict; eauto.
Qed.

(** ** The extractor and the urgent keywords *)

(** C1, as the code has it.  Whatever the text contains, the facts that
    [process] returns are the parsed output of the generative refinement
    with the missing keys defaulted: [penalty_risk] is the generated
    value when there is one and ["NONE"] otherwise, [action_required] is
    the generated value when there is one and [False] otherwise. *)
Theorem extractor_returns_generated_risk :
  forall (rt : Runtime) (reply : res pystr) (ocr_text : pystr)
         (doc_type : pyval) (generated : list (pystr * pyval)),
    _call_llm_json rt reply = Ok (PDict generated) ->
    exists facts,
      InfoExtractor.process rt reply ocr_text doc_type = Ok (PDict facts) /\
      lookup (u8 "penalty_risk") facts
      = Some (lookup_or generated (u8 "penalty_risk") (PStr (u8 "NONE"))) /\
      lookup (u8 "action_required") facts
      = Some (lookup_or generated (u8 "action_required") (PBool false)).
Proof.
  intros rt reply ocr_text doc_type generated Hgen.
  unfold InfoExtractor.process, InfoExtractor._extract_with_llm.
  rewrite Hgen. simpl.
  destruct (fill_missing_dict InfoExtractor.defaults generated)
    as [facts [Hfill Hlook]].
  exists facts. split; [exact Hfill|].
  rewrite !Hlook. unfold lookup_or.
  split.
  - destruct (lookup (u8 "penalty_risk") generated); reflexivity.
  - destruct (lookup (u8 "action_required") generated); reflexivity.
Qed.

Lemma extractor_returns_generated_risk_witness :
  exists facts,
    InfoExtractor.process scenario_runtime mild_refinement overdue_notice
                          (PStr (u8 "세금_통지서"))
    = Ok (PDict facts) /\
    lookup (u8 "penalty_risk") facts
    = Some (lookup_or [(u8 "amount", PStr (u8 "150,000원"));
                       (u8 "penalty_risk", PStr (u8 "LOW"));
                       (u8 "action_required", PBool false)]
                      (u8 "penalty_risk") (PStr (u8 "NONE"))) /\
    lookup (u8 "action_required") facts
    = Some (lookup_or [(u8 "amount", PStr (u8 "150,000원"));
                       (u8 "penalty_risk", PStr (u8 "LOW"));
                       (u8 "action_required", PBool false)]
                      (u8 "action_required") (PBool false)).
Proof.
  apply (extractor_returns_generated_risk scenario_runtime mild_refinement
           overdue_notice (PStr (u8 "세금_통지서"))).
  vm_compute. reflexivity.
Defined.

(** C1 fails as stated: the text has the high-risk markers 체납 and 독촉,
    the refinement answers LOW and false, and so does [process]. *)
Lemma high_risk_marker_not_enforced :
  str_contains (u8 "체납") overdue_notice = true /\
  str_contains (u8 "독촉") overdue_notice = true /\
  (facts <- InfoExtractor.process scenario_runtime mild_refinement
                                  overdue_notice (PStr (u8 "세금_통지서")) ;;
   getitem facts (u8 "penalty_risk")) = Ok (PStr (u8 "LOW")) /\
  (facts <- InfoExtractor.process scenario_runtime mild_refinement
                                  overdue_notice (PStr (u8 "세금_통지서")) ;;
   getitem facts (u8 "action_required")) = Ok (PBool false).
Proof. vm_compute. repeat split; reflexivity. Qed.

(** ** The planner and the generated plan *)

Lemma ensure_plan_fields_dict generated a u :
  exists plan,
    ensure_plan_fields (PDict generated) a u = Ok (PDict plan) /\
    lookup (u8 "action_type") plan
    = Some (lookup_or generated (u8 "action_type") (PStr (ActionPlanner.value a))) /\
    lookup (u8 "urgency") plan
    = Some (lookup_or generated (u8 "urgency") (PStr u)) /\
    exists steps, lookup (u8 "steps") plan = Some steps /\ truthy steps = true.
Proof.
  unfold ensure_plan_fields.
  rewrite setdefault_falsy_dict. simpl.
  rewrite setdefault_missing_dict. simpl.
  rewrite setdefault_missing_dict. simpl.
  eexists. split; [reflexivity|].
  set (d1 := match lookup (u8 "steps") generated with
             | Some v0 => if truthy v0 then generated
                          else store (u8 "steps") ActionPlanner.generic_step generated
             | None => store (u8 "steps") ActionPlanner.generic_step generated
             end).
  assert (H1 : forall k, str_eqb k (u8 "steps") = false ->
                         lookup k d1 = lookup k generated).
  { intros k Hk. subst d1. destruct (lookup (u8 "steps") generated) as [v0|];
      [destruct (truthy v0)|]; try reflexivity; now apply lookup_store_other. }
  assert (Hs : exists steps, lookup (u8 "steps") d1 = Some steps /\ truthy steps = true).
  { subst d1. destruct (lookup (u8 "steps") generated) as [v0|] eqn:E.
    - destruct (truthy v0) eqn:T.
      + eauto.
      + rewrite lookup_store_same. eexists; split; reflexivity.
    - rewrite lookup_store_same. eexists; split; reflexivity. }
  set (d2 := match lookup (u8 "action_type") d1 with
             | Some _ => d1
             | None => store (u8 "action_type") (PStr (ActionPlanner.value a)) d1
             end).
  assert (H2 : lookup (u8 "action_type") d2
               = Some (lookup_or generated (u8 "action_type")
                                 (PStr (ActionPlanner.value a)))).
  { subst d2. unfold lookup_or. rewrite <- (H1 (u8 "action_type")) by reflexivity.
    destruct (lookup (u8 "action_type") d1) eqn:E; [exact E|].
    apply lookup_store_same. }
  assert (H2' : forall k, str_eqb k (u8 "action_type") = false ->
                          lookup k d2 = lookup k d1).
  { intros k Hk. subst d2. destruct (lookup (u8 "action_type") d1);
      [reflexivity | now apply lookup_store_other]. }
  assert (Hu : lookup (u8 "urgency") d2 = lookup (u8 "urgency") generated).
  { rewrite H2' by reflexivity. now apply H1. }
  repeat split.
  - destruct (lookup (u8 "urgency") d2);
      [exact H2 | rewrite lookup_store_other by reflexivity; exact H2].
  - unfold lookup_or. rewrite <- Hu.
    destruct (lookup (u8 "urgency") d2) eqn:E; [exact E | apply lookup_store_same].
  - destruct Hs as [steps [Hl Ht]]. exists steps. split; [|exact Ht].
    rewrite <- Hl, <- (H2' (u8 "steps")) by reflexivity.
    destruct (lookup (u8 "urgency") d2); [reflexivity|].
    now apply lookup_store_other.
Qed.


Lemma generate_action_plan_dict rt reply doc_type facts a u rag generated :
  _call_llm_json rt reply = Ok (PDict generated) ->
  ActionPlanner._generate_action_plan rt reply doc_type (PDict facts) a u
                                      (optional_dict rag)
  = ensure_plan_fields (PDict generated) a u.
Proof.
  intros Hgen. unfold ActionPlanner._generate_action_plan.
  assert (Hctx : exists v, ActionPlanner.context_summary (optional_dict rag) = Ok v).
  { destruct rag as [d|]; unfold ActionPlanner.context_summary; simpl.
    - destruct d; simpl; eauto.
    - eauto. }
  destruct Hctx as [v ->]. simpl. rewrite Hgen. reflexivity.
Qed.


(** C8.  When the generated plan is a dict, [process] returns it with
    its own [action_type] and [urgency] whenever it has these keys; the
    values decided by the table are written only under a missing key. *)
Theorem planner_decision_is_only_a_fallback :
  forall (rt : Runtime) (reply : res pystr) (type_code : pystr)
         (facts : list (pystr * pyval))
         (rag_context : option (list (pystr * pyval)))
         (generated : list (pystr * pyval)),
    _call_llm_json rt reply = Ok (PDict generated) ->
    exists plan a u,
      ActionPlanner._determine_action_type rt (PStr type_code) (PDict facts) = Ok a /\
      ActionPlanner._determine_urgency (PDict facts) = Ok u /\
      ActionPlanner.process rt reply (PStr type_code) (PDict facts)
                            (optional_dict rag_context) = Ok (PDict plan) /\
      lookup (u8 "action_type") plan
      = Some (lookup_or generated (u8 "action_type") (PStr (ActionPlanner.value a))) /\
      lookup (u8 "urgency") plan
      = Some (lookup_or generated (u8 "urgency") (PStr u)).
Proof.
  intros rt reply type_code facts rag generated Hgen.
  unfold ActionPlanner.process.
  destruct (action_type_of_facts rt type_code facts) as [a Ha]. rewrite Ha.
  destruct (urgency_of_facts facts) as [u Hu]. rewrite Hu. simpl.
  rewrite (generate_action_plan_dict rt reply (PStr type_code) facts a u rag
             generated Hgen).
  destruct (ensure_plan_fields_dict generated a u) as [plan [Hplan [Hat [Hurg _]]]].
  exists plan, a, u. repeat split; assumption.
Qed.

Lemma planner_decision_is_only_a_fallback_witness :
  exists plan,
    ActionPlanner._determine_action_type scenario_runtime
      (PStr (u8 "세금_통지서")) (PDict urgent_facts) = Ok ActionPlanner.URGENT /\
    ActionPlanner._determine_urgency (PDict urgent_facts) = Ok (u8 "HIGH") /\
    ActionPlanner.process scenario_runtime relaxed_plan (PStr (u8 "세금_통지서"))
                          (PDict urgent_facts) PNone = Ok (PDict plan) /\
    lookup (u8 "action_type") plan = Some (PStr (u8 "NONE")) /\
    lookup (u8 "urgency") plan = Some (PStr (u8 "LOW")).
Proof.
  assert (Hgen : _call_llm_json scenario_runtime relaxed_plan
                 = Ok (PDict [(u8 "action_type", PStr (u8 "NONE"));
                              (u8 "urgency", PStr (u8 "LOW"));
                              (u8 "steps", PList [PStr (u8 "보관하세요.")])])).
  { vm_compute. reflexivity. }
  destruct (planner_decision_is_only_a_fallback scenario_runtime relaxed_plan
              (u8 "세금_통지서") urgent_facts None _ Hgen)
    as [plan [a [u [Ha [Hu [Hp [Hat Hurg]]]]]]].
  exists plan.
  split; [vm_compute; reflexivity|].
  split; [vm_compute; reflexivity|].
  split; [exact Hp|].
  split; [exact Hat | exact Hurg].
Defined.

(** ** Malformed generative output *)

Lemma loads_unquoted_reply (lim : Json.Limits) :
  Json.loads lim unquoted_reply = Raise (Json.expecting_value lim).
Proof. destruct lim. vm_compute. reflexivity. Qed.

Lemma loads_unquoted_object (lim : Json.Limits) :
  Json.loads lim (u8 "{penalty_risk: HIGH}")
  = Raise (match Json.depth lim with
           | O => RecursionError
           | S free => Json.scanner_error lim free
           end).
Proof. destruct lim as [[|d] m e c v x]; vm_compute; reflexivity. Qed.

Lemma search_braces_unquoted_reply :
  search braces unquoted_reply
  = Some {| group0 := u8 "{penalty_risk: HIGH}"; groups := [] |}.
Proof. vm_compute. reflexivity. Qed.

(** C9, at a reply for which the code misses it: the text is not JSON,
    the pattern finds [{penalty_risk: HIGH}], and the second
    [json.loads], which no handler guards, raises.  The helper raises in
    every interpreter; where the decoder has the levels free that it
    needs to report its errors, both calls of [json.loads] raise
    [JSONDecodeError]. *)
Theorem call_llm_json_raises_on_unparsable_braces :
  forall (rt : Runtime),
    (exists e, _call_llm_json rt (Ok unquoted_reply) = Raise e /\
               (e = JSONDecodeError \/ e = RecursionError)) /\
    (Json.value_room (json rt) <= Json.depth (json rt) ->
     Json.error_room (json rt) < Json.depth (json rt) ->
     json_loads rt unquoted_reply = Raise JSONDecodeError /\
     _call_llm_json rt (Ok unquoted_reply) = Raise JSONDecodeError).
Proof.
  intros rt.
  assert (Hcall : _call_llm_json rt (Ok unquoted_reply)
                  = Raise (match Json.expecting_value (json rt) with
                           | JSONDecodeError =>
                               match Json.depth (json rt) with
                               | O => RecursionError
                               | S free => Json.scanner_error (json rt) free
                               end
                           | e => e
                           end)).
  { unfold _call_llm_json, json_loads. cbn [bind].
    rewrite loads_unquoted_reply. unfold Json.expecting_value.
    destruct (Json.depth (json rt) <? Json.value_room (json rt)); [reflexivity|].
    rewrite search_braces_unquoted_reply. cbn [group0].
    apply loads_unquoted_object. }
  split.
  - eexists. split; [exact Hcall|].
    unfold Json.expecting_value, Json.scanner_error.
    destruct (Json.depth (json rt) <? Json.value_room (json rt)); [now right|].
    destruct (Json.depth (json rt)) as [|free]; [now right|].
    destruct (free <? Json.error_room (json rt)); [now right | now left].
  - intros Hv He. rewrite Hcall. unfold json_loads.
    rewrite loads_unquoted_reply. unfold Json.expecting_value, Json.scanner_error.
    destruct (Nat.ltb_spec (Json.depth (json rt)) (Json.value_room (json rt)))
      as [Hlt|_]; [lia|].
    split; [reflexivity|].
    destruct (Json.depth (json rt)) as [|free]; [lia|].
    destruct (Nat.ltb_spec free (Json.error_room (json rt))) as [Hlt|_];
      [lia | reflexivity].
Qed.

Lemma call_llm_json_raises_on_unparsable_braces_witness :
  json_loads scenario_runtime unquoted_reply = Raise JSONDecodeError /\
  _call_llm_json scenario_runtime (Ok unquoted_reply) = Raise JSONDecodeError.
Proof.
  apply (call_llm_json_raises_on_unparsable_braces scenario_runtime);
    cbn; lia.
Defined.


(** ** The history log *)

Lemma last_n_rev {A : Type} (n : nat) (l : list A) :
  History.last_n n (rev l) = rev (firstn n l).
Proof.
  unfold History.last_n. rewrite length_rev, skipn_rev.
  f_equal. destruct (Nat.le_gt_cases (List.length l) n) as [H|H].
  - replace (List.length l - (List.length l - n)) with (List.length l) by lia.
    now rewrite firstn_all, firstn_all2.
  - f_equal. lia.
Qed.

Lemma add_all_memory (rqs : list History.Request) (st : History.Store) :
  History.analysis_history (History.add_all st rqs)
  = rev (map History.history_entry rqs) ++ History.analysis_history st.
Proof.
  revert st. induction rqs as [|rq rqs IH]; intros st; simpl; [reflexivity|].
  unfold History.add_all in *. simpl. rewrite IH.
  unfold History.add_to_history, History.save_history.
  destruct (History.req_write rq); simpl; now rewrite <- app_assoc.
Qed.

(** Once more than fifty results have been appended, the file holds the
    first fifty that were ever appended. *)
Lemma history_file_after_appends (rqs : list History.Request) (last : History.Request) :
  History.req_write last = History.Written ->
  History.history_file (History.add_all History.empty_store (rqs ++ [last]))
  = History.Saved (rev (firstn 50 (map History.history_entry (rqs ++ [last])))).
Proof.
  intros Hok. unfold History.add_all. rewrite fold_left_app. cbn [fold_left].
  change (fold_left History.add_to_history rqs History.empty_store)
    with (History.add_all History.empty_store rqs).
  unfold History.add_to_history, History.save_history. rewrite Hok.
  cbn [History.history_file History.analysis_history].
  rewrite add_all_memory.
  cbn [History.analysis_history History.empty_store]. rewrite app_nil_r.
  f_equal.
  replace (History.history_entry last :: rev (map History.history_entry rqs))
    with (rev (map History.history_entry (rqs ++ [last]))).
  - apply last_n_rev.
  - rewrite map_app, rev_app_distr. reflexivity.
Qed.

(** C10, at fifty-one appends to an empty log: the file is bounded to
    fifty entries, but they are the fifty oldest (requests 50 down to 1);
    the newest entry, which [GET /history] lists first, is not saved. *)
Theorem history_file_drops_the_newest :
  let st := History.add_all History.empty_store (requests_up_to 51) in
  History.history_file st
  = History.Saved (map History.history_entry (rev (requests_up_to 50))) /\
  History.get_history 1 st = [History.history_entry (request_no 51)].
Proof. vm_compute. split; reflexivity. Qed.

(** ** The orchestrator *)

Lemma run_all_app (pre post : list (M unit)) (f0 f1 : Frame) :
  run_all pre f0 = (Done tt, f1) ->
  run_all (pre ++ post) f0 = run_all post f1.
Proof.
  revert f0. induction pre as [|m pre IH]; intros f0; simpl.
  - unfold ret. congruence.
  - unfold bindM at 1 2. destruct (m f0) as [[[]| |e] f]; try discriminate.
    apply IH.
Qed.

Lemma run_all_raises (ms : list (M unit)) (f0 : Frame) (e : exn) :
  stage_raises ms f0 e -> exists f2, run_all ms f0 = (Raised e, f2).
Proof.
  intros (pre & m & post & f1 & f2 & -> & Hpre & Hm).
  exists f2. rewrite (run_all_app _ _ _ _ Hpre). simpl.
  unfold bindM. now rewrite Hm.
Qed.

Lemma guarded_raised rt w body f0 e f2 :
  body f0 = (Raised e, f2) ->
  guarded rt w body f0
  = set_processing_time_ms (elapsed_ms rt (clock_start w) (clock_stop w))
      (on_exception rt e (result f2)).
Proof. intros H. unfold guarded. now rewrite H. Qed.

Lemma guarded_time rt w body f0 :
  processing_time_ms (guarded rt w body f0)
  = elapsed_ms rt (clock_start w) (clock_stop w).
Proof. unfold guarded. destruct (body f0) as [o f1]. reflexivity. Qed.

(** C5.  When one of the five stages that follow the acquisition raises
    an exception, [analyze_text] and [analyze] return a result whose
    [summary_one_line] is the fixed analysis-failed message and whose
    [steps_easy] is the single retry instruction; and on every path the
    result carries the elapsed time computed in [finally]. *)
Theorem stage_exception_gives_failure_result :
  forall (rt : Runtime) (w : World),
    (forall txt e,
        stage_raises (stages rt w) (text_frame txt) e ->
        failure_diagnostic (analyze_text rt w txt)) /\
    (forall fa e,
        acquisition_stage rt w file_frame = (Done tt, fa) ->
        stage_raises (stages rt w) fa e ->
        failure_diagnostic (analyze rt w)) /\
    processing_time_ms (analyze rt w)
    = elapsed_ms rt (clock_start w) (clock_stop w) /\
    (forall txt, processing_time_ms (analyze_text rt w txt)
                 = elapsed_ms rt (clock_start w) (clock_stop w)).
Proof.
  intros rt w. repeat split.
  - destruct (run_all_raises _ _ _ H) as [f2 Hr].
    unfold analyze_text. fold (text_frame txt).
    rewrite (guarded_raised rt w _ _ _ _ Hr). reflexivity.
  - destruct (run_all_raises _ _ _ H) as [f2 Hr].
    unfold analyze_text. fold (text_frame txt).
    rewrite (guarded_raised rt w _ _ _ _ Hr). reflexivity.
  - destruct (run_all_raises _ _ _ H0) as [f2 Hr].
    unfold analyze. fold file_frame.
    rewrite (guarded_raised rt w _ _ e f2); [reflexivity|].
    unfold bindM. rewrite H. exact Hr.
  - destruct (run_all_raises _ _ _ H0) as [f2 Hr].
    unfold analyze. fold file_frame.
    rewrite (guarded_raised rt w _ _ e f2); [reflexivity|].
    unfold bindM. rewrite H. exact Hr.
  - apply guarded_time.
  - intros txt. apply guarded_time.
Qed.

Lemma stage_exception_gives_failure_result_witness :
  failure_diagnostic
    (analyze_text scenario_runtime broken_extractor (u8 "보험료 납부 고지서")) /\
  failure_diagnostic (analyze scenario_runtime broken_extractor).
Proof.
  destruct (stage_exception_gives_failure_result scenario_runtime broken_extractor)
    as [Htext [Hfile _]].
  pose (rt := scenario_runtime). pose (w := broken_extractor).
  split.
  - apply (Htext _ (External (u8 "Request timed out."))).
    exists [classification_stage rt w], (extraction_stage rt w),
      [retrieval_stage rt w; planning_stage rt w; simplification_stage rt w],
      (snd (classification_stage rt w (text_frame (u8 "보험료 납부 고지서")))),
      (snd (run_all [classification_stage rt w; extraction_stage rt w]
                    (text_frame (u8 "보험료 납부 고지서")))).
    split; [reflexivity|]. split; vm_compute; reflexivity.
  - apply (Hfile (snd (acquisition_stage rt w file_frame))
                 (External (u8 "Request timed out."))).
    + vm_compute. reflexivity.
    + exists [classification_stage rt w], (extraction_stage rt w),
        [retrieval_stage rt w; planning_stage rt w; simplification_stage rt w],
        (snd (run_all [acquisition_stage rt w; classification_stage rt w] file_frame)),
        (snd (run_all [acquisition_stage rt w; classification_stage rt w;
                       extraction_stage rt w] file_frame)).
      split; [reflexivity|]. split; vm_compute; reflexivity.
Defined.

(** C6.  When the acquired pages hold nothing but white space, [analyze]
    returns, without consulting any later stage, the fresh result with
    the confidence, the fixed could-not-read message, its explanation,
    the single retake instruction and the elapsed time. *)
Theorem blank_text_short_circuits :
  forall (rt : Runtime) (w : World) (pages : list OCRResult),
    acquired w = Ok pages ->
    is_blank (str_join [10; 10]%N (map text pages)) = true ->
    analyze rt w
    = set_processing_time_ms (elapsed_ms rt (clock_start w) (clock_stop w))
        (set_steps_easy (PList [PStr (u8 "더 선명한 사진을 다시 찍어주세요.")])
           (set_what_is_this
              (PStr (u8 "이미지 품질이 좋지 않아 글자를 인식하지 못했습니다."))
              (set_summary_one_line (PStr (u8 "문서를 읽을 수 없습니다."))
                 (set_ocr_confidence
                    (match pages with
                     | [] => 0%Q
                     | _ :: _ => mean rt (map confidence pages)
                     end)
                    new_result)))).
Proof.
  intros rt w pages Hacq Hblank.
  unfold analyze, guarded, acquisition_stage, bindM, call.
  rewrite Hacq. cbv beta iota. rewrite Hblank.
  reflexivity.
Qed.

Lemma blank_text_short_circuits_witness :
  summary_one_line (analyze scenario_runtime blank_scan)
  = PStr (u8 "문서를 읽을 수 없습니다.") /\
  steps_easy (analyze scenario_runtime blank_scan)
  = PList [PStr (u8 "더 선명한 사진을 다시 찍어주세요.")].
Proof.
  rewrite (blank_text_short_circuits scenario_runtime blank_scan
             [{| text := [32; 10]%N; confidence := 0%Q |};
              {| text := []; confidence := 0%Q |}]).
  - split; reflexivity.
  - reflexivity.
  - vm_compute. reflexivity.
Defined.

Lemma simplifier_defaults_distinct : NoDup (map fst Simplifier.defaults).
Proof.
  vm_compute.
  repeat (constructor; [simpl; intuition discriminate|]). constructor.
Qed.

(** What the simplifier returns: the generated dict, each of the nine
    keys defaulted when missing or falsy. *)
Lemma simplifier_process_dict rt reply doc_type key_info plan rag simplified :
  Simplifier.process rt reply doc_type key_info plan rag = Ok simplified ->
  exists generated d,
    _call_llm_json rt reply = Ok (PDict generated) /\
    simplified = PDict d /\
    forall k, lookup k d =
              match lookup k Simplifier.defaults with
              | Some default =>
                  match lookup k generated with
                  | Some v => if truthy v then Some v else Some default
                  | None => Some default
                  end
              | None => lookup k generated
              end.
Proof.
  unfold Simplifier.process, Simplifier._generate_simple_explanation.
  destruct (Simplifier.action_guide_info rt rag); [cbn [bind]|discriminate].
  destruct (get plan (u8 "steps") (PList [])); [cbn [bind]|discriminate].
  destruct (get key_info (u8 "amount") PNone); [cbn [bind]|discriminate].
  destruct (_call_llm_json rt reply) as [result|]; [cbn [bind]|discriminate].
  intros H.
  destruct (fill_falsy_needs_dict Simplifier.defaults result simplified)
    as [generated ->]; [discriminate | exact H |].
  destruct (fill_falsy_dict Simplifier.defaults simplifier_defaults_distinct generated)
    as [d [Hfill Hlook]].
  rewrite Hfill in H. injection H as <-.
  exists generated, d. auto.
Qed.

(** ** The stages, one by one *)

(** Case analysis on every call and test of a stage. *)
Ltac run_stage :=
  unfold bindM, call, read, assign, let_key_info, let_rag_result,
    let_action_plan, ret;
  repeat match goal with
         | |- context [match ?x with Ok _ => _ | Raise _ => _ end] =>
             let E := fresh "E" in destruct x eqn:E
         | |- context [if ?b then _ else _] => destruct b
         end;
  let H := fresh "H" in
  intros H; injection H as <- <-; simpl;
  repeat split; try discriminate; try reflexivity.


Lemma simplified_risk_level rt reply doc_type key_info plan rag simplified
      generated v default v' :
  Simplifier.process rt reply doc_type key_info plan rag = Ok simplified ->
  _call_llm_json rt reply = Ok (PDict generated) ->
  lookup (u8 "risk_level") generated = Some v ->
  truthy v = true ->
  get simplified (u8 "risk_level") default = Ok v' ->
  v' = v.
Proof.
  intros H Hgen Hv Ht Hg.
  destruct (simplifier_process_dict _ _ _ _ _ _ _ H) as [g [d [Hgen' [-> Hl]]]].
  rewrite Hgen in Hgen'. injection Hgen' as <-.
  unfold get, lookup_or in Hg. rewrite Hl in Hg.
  change (lookup (u8 "risk_level") Simplifier.defaults)
    with (Some (PStr (u8 "LOW"))) in Hg.
  rewrite Hv, Ht in Hg. now injection Hg as <-.
Qed.




Lemma simplification_stage_risk rt w f f' generated v :
  simplification_stage rt w f = (Done tt, f') ->
  _call_llm_json rt (reply_simplifier w) = Ok (PDict generated) ->
  lookup (u8 "risk_level") generated = Some v ->
  truthy v = true ->
  risk_level (result f') = v.
Proof.
  intros H Hgen Hv Ht. revert H.
  unfold simplification_stage.
  unfold bindM, call, read, assign, let_key_info, let_rag_result,
    let_action_plan, ret.
  repeat match goal with
         | |- context [match ?x with Ok _ => _ | Raise _ => _ end] =>
             let E := fresh "E" in destruct x eqn:E
         end; try discriminate.
  intros H. injection H as <-. simpl.
  eapply simplified_risk_level; eauto.
Qed.

(** ** The five stages in sequence *)


Lemma stages_run_risk rt w f0 f' generated v :
  run_all (stages rt w) f0 = (Done tt, f') ->
  _call_llm_json rt (reply_simplifier w) = Ok (PDict generated) ->
  lookup (u8 "risk_level") generated = Some v ->
  truthy v = true ->
  risk_level (result f') = v.
Proof.
  intros H Hgen Hv Ht. unfold stages in H. cbn [run_all] in H. unfold bindM in H.
  destruct (classification_stage rt w f0) as [[[]| |e1] f1]; try discriminate.
  destruct (extraction_stage rt w f1) as [[[]| |e2] f2]; try discriminate.
  destruct (retrieval_stage rt w f2) as [[[]| |e3] f3]; try discriminate.
  destruct (planning_stage rt w f3) as [[[]| |e4] f4]; try discriminate.
  destruct (simplification_stage rt w f4) as [[[]| |e5] f5] eqn:E5; try discriminate.
  unfold ret in H. injection H as <-.
  eapply simplification_stage_risk; eauto.
Qed.










(** A plan generated with an empty [steps] and an explanation generated
    without [steps_easy] are delivered with the generic step and the
    default step. *)
Example stepless_run_is_filled_in :
  getitem (action_plan (analyze_text scenario_runtime stepless
                                     (u8 "건강보험료 체납 독촉장")))
          (u8 "steps")
  = Ok (PList [PStr (u8 "이 문서에 대해 추가 확인이 필요합니다.")]) /\
  steps_easy (analyze_text scenario_runtime stepless (u8 "건강보험료 체납 독촉장"))
  = PList [PStr (u8 "자세히 읽어보세요.")].
Proof. vm_compute. split; reflexivity. Qed.


(** C2, as the code has it.  In a run in which every stage returns and
    the generated simplification carries a non-empty [risk_level], the
    delivered [risk_level] is that generated value, whatever risk was
    extracted: an extracted HIGH is delivered as HIGH only if the
    generated value is HIGH. *)
Theorem delivered_risk_is_the_generated_one :
  forall (rt : Runtime) (w : World) (generated : list (pystr * pyval))
         (v : pyval),
    _call_llm_json rt (reply_simplifier w) = Ok (PDict generated) ->
    lookup (u8 "risk_level") generated = Some v ->
    truthy v = true ->
    (forall txt f',
        run_all (stages rt w) (text_frame txt) = (Done tt, f') ->
        risk_level (analyze_text rt w txt) = v) /\
    (forall fa f',
        acquisition_stage rt w file_frame = (Done tt, fa) ->
        run_all (stages rt w) fa = (Done tt, f') ->
        risk_level (analyze rt w) = v).
Proof.
  intros rt w generated v Hgen Hv Ht. split.
  - intros txt f' H. unfold analyze_text, guarded. fold (text_frame txt).
    rewrite H. simpl. eapply stages_run_risk; eauto.
  - intros fa f' Ha H. unfold analyze, guarded, bindM. fold file_frame.
    rewrite Ha, H. simpl. eapply stages_run_risk; eauto.
Qed.

Lemma delivered_risk_is_the_generated_one_witness :
  risk_level (analyze_text scenario_runtime softened (u8 "건강보험료 체납 독촉장"))
  = PStr (u8 "LOW") /\
  risk_level (analyze scenario_runtime softened) = PStr (u8 "LOW").
Proof.
  destruct (delivered_risk_is_the_generated_one scenario_runtime softened
              [(u8 "summary_one_line", PStr (u8 "보험료를 내세요."));
               (u8 "risk_level", PStr (u8 "LOW"));
               (u8 "steps_easy", PList [PStr (u8 "전화하세요.")])]
              (PStr (u8 "LOW")))
    as [Htext Hfile].
  - vm_compute. reflexivity.
  - vm_compute. reflexivity.
  - reflexivity.
  - split.
    + apply (Htext (u8 "건강보험료 체납 독촉장")
                   (snd (run_all (stages scenario_runtime softened)
                                 (text_frame (u8 "건강보험료 체납 독촉장"))))).
      vm_compute. reflexivity.
    + apply (Hfile (snd (acquisition_stage scenario_runtime softened file_frame))
                   (snd (run_all (acquisition_stage scenario_runtime softened
                                    :: stages scenario_runtime softened)
                                 file_frame))).
      * vm_compute. reflexivity.
      * vm_compute. reflexivity.
Defined.

(** C2 fails as stated: the extraction returns [penalty_risk] HIGH, every
    stage returns, the generated simplification says LOW, and the
    delivered [risk_level] is LOW. *)
Lemma high_risk_delivered_as_low :
  get (key_info (analyze scenario_runtime softened)) (u8 "penalty_risk") PNone
  = Ok (PStr (u8 "HIGH")) /\
  risk_level (analyze scenario_runtime softened) = PStr (u8 "LOW") /\
  get (key_info (analyze_text scenario_runtime softened (u8 "건강보험료 체납 독촉장")))
      (u8 "penalty_risk") PNone
  = Ok (PStr (u8 "HIGH")) /\
  risk_level (analyze_text scenario_runtime softened (u8 "건강보험료 체납 독촉장"))
  = PStr (u8 "LOW").
Proof. vm_compute. repeat split; reflexivity. Qed.

(** ** The matcher and the language of a pattern *)

Lemma flat_map_nil_all {A B : Type} (f : A -> list B) (l : list A) :
  (forall x, In x l -> f x = []) -> flat_map f l = [].
Proof.
  induction l as [|x l IH]; simpl; intros H; [reflexivity|].
  rewrite (H x (or_introl eq_refl)), IH; auto.
Qed.

(** Fuel beyond the length of the input changes nothing. *)
Lemma rep_loop_fuel (step : pystr -> captures -> list run) :
  forall fuel1 fuel2 lo hi s caps,
    List.length s <= fuel1 -> List.length s <= fuel2 ->
    rep_loop step fuel1 lo hi s caps = rep_loop step fuel2 lo hi s caps.
Proof.
  assert (Hzero : forall fuel lo hi s caps,
             List.length s = 0 ->
             rep_loop step fuel lo hi s caps
             = if Nat.eqb lo 0 then [(s, caps)] else []).
  { intros [|fuel] lo hi s caps Hs; simpl; [reflexivity|].
    destruct hi as [[|h]|]; try reflexivity.
    - rewrite flat_map_nil_all; [reflexivity|].
      intros sc _. rewrite Hs. now destruct (List.length (fst sc)).
    - rewrite flat_map_nil_all; [reflexivity|].
      intros sc _. rewrite Hs. now destruct (List.length (fst sc)). }
  induction fuel1 as [|fuel1 IH]; intros fuel2 lo hi s caps H1 H2.
  - rewrite !Hzero by lia. reflexivity.
  - destruct fuel2 as [|fuel2].
    + rewrite !Hzero by lia. reflexivity.
    + simpl. destruct hi as [[|h]|]; try reflexivity.
      * f_equal. apply flat_map_ext. intros sc.
        destruct (Nat.ltb_spec (List.length (fst sc)) (List.length s));
          [apply IH; lia | reflexivity].
      * f_equal. apply flat_map_ext. intros sc.
        destruct (Nat.ltb_spec (List.length (fst sc)) (List.length s));
          [apply IH; lia | reflexivity].
Qed.

Lemma rep_loop_sound (step : pystr -> captures -> list run) (r : regex) :
  (forall s caps rest c,
      In (rest, c) (step s caps) -> exists m, s = m ++ rest /\ lang r m) ->
  forall fuel lo hi s caps rest c,
    In (rest, c) (rep_loop step fuel lo hi s caps) ->
    exists m, s = m ++ rest /\ lang (Rep r lo hi) m.
Proof.
  intros Hstep.
  assert (Hstop : forall lo hi (s : pystr) (caps : captures) rest c,
             In (rest, c) (if Nat.eqb lo 0 then [(s, caps)] else []) ->
             exists m, s = m ++ rest /\ lang (Rep r lo hi) m).
  { intros lo hi s caps rest c H. destruct lo; simpl in H; [|contradiction].
    destruct H as [H|[]]. injection H as <- <-.
    exists []. split; [reflexivity | constructor]. }
  induction fuel as [|fuel IH]; intros lo hi s caps rest c H; simpl in H.
  - eapply Hstop; eauto.
  - assert (Hmore :
        hi <> Some 0 ->
        In (rest, c)
           (flat_map
              (fun sc : run =>
                 if Nat.ltb (List.length (fst sc)) (List.length s)
                 then rep_loop step fuel (Nat.pred lo) (option_map Nat.pred hi)
                               (fst sc) (snd sc)
                 else [])
              (step s caps)) ->
        exists m, s = m ++ rest /\ lang (Rep r lo hi) m).
    { intros Hhi Hin. apply in_flat_map in Hin as [[s1 c1] [Hin1 Hin2]].
      simpl in Hin2.
      destruct (Nat.ltb_spec (List.length s1) (List.length s)) as [Hlt|];
        [|contradiction].
      destruct (Hstep _ _ _ _ Hin1) as [a [Ha La]].
      destruct (IH _ _ _ _ _ _ Hin2) as [b [Hb Lb]].
      exists (a ++ b). split.
      - rewrite Ha, Hb. now rewrite app_assoc.
      - constructor; auto. intros ->. simpl in Ha. subst. lia. }
    destruct hi as [[|h]|].
    + eapply Hstop; eauto.
    + apply in_app_or in H as [H|H]; [apply Hmore; [discriminate|exact H]|].
      eapply Hstop; eauto.
    + apply in_app_or in H as [H|H]; [apply Hmore; [discriminate|exact H]|].
      eapply Hstop; eauto.
Qed.

Lemma runs_sound (r : regex) :
  forall s caps rest c,
    In (rest, c) (runs r s caps) -> exists m, s = m ++ rest /\ lang r m.
Proof.
  induction r as [|p|r1 IH1 r2 IH2|r IH lo hi|n r IH]; intros s caps rest c H;
    simpl in H.
  - destruct H as [H|[]]. injection H as <- <-.
    exists []. split; [reflexivity | constructor].
  - destruct s as [|x s]; [contradiction|].
    destruct (p x) eqn:Hp; [|contradiction].
    destruct H as [H|[]]. injection H as <- <-.
    exists [x]. split; [reflexivity | now constructor].
  - apply in_flat_map in H as [[s1 c1] [H1 H2]]. simpl in H2.
    destruct (IH1 _ _ _ _ H1) as [a [Ha La]].
    destruct (IH2 _ _ _ _ H2) as [b [Hb Lb]].
    exists (a ++ b). split; [rewrite Ha, Hb; now rewrite app_assoc|].
    now constructor.
  - eapply rep_loop_sound; eauto.
  - apply in_map_iff in H as [[s1 c1] [Heq H1]]. simpl in Heq.
    injection Heq as <- <-.
    destruct (IH _ _ _ _ H1) as [a [Ha La]].
    exists a. split; [exact Ha | now constructor].
Qed.

Lemma runs_complete (r : regex) (m : pystr) :
  lang r m ->
  forall rest caps, exists c, In (rest, c) (runs r (m ++ rest) caps).
Proof.
  induction 1 as [|p x Hp|r1 r2 a b _ IHa _ IHb|n r a _ IH|r hi
                  |r lo hi a b Hhi Ha _ IHa _ IHb]; intros rest caps; simpl.
  - exists caps. now left.
  - rewrite Hp. exists caps. now left.
  - destruct (IHa (b ++ rest) caps) as [c1 H1].
    destruct (IHb rest c1) as [c2 H2].
    exists c2. apply in_flat_map. exists (b ++ rest, c1).
    split; [now rewrite <- app_assoc | exact H2].
  - destruct (IH rest caps) as [c1 H1]. eexists.
    apply in_map_iff. exists (rest, c1). split; [reflexivity | exact H1].
  - exists caps. destruct (List.length rest); simpl.
    + now left.
    + destruct hi as [[|h]|]; [now left | |]; apply in_or_app; right; now left.
  - destruct (IHa (b ++ rest) caps) as [c1 H1].
    destruct (IHb rest c1) as [c2 H2]. simpl in H2.
    exists c2.
    assert (Hlen : List.length (b ++ rest) < List.length ((a ++ b) ++ rest)).
    { rewrite <- app_assoc, (length_app a). destruct a; [congruence|simpl; lia]. }
    destruct (List.length ((a ++ b) ++ rest)) as [|fuel] eqn:Hfuel; [lia|].
    assert (Hin : In (rest, c2)
                     (flat_map
                        (fun sc : run =>
                           if Nat.ltb (List.length (fst sc)) (S fuel)
                           then rep_loop (runs r) fuel (Nat.pred lo)
                                         (option_map Nat.pred hi) (fst sc) (snd sc)
                           else [])
                        (runs r ((a ++ b) ++ rest) caps))).
    { apply in_flat_map. exists (b ++ rest, c1).
      split; [now rewrite <- app_assoc|]. simpl.
      destruct (Nat.ltb_spec (List.length (b ++ rest)) (S fuel)); [|lia].
      rewrite (rep_loop_fuel (runs r) fuel (List.length (b ++ rest)));
        [exact H2 | lia | lia]. }
    simpl. rewrite Hfuel.
    destruct hi as [[|h]|]; [congruence | |]; apply in_or_app; now left.
Qed.

(** ** What the first amount pattern matches *)

Lemma won_amount_unfolded :
  InfoExtractor.won_amount
  = Cat (Grp 1 (Cat (Rep (Chr is_digit) 1 (Some 3))
                    (Rep (Cat (Chr (lit comma)) (Rep (Chr is_digit) 3 (Some 3)))
                         0 None)))
        (Cat (Rep (Chr is_space) 0 None) (Chr (lit won))).
Proof. reflexivity. Qed.

Lemma lang_rep_forall (r : regex) (P : N -> Prop) :
  (forall a, lang r a -> Forall P a) ->
  forall lo hi m, lang (Rep r lo hi) m -> Forall P m.
Proof.
  intros Hr lo hi m H. remember (Rep r lo hi) as R eqn:HR.
  revert lo hi HR.
  induction H as [| | | | |r0 lo0 hi0 a b Hhi Ha La _ Lb IHb]; intros lo1 hi1 HR;
    try discriminate.
  - constructor.
  - injection HR as -> -> ->. apply Forall_app. split; [now apply Hr|].
    eapply IHb; reflexivity.
Qed.

Lemma lang_rep_chr_head (p : N -> bool) lo hi m :
  lang (Rep (Chr p) (S lo) hi) m ->
  exists ch m', m = ch :: m' /\ p ch = true.
Proof.
  intros H. inversion H as [| | | | |r0 lo0 hi0 a b Hhi Ha La Lb]; subst.
  inversion La; subst. simpl. eauto.
Qed.

Lemma lang_chr_forall (p : N -> bool) a :
  lang (Chr p) a -> Forall (fun ch => p ch = true) a.
Proof. intros H. inversion H; subst. repeat constructor. assumption. Qed.

Lemma lang_won_amount_shape (m : pystr) :
  lang InfoExtractor.won_amount m -> amount_shape m.
Proof.
  rewrite won_amount_unfolded. intros H.
  inversion H as [| |r1 r2 x tail Hx Htail| | |]; subst.
  inversion Hx as [| | |n r1 x' Hnum| |]; subst.
  inversion Hnum as [| |r1 r2 ds groups Hds Hgroups| | |]; subst.
  inversion Htail as [| |r1 r2 ws last Hws Hlast| | |]; subst.
  inversion Hlast as [|p ch Hch| | | |]; subst.
  apply N.eqb_eq in Hch. subst ch.
  destruct (lang_rep_chr_head _ _ _ _ Hds) as [d [ds' [-> Hd]]].
  exists d, (ds' ++ groups), ws. split; [|split; [exact Hd|split]].
  - simpl. now rewrite <- !app_assoc.
  - apply Forall_app. split.
    + assert (Hall : Forall (fun ch => is_digit ch = true) (d :: ds')).
      { eapply lang_rep_forall; [|exact Hds]. apply lang_chr_forall. }
      inversion Hall; subst.
      eapply Forall_impl; [|eassumption].
      intros ch Hc. unfold digit_or_comma. now rewrite Hc.
    + eapply lang_rep_forall; [|exact Hgroups].
      intros a La. inversion La as [| |r1 r2 c3 d3 Hc3 Hd3| | |]; subst.
      apply Forall_app. split.
      * inversion Hc3; subst. repeat constructor.
        unfold digit_or_comma. unfold lit in *.
        match goal with H : N.eqb _ _ = true |- _ => apply N.eqb_eq in H; subst end.
        rewrite N.eqb_refl. apply orb_true_r.
      * assert (Hall : Forall (fun ch => is_digit ch = true) d3).
        { eapply lang_rep_forall; [|exact Hd3]. apply lang_chr_forall. }
        eapply Forall_impl; [|exact Hall].
        intros ch Hc. unfold digit_or_comma. now rewrite Hc.
  - eapply lang_rep_forall; [|exact Hws]. apply lang_chr_forall.
Qed.

(** The characters involved are pairwise apart. *)
Lemma space_is_no_digit_or_comma ch :
  is_space ch = true -> digit_or_comma ch = false.
Proof.
  unfold is_space. rewrite existsb_exists. intros [x [Hin Heq]].
  apply N.eqb_eq in Heq. subst x. unfold space_points in Hin. simpl in Hin.
  repeat (destruct Hin as [<-|Hin]; [vm_compute; reflexivity|]).
  contradiction.
Qed.

Lemma won_is_no_digit_or_comma : digit_or_comma won = false.
Proof. vm_compute. reflexivity. Qed.

Lemma won_is_no_space : is_space won = false.
Proof. vm_compute. reflexivity. Qed.

Lemma amount_shape_body d x ws :
  is_digit d = true ->
  Forall (fun ch => digit_or_comma ch = true) x ->
  Forall (fun ch => is_space ch = true) ws ->
  ~ In won ((d :: x) ++ ws).
Proof.
  intros Hd Hx Hws Hin. apply in_app_or in Hin as [[->|Hin]|Hin].
  - assert (H := won_is_no_digit_or_comma). unfold digit_or_comma in H.
    rewrite Hd in H. discriminate.
  - rewrite Forall_forall in Hx. specialize (Hx _ Hin).
    rewrite won_is_no_digit_or_comma in Hx. discriminate.
  - rewrite Forall_forall in Hws. specialize (Hws _ Hin).
    rewrite won_is_no_space in Hws. discriminate.
Qed.

Lemma first_occurrence_unique (x : N) (b1 r1 b2 r2 : pystr) :
  b1 ++ x :: r1 = b2 ++ x :: r2 ->
  ~ In x b1 -> ~ In x b2 -> b1 = b2 /\ r1 = r2.
Proof.
  revert b2. induction b1 as [|y b1 IH]; intros [|z b2] H N1 N2; simpl in *.
  - injection H as <-. auto.
  - injection H as <- _. tauto.
  - injection H as -> _. tauto.
  - injection H as <- H. destruct (IH b2 H) as [-> ->]; tauto.
Qed.

Lemma amount_shape_unique m1 r1 m2 r2 :
  amount_shape m1 -> amount_shape m2 ->
  m1 ++ r1 = m2 ++ r2 -> m1 = m2 /\ r1 = r2.
Proof.
  intros (d1 & x1 & w1 & -> & Hd1 & Hx1 & Hw1) (d2 & x2 & w2 & -> & Hd2 & Hx2 & Hw2) H.
  assert (N1 := amount_shape_body _ _ _ Hd1 Hx1 Hw1).
  assert (N2 := amount_shape_body _ _ _ Hd2 Hx2 Hw2).
  rewrite !app_assoc in H. rewrite <- !app_assoc in H. simpl in H.
  rewrite !app_comm_cons, !app_assoc in H.
  destruct (first_occurrence_unique won _ _ _ _ H N1 N2) as [Hb ->].
  split; [|reflexivity].
  rewrite !app_assoc. now rewrite Hb.
Qed.

(** ** Scanning for amounts *)

Lemma match_at_lang (r : regex) (txt : pystr) (m : rmatch) (rest : pystr) :
  match_at r txt = Some (m, rest) ->
  txt = group0 m ++ rest /\ lang r (group0 m).
Proof.
  unfold match_at. destruct (runs r txt []) as [|[rest' caps] tl] eqn:E;
    [discriminate|].
  intros H. injection H as <- <-. simpl.
  destruct (runs_sound r txt [] rest' caps) as [g [Hg Lg]];
    [rewrite E; now left|].
  assert (Hfirst : firstn (List.length txt - List.length rest') txt = g).
  { rewrite Hg, length_app, Nat.add_sub.
    rewrite firstn_app, Nat.sub_diag, firstn_all. simpl. apply app_nil_r. }
  rewrite Hfirst. auto.
Qed.

Lemma match_at_some (r : regex) (s post : pystr) :
  lang r s -> match_at r (s ++ post) <> None.
Proof.
  intros L. destruct (runs_complete r s L post []) as [c Hin].
  unfold match_at. destruct (runs r (s ++ post) []) as [|[rest caps] tl];
    [contradiction | discriminate].
Qed.

(** A text that holds a match somewhere is never scanned in vain. *)
Lemma finditer_from_nonempty (r : regex) (s post : pystr) :
  lang r s ->
  forall pre fuel,
    List.length (pre ++ s ++ post) < fuel ->
    finditer_from r fuel (pre ++ s ++ post) <> [].
Proof.
  intros L. induction pre as [|x pre IH]; intros [|fuel] Hf; try (simpl in Hf; lia).
  - simpl. destruct (match_at r (s ++ post)) as [[m rest]|] eqn:E;
      [discriminate|]. now apply match_at_some in E.
  - cbn [finditer_from].
    destruct (match_at r ((x :: pre) ++ s ++ post)) as [[m rest]|] eqn:E;
      [discriminate|].
    simpl. apply IH. simpl in Hf. lia.
Qed.

Lemma ends_in_number_suffix (a l : pystr) :
  ends_in_number (a ++ l) = false -> ends_in_number l = false.
Proof.
  destruct l as [|y l] using rev_ind; [reflexivity|].
  unfold ends_in_number. now rewrite app_assoc, !rev_unit.
Qed.

Lemma ends_in_number_all (pre : pystr) :
  pre <> [] ->
  Forall (fun ch => digit_or_comma ch = true) pre ->
  ends_in_number pre = true.
Proof.
  destruct pre as [|y pre] using rev_ind; [congruence|].
  intros _ H. apply Forall_app in H as [_ H]. inversion H; subst.
  unfold ends_in_number. now rewrite rev_unit.
Qed.

(** A digit of the text that lies inside [x ++ ws] lies inside [x]. *)
Lemma digit_lies_in_number (pre x ws : pystr) (d : N) (tail : pystr) :
  x ++ ws = pre ++ d :: tail ->
  Forall (fun ch => is_space ch = true) ws ->
  is_digit d = true ->
  exists x', x = pre ++ d :: x'.
Proof.
  intros H Hws Hd.
  assert (Hnot : ~ In d ws).
  { intros Hin. rewrite Forall_forall in Hws.
    apply Hws, space_is_no_digit_or_comma in Hin.
    unfold digit_or_comma in Hin. rewrite Hd in Hin. discriminate. }
  revert x H. induction pre as [|y pre IH]; intros [|z x] H; simpl in H.
  - subst ws. exfalso. apply Hnot. now left.
  - injection H as -> _. now exists x.
  - subst ws. exfalso. apply Hnot. right. apply in_or_app. right. now left.
  - injection H as -> H. destruct (IH x H) as [x' ->]. now exists x'.
Qed.

Section WonAmount.
Variables s post : pystr.
Hypothesis Hs : lang InfoExtractor.won_amount s.

Lemma finditer_from_finds :
  forall n pre fuel,
    List.length pre <= n ->
    List.length (pre ++ s ++ post) < fuel ->
    ends_in_number pre = false ->
    exists m, In m (finditer_from InfoExtractor.won_amount fuel (pre ++ s ++ post))
              /\ group0 m = s.
Proof.
  assert (Ss := lang_won_amount_shape s Hs).
  induction n as [|n IH]; intros pre [|fuel] Hn Hf He; try lia.
  - (* pre = [] *)
    destruct pre; [|simpl in Hn; lia]. simpl.
    destruct (match_at InfoExtractor.won_amount (s ++ post)) as [[m rest]|] eqn:E;
      [|exfalso; exact (match_at_some _ _ _ Hs E)].
    destruct (match_at_lang _ _ _ _ E) as [Ht Lg].
    apply lang_won_amount_shape in Lg.
    destruct (amount_shape_unique _ _ _ _ Ss Lg Ht) as [Hg _].
    exists m. split; [now left | now symmetry].
  - cbn [finditer_from].
    destruct (match_at InfoExtractor.won_amount (pre ++ s ++ post))
      as [[m rest]|] eqn:E.
    + destruct (match_at_lang _ _ _ _ E) as [Ht Lg].
      assert (Sg := lang_won_amount_shape _ Lg).
      assert (Hne : group0 m <> []).
      { destruct Sg as (d & x & ws & -> & _). discriminate. }
      destruct (group0 m) as [|g0 g] eqn:Eg; [congruence|].
      apply app_eq_app in Ht as [l [[Hpre Hrest]|[Hgrp Htail]]].
      * (* the match ends inside pre *)
        destruct (IH l fuel) as [m' [Hin Hm']].
        -- rewrite Hpre in Hn. rewrite length_app in Hn. simpl in Hn. lia.
        -- rewrite Hpre, <- app_assoc, length_app in Hf. simpl in Hf. lia.
        -- rewrite Hpre in He. eapply ends_in_number_suffix; eauto.
        -- rewrite Hrest. exists m'. split; [now right | assumption].
      * (* the match reaches beyond pre *)
        destruct l as [|y l].
        -- rewrite app_nil_r in Hgrp. simpl in Htail.
           destruct (IH [] fuel) as [m' [Hin Hm']].
           ++ simpl. lia.
           ++ simpl. rewrite <- Hgrp in Hf.
              rewrite length_app in Hf. simpl in Hf. lia.
           ++ reflexivity.
           ++ simpl in Hin. rewrite Htail in Hin.
              exists m'. split; [now right | assumption].
        -- destruct Sg as (dg & xg & wg & Hg & Hdg & Hxg & Hwg).
           destruct Ss as (ds & xs & wss & Hss & Hds & Hxs & Hwss).
           assert (Ng := amount_shape_body _ _ _ Hdg Hxg Hwg).
           assert (Ns := amount_shape_body _ _ _ Hds Hxs Hwss).
           destruct (exists_last (l := y :: l)) as [lb [z Hl]]; [discriminate|].
           rewrite Hl in Hgrp, Htail.
           rewrite Hg in Hgrp.
           rewrite (app_assoc (dg :: xg)), (app_assoc pre) in Hgrp.
           apply app_inj_tail in Hgrp as [Hbody Hz]. subst z.
           assert (Nl : ~ In won lb).
           { intros Hin. apply Ng. rewrite Hbody.
             apply in_or_app. now right. }
           rewrite Hss in Htail.
           rewrite <- !app_assoc in Htail.
           change ([won] ++ post) with (won :: post) in Htail.
           change ([won] ++ rest) with (won :: rest) in Htail.
           rewrite (app_assoc (ds :: xs)) in Htail.
           destruct (first_occurrence_unique won _ _ _ _ Htail Ns Nl) as [Hlb _].
           destruct pre as [|p0 pre].
           ++ exists m. split; [now left|].
              rewrite Eg, Hg, Hss. simpl in Hbody.
              rewrite (app_assoc (dg :: xg)), (app_assoc (ds :: xs)).
              change (dg :: xg ++ wg) with ((dg :: xg) ++ wg) in Hbody.
              now rewrite Hbody, Hlb.
           ++ exfalso.
              rewrite <- Hlb in Hbody.
              destruct (digit_lies_in_number (p0 :: pre) (dg :: xg) wg ds
                          (xs ++ wss)) as [x' Hx'];
                [exact Hbody | exact Hwg | exact Hds |].
              assert (Hall : Forall (fun ch => digit_or_comma ch = true)
                                    (dg :: xg)).
              { constructor; [|exact Hxg]. unfold digit_or_comma.
                now rewrite Hdg. }
              rewrite Hx' in Hall. apply Forall_app in Hall as [Hall _].
              rewrite (ends_in_number_all (p0 :: pre)) in He;
                [discriminate | discriminate | exact Hall].
    + destruct pre as [|p0 pre];
        [exfalso; exact (match_at_some _ _ _ Hs E)|].
      destruct (IH pre fuel) as [m' [Hin Hm']].
      * simpl in Hn. lia.
      * simpl in Hf. lia.
      * change (p0 :: pre) with ([p0] ++ pre) in He.
        eapply ends_in_number_suffix; eauto.
      * exists m'. split; assumption.
Qed.

End WonAmount.

(** ** The candidate lists *)

Lemma existsb_str_eqb (x : pystr) (acc : list pystr) :
  existsb (str_eqb x) acc = true <-> In x acc.
Proof.
  rewrite existsb_exists. split.
  - intros [y [Hin Heq]]. apply str_eqb_eq in Heq. now subst.
  - intros Hin. exists x. split; [exact Hin | apply str_eqb_refl].
Qed.

Lemma append_new_in (acc : list pystr) (x y : pystr) :
  In y (InfoExtractor.append_new acc x) <-> In y acc \/ y = x.
Proof.
  unfold InfoExtractor.append_new.
  destruct (existsb (str_eqb x) acc) eqn:E.
  - apply existsb_str_eqb in E. split; [auto|]. intros [H| ->]; assumption.
  - rewrite in_app_iff. simpl. intuition.
Qed.

Lemma fold_append_new_in (pick : rmatch -> pystr) (ms : list rmatch) :
  forall acc y,
    In y (fold_left (fun acc' m => InfoExtractor.append_new acc' (pick m)) ms acc)
    <-> In y acc \/ In y (map pick ms).
Proof.
  induction ms as [|m ms IH]; intros acc y; simpl; [tauto|].
  rewrite IH, append_new_in. intuition.
Qed.

(** A candidate list holds exactly the picked texts of the matches of
    its patterns. *)
Lemma collect_in (pick : rmatch -> pystr) (patterns : list regex)
      (txt y : pystr) :
  In y (InfoExtractor.collect pick patterns txt) <->
  exists p m, In p patterns /\ In m (finditer p txt) /\ y = pick m.
Proof.
  unfold InfoExtractor.collect.
  assert (H : forall acc,
             In y (fold_left
                     (fun acc0 pattern =>
                        fold_left (fun acc' m => InfoExtractor.append_new acc' (pick m))
                                  (finditer pattern txt) acc0)
                     patterns acc)
             <-> In y acc \/
                 exists p m, In p patterns /\ In m (finditer p txt) /\ y = pick m).
  { induction patterns as [|p patterns IH]; intros acc; simpl.
    - split; [auto|]. intros [H|(p & m & [] & _)]. exact H.
    - rewrite IH, fold_append_new_in, in_map_iff. split.
      + intros [[H|(m & Hm & Hin)]|(q & m & Hq & Hin & Hy)].
        * now left.
        * right. exists p, m. auto.
        * right. exists q, m. auto.
      + intros [H|(q & m & [<-|Hq] & Hin & Hy)].
        * left. now left.
        * left. right. exists m. auto.
        * right. exists q, m. auto. }
  rewrite H. simpl. tauto.
Qed.

Lemma fullmatch_lang (r : regex) (s : pystr) :
  fullmatch r s = true -> lang r s.
Proof.
  unfold fullmatch. rewrite existsb_exists. intros [[rest c] [Hin Hnil]].
  simpl in Hnil. destruct rest; [|discriminate].
  destruct (runs_sound r s [] [] c Hin) as [m [Hm Lm]].
  rewrite app_nil_r in Hm. now subst.
Qed.

(** C3, as the code has it.  In the scenario the amount candidates
    include [150,000원] and the date candidates [2025-01-31]; the phone
    candidates are [1577], [1000] and the labelled match
    [문의: 1577-1000].  In general, a text that contains a string matched
    in full by the first amount pattern has a non-empty list of amount
    candidates, and that string itself is a candidate when the character
    before it is neither a digit nor a comma. *)
Theorem amount_date_phone_candidates :
  (In (u8 "150,000원") (InfoExtractor.amounts (InfoExtractor._extract_with_rules payment_notice)) /\
   In (u8 "2025-01-31") (InfoExtractor.dates (InfoExtractor._extract_with_rules payment_notice)) /\
   InfoExtractor.phones (InfoExtractor._extract_with_rules payment_notice)
   = [u8 "1577"; u8 "1000"; u8 "문의: 1577-1000"]) /\
  forall pre s post,
    fullmatch InfoExtractor.won_amount s = true ->
    InfoExtractor.amounts (InfoExtractor._extract_with_rules (pre ++ s ++ post)) <> [] /\
    (ends_in_number pre = false ->
     In s (InfoExtractor.amounts (InfoExtractor._extract_with_rules (pre ++ s ++ post)))).
Proof.
  split.
  - vm_compute. repeat split; auto.
  - intros pre s post Hfull. apply fullmatch_lang in Hfull.
    unfold InfoExtractor._extract_with_rules. simpl InfoExtractor.amounts.
    assert (Hfirst : In InfoExtractor.won_amount InfoExtractor.amount_patterns)
      by now left.
    split.
    + assert (Hne := finditer_from_nonempty InfoExtractor.won_amount s post Hfull
                       pre (S (List.length (pre ++ s ++ post))) (Nat.lt_succ_diag_r _)).
      fold (finditer InfoExtractor.won_amount (pre ++ s ++ post)) in Hne.
      destruct (finditer InfoExtractor.won_amount (pre ++ s ++ post))
        as [|m ms] eqn:E; [congruence|].
      intros Hnil.
      assert (Hin : In (group0 m)
                       (InfoExtractor.collect group0 InfoExtractor.amount_patterns
                                              (pre ++ s ++ post))).
      { apply collect_in. exists InfoExtractor.won_amount, m.
        rewrite E. repeat split; [exact Hfirst | now left]. }
      rewrite Hnil in Hin. contradiction.
    + intros Hpre.
      destruct (finditer_from_finds s post Hfull (List.length pre) pre
                  (S (List.length (pre ++ s ++ post))) (le_n _)
                  (Nat.lt_succ_diag_r _) Hpre) as [m [Hin Hm]].
      apply collect_in. exists InfoExtractor.won_amount, m.
      repeat split; [exact Hfirst | exact Hin | now symmetry].
Qed.

Lemma amount_date_phone_candidates_witness :
  InfoExtractor.amounts
    (InfoExtractor._extract_with_rules (u8 "합계 " ++ u8 "1,150,000 원" ++ u8 " 입니다"))
  <> [] /\
  In (u8 "1,150,000 원")
     (InfoExtractor.amounts
        (InfoExtractor._extract_with_rules (u8 "합계 " ++ u8 "1,150,000 원" ++ u8 " 입니다"))).
Proof.
  destruct amount_date_phone_candidates as [_ H].
  destruct (H (u8 "합계 ") (u8 "1,150,000 원") (u8 " 입니다")) as [Hne Hin].
  - vm_compute. reflexivity.
  - split; [exact Hne|]. apply Hin. vm_compute. reflexivity.
Defined.

(** C3 fails as stated: in the scenario no phone candidate is the exact
    string [1577-1000], and [1,150,000원] contains the amount
    [150,000원], which the pattern matches in full, but the only amount
    candidate is [1,150,000원]. *)
Lemma bare_phone_and_inner_amount_missing :
  ~ In (u8 "1577-1000")
       (InfoExtractor.phones (InfoExtractor._extract_with_rules payment_notice)) /\
  million_notice = u8 "1," ++ u8 "150,000원" ++ [] /\
  fullmatch InfoExtractor.won_amount (u8 "150,000원") = true /\
  ~ In (u8 "150,000원")
       (InfoExtractor.amounts (InfoExtractor._extract_with_rules million_notice)).
Proof.
  vm_compute. repeat split; try reflexivity;
    intros H; repeat (destruct H as [H|H]; [discriminate|]); contradiction.
Qed.

(** * Further properties *)

(** ** Candidate lists *)

Lemma finditer_from_sound (r : regex) :
  forall fuel s m,
    In m (finditer_from r fuel s) ->
    lang r (group0 m) /\ exists pre post, s = pre ++ group0 m ++ post.
Proof.
  induction fuel as [|fuel IH]; intros s m Hin; simpl in Hin; [contradiction|].
  assert (Hskip : forall x s', s = x :: s' -> In m (finditer_from r fuel s') ->
                   lang r (group0 m) /\ exists pre post, s = pre ++ group0 m ++ post).
  { intros x s' -> H. destruct (IH _ _ H) as [L [pre [post ->]]].
    split; [exact L|]. now exists (x :: pre), post. }
  destruct (match_at r s) as [[m0 rest]|] eqn:E.
  - destruct (match_at_lang _ _ _ _ E) as [Hs L0].
    destruct Hin as [<-|Hin].
    + split; [exact L0|]. exists [], rest. exact Hs.
    + destruct (group0 m0) as [|g0 g] eqn:Eg.
      * destruct s as [|x s']; [contradiction|]. eapply Hskip; eauto.
      * destruct (IH _ _ Hin) as [L [pre [post Hrest]]].
        split; [exact L|]. exists ((g0 :: g) ++ pre), post.
        rewrite Hs, Hrest. now rewrite <- app_assoc.
  - destruct s as [|x s']; [contradiction|]. eapply Hskip; eauto.
Qed.

Lemma collect_sound (patterns : list regex) (txt y : pystr) :
  In y (InfoExtractor.collect group0 patterns txt) ->
  (exists p, In p patterns /\ lang p y) /\
  exists pre post, txt = pre ++ y ++ post.
Proof.
  intros Hin. apply collect_in in Hin as (p & m & Hp & Hm & ->).
  destruct (finditer_from_sound p _ _ _ Hm) as [L Hsub].
  split; [now exists p | exact Hsub].
Qed.

(** X1.  Every amount, date and phone candidate is a piece of the text,
    and one of the patterns of its family matches it in full. *)
Theorem candidates_are_matched_substrings :
  forall (txt y : pystr),
    (In y (InfoExtractor.amounts (InfoExtractor._extract_with_rules txt)) ->
     (exists p, In p InfoExtractor.amount_patterns /\ lang p y) /\
     exists pre post, txt = pre ++ y ++ post) /\
    (In y (InfoExtractor.dates (InfoExtractor._extract_with_rules txt)) ->
     (exists p, In p InfoExtractor.date_patterns /\ lang p y) /\
     exists pre post, txt = pre ++ y ++ post) /\
    (In y (InfoExtractor.phones (InfoExtractor._extract_with_rules txt)) ->
     (exists p, In p InfoExtractor.phone_patterns /\ lang p y) /\
     exists pre post, txt = pre ++ y ++ post).
Proof.
  intros txt y.
  split; [|split]; intros Hin; apply collect_sound in Hin; exact Hin.
Qed.

Lemma candidates_are_matched_substrings_witness :
  (exists p, In p InfoExtractor.phone_patterns /\ lang p (u8 "문의: 1577-1000")) /\
  exists pre post, payment_notice = pre ++ u8 "문의: 1577-1000" ++ post.
Proof.
  apply (candidates_are_matched_substrings payment_notice (u8 "문의: 1577-1000")).
  vm_compute. right. right. now left.
Defined.

Lemma append_new_nodup (acc : list pystr) (x : pystr) :
  NoDup acc -> NoDup (InfoExtractor.append_new acc x).
Proof.
  intros Hnd. unfold InfoExtractor.append_new.
  destruct (existsb (str_eqb x) acc) eqn:E; [exact Hnd|].
  assert (Hnot : ~ In x acc).
  { intros Hin. apply existsb_str_eqb in Hin. congruence. }
  apply NoDup_rev in Hnd. rewrite <- (rev_involutive (acc ++ [x])).
  apply NoDup_rev. rewrite rev_unit. constructor; [|exact Hnd].
  now rewrite <- in_rev.
Qed.

Lemma collect_nodup (pick : rmatch -> pystr) (patterns : list regex)
      (txt : pystr) :
  NoDup (InfoExtractor.collect pick patterns txt).
Proof.
  unfold InfoExtractor.collect.
  assert (Hinner : forall ms acc,
             NoDup acc ->
             NoDup (fold_left (fun acc' m => InfoExtractor.append_new acc' (pick m))
                              ms acc)).
  { induction ms as [|m ms IH]; intros acc Hnd; simpl; [exact Hnd|].
    apply IH, append_new_nodup, Hnd. }
  assert (Houter : forall acc,
             NoDup acc ->
             NoDup (fold_left
                      (fun acc0 pattern =>
                         fold_left (fun acc' m => InfoExtractor.append_new acc' (pick m))
                                   (finditer pattern txt) acc0)
                      patterns acc)).
  { induction patterns as [|p ps IH]; intros acc Hnd; simpl; [exact Hnd|].
    apply IH, Hinner, Hnd. }
  apply Houter. constructor.
Qed.

(** X2.  No string occurs twice in a candidate list. *)
Theorem candidate_lists_have_no_duplicates :
  forall (txt : pystr),
    NoDup (InfoExtractor.amounts (InfoExtractor._extract_with_rules txt)) /\
    NoDup (InfoExtractor.dates (InfoExtractor._extract_with_rules txt)) /\
    NoDup (InfoExtractor.phones (InfoExtractor._extract_with_rules txt)) /\
    NoDup (InfoExtractor.accounts (InfoExtractor._extract_with_rules txt)).
Proof.
  intros txt. unfold InfoExtractor._extract_with_rules. simpl.
  repeat split; apply collect_nodup.
Qed.

(** ** Texts without digits *)

Lemma has_digit_cat_l (r1 r2 : regex) :
  (forall a, lang r1 a -> has_digit a) ->
  forall m, lang (Cat r1 r2) m -> has_digit m.
Proof.
  intros H m L. inversion L; subst.
  destruct (H _ H2) as [ch [Hin Hd]]. exists ch. split; [|exact Hd].
  apply in_or_app. now left.
Qed.

Lemma has_digit_cat_r (r1 r2 : regex) :
  (forall b, lang r2 b -> has_digit b) ->
  forall m, lang (Cat r1 r2) m -> has_digit m.
Proof.
  intros H m L. inversion L; subst.
  destruct (H _ H4) as [ch [Hin Hd]]. exists ch. split; [|exact Hd].
  apply in_or_app. now right.
Qed.

Lemma has_digit_grp (n : nat) (r : regex) :
  (forall a, lang r a -> has_digit a) ->
  forall m, lang (Grp n r) m -> has_digit m.
Proof. intros H m L. inversion L; subst. auto. Qed.

Lemma has_digit_rep (p : N -> bool) (lo : nat) (hi : option nat) :
  (forall ch, p ch = true -> is_digit ch = true) ->
  forall m, lang (Rep (Chr p) (S lo) hi) m -> has_digit m.
Proof.
  intros H m L. destruct (lang_rep_chr_head _ _ _ _ L) as [ch [m' [-> Hp]]].
  exists ch. split; [now left | auto].
Qed.

(** Looks for a repetition of digits that the pattern cannot skip. *)
Ltac digit_search :=
  first [ apply has_digit_rep; intros ? Hc; exact Hc
        | apply has_digit_grp; digit_search
        | apply has_digit_cat_l; digit_search
        | apply has_digit_cat_r; digit_search ].

Lemma amount_patterns_need_a_digit (p : regex) (m : pystr) :
  In p InfoExtractor.amount_patterns -> lang p m -> has_digit m.
Proof.
  intros Hin. revert m. unfold InfoExtractor.amount_patterns in Hin.
  simpl in Hin.
  repeat (destruct Hin as [<-|Hin]; [digit_search|]). contradiction.
Qed.

Lemma date_patterns_need_a_digit (p : regex) (m : pystr) :
  In p InfoExtractor.date_patterns -> lang p m -> has_digit m.
Proof.
  intros Hin. revert m. unfold InfoExtractor.date_patterns in Hin.
  simpl in Hin.
  repeat (destruct Hin as [<-|Hin]; [digit_search|]). contradiction.
Qed.

(** X3.  A text without any decimal digit has no amount candidate and no
    date candidate. *)
Theorem no_digit_no_amount_no_date :
  forall (txt : pystr),
    forallb (fun ch => negb (is_digit ch)) txt = true ->
    InfoExtractor.amounts (InfoExtractor._extract_with_rules txt) = [] /\
    InfoExtractor.dates (InfoExtractor._extract_with_rules txt) = [].
Proof.
  intros txt Hnone. rewrite forallb_forall in Hnone.
  assert (H : forall patterns,
             (forall p m, In p patterns -> lang p m -> has_digit m) ->
             InfoExtractor.collect group0 patterns txt = []).
  { intros patterns Hp.
    destruct (InfoExtractor.collect group0 patterns txt) as [|y ys] eqn:E;
      [reflexivity|].
    destruct (collect_sound patterns txt y) as [[p [Hin L]] [pre [post Htxt]]];
      [rewrite E; now left|].
    destruct (Hp p y Hin L) as [ch [Hch Hd]].
    assert (Hc : In ch txt).
    { rewrite Htxt. apply in_or_app. right. apply in_or_app. now left. }
    apply Hnone in Hc. rewrite Hd in Hc. discriminate. }
  unfold InfoExtractor._extract_with_rules. simpl. split; apply H.
  - apply amount_patterns_need_a_digit.
  - apply date_patterns_need_a_digit.
Qed.

Lemma no_digit_no_amount_no_date_witness :
  InfoExtractor.amounts (InfoExtractor._extract_with_rules (u8 "납부 안내문 원")) = [] /\
  InfoExtractor.dates (InfoExtractor._extract_with_rules (u8 "납부 안내문 원")) = [].
Proof.
  apply (no_digit_no_amount_no_date (u8 "납부 안내문 원")).
  vm_compute. reflexivity.
Defined.

(** ** The JSON helper on replies that are not JSON *)

Lemma braces_unfolded :
  braces = Cat (Chr (lit lbrace)) (Cat (Rep (Chr dot_all) 0 None) (Chr (lit rbrace))).
Proof. reflexivity. Qed.

Lemma lang_braces_closing (g : pystr) : lang braces g -> In rbrace g.
Proof.
  rewrite braces_unfolded. intros L.
  inversion L as [| |r1 r2 a b La Lb| | |]; subst.
  inversion Lb as [| |r1 r2 c d Lc Ld| | |]; subst.
  inversion Ld as [|p ch Hch| | | |]; subst.
  apply N.eqb_eq in Hch. subst ch.
  apply in_or_app. right. apply in_or_app. right. now left.
Qed.

Lemma search_none_without_closing (response : pystr) :
  ~ In rbrace response -> search braces response = None.
Proof.
  intros Hnot. unfold search.
  destruct (finditer braces response) as [|m ms] eqn:E; [reflexivity|].
  exfalso. apply Hnot.
  destruct (finditer_from_sound braces (S (List.length response)) response m)
    as [L [pre [post Hs]]].
  { unfold finditer in E. rewrite E. now left. }
  rewrite Hs. apply in_or_app. right. apply in_or_app. left.
  now apply lang_braces_closing.
Qed.

Lemma match_number_plain (max_digits : N) (x : N) (s : pystr) :
  (x =? Json.c "-")%N = false -> Json.is_ascii_digit x = false ->
  Json.match_number max_digits (x :: s) = None.
Proof.
  intros Hm Hd. unfold Json.match_number. rewrite Hm.
  assert (H0 : (x =? 48)%N = false).
  { destruct (x =? 48)%N eqn:E; [|reflexivity].
    apply N.eqb_eq in E. subst x. discriminate Hd. }
  rewrite H0, Hd. reflexivity.
Qed.

Lemma has_room_start (lim : Json.Limits) :
  Json.has_room lim = true ->
  Json.scanner_error lim (Json.depth lim) = JSONDecodeError /\
  Json.expecting_value lim = JSONDecodeError /\
  Json.extra_data lim = JSONDecodeError /\
  forall v r, Json.parse_constant lim (Json.depth lim) v r = Ok (v, r).
Proof.
  unfold Json.has_room, Json.scanner_error, Json.expecting_value,
    Json.extra_data, Json.parse_constant.
  intros H.
  apply andb_true_iff in H as [H Hx]. apply andb_true_iff in H as [H Hv].
  apply andb_true_iff in H as [He Hc].
  apply Nat.leb_le in He, Hc, Hv, Hx.
  repeat split; intros;
    match goal with
    | |- context [(?a <? ?b)%nat] =>
        destruct (Nat.ltb_spec a b); [lia | reflexivity]
    end.
Qed.

Lemma loads_plain (lim : Json.Limits) (response : pystr) :
  Json.has_room lim = true ->
  starts_plain response = true ->
  Json.loads lim response = Raise JSONDecodeError \/
  exists v, Json.loads lim response = Ok v.
Proof.
  intros Hroom Hp. unfold Json.loads.
  destruct (has_room_start lim Hroom) as [Herr [Hval [Hextra Hconst]]].
  assert (Hscan : Json.scan_once (2 * List.length response + 2) (Json.depth lim)
                                 lim (Json.skip_ws response)
                  = Raise JSONDecodeError \/
                  exists vr, Json.scan_once (2 * List.length response + 2)
                                            (Json.depth lim) lim
                                            (Json.skip_ws response)
                             = Ok vr).
  { unfold starts_plain in Hp.
    replace (2 * List.length response + 2) with (S (2 * List.length response + 1))
      by lia.
    destruct (Json.skip_ws response) as [|x s];
      [left; cbn [Json.scan_once]; now rewrite Hval|].
    apply negb_true_iff in Hp.
    apply orb_false_elim in Hp as [Hp Hdigit].
    apply orb_false_elim in Hp as [Hp Hminus].
    apply orb_false_elim in Hp as [Hbracket Hbrace].
    cbn [Json.scan_once].
    change (Json.c "{") with lbrace. rewrite Hbracket, Hbrace.
    rewrite (match_number_plain (Json.max_digits lim) x s Hminus Hdigit).
    rewrite Herr, Hval, !Hconst.
    destruct (x =? 34)%N.
    - destruct (Json.scanstring _ s) as [[t r]|]; [right; eauto | now left].
    - repeat match goal with
             | |- context [if ?b then _ else _] => destruct b
             end;
        first [left; reflexivity | right; eexists; reflexivity]. }
  destruct (starts_with [65279%N] response); [now left|].
  destruct Hscan as [->|[[v r] ->]]; [now left|].
  destruct (Json.skip_ws r); [right; eauto | left; now rewrite Hextra].
Qed.

(** X4.  A reply without any closing brace is never searched for an
    object: the helper returns what [json.loads] makes of it and
    answers a reply that is not JSON with the diagnostic dict that
    carries the reply unchanged, so that it raises only if [json.loads]
    meets a limit of the interpreter.  That cannot happen when the
    decoder starts with the levels free that it needs to report an
    error and the reply begins with neither a bracket, a brace, a minus
    sign nor a digit: on such a reply the helper returns. *)
Theorem reply_without_closing_brace :
  forall (rt : Runtime) (response : pystr),
    forallb (fun ch => negb (ch =? rbrace)%N) response = true ->
    _call_llm_json rt (Ok response)
    = match json_loads rt response with
      | Ok v => Ok v
      | Raise JSONDecodeError => Ok (parse_failure response)
      | Raise e => Raise e
      end /\
    (Json.has_room (json rt) = true ->
     starts_plain response = true ->
     _call_llm_json rt (Ok response)
     = Ok (match json_loads rt response with
           | Ok v => v
           | Raise _ => parse_failure response
           end)).
Proof.
  intros rt response Hnone.
  assert (Hnot : ~ In rbrace response).
  { intros Hin. rewrite forallb_forall in Hnone. apply Hnone in Hin.
    now rewrite N.eqb_refl in Hin. }
  assert (Heq : _call_llm_json rt (Ok response)
                = match json_loads rt response with
                  | Ok v => Ok v
                  | Raise JSONDecodeError => Ok (parse_failure response)
                  | Raise e => Raise e
                  end).
  { unfold _call_llm_json. cbn [bind].
    destruct (json_loads rt response) as [v|[]]; try reflexivity.
    now rewrite (search_none_without_closing response Hnot). }
  split; [exact Heq|].
  intros Hroom Hplain. rewrite Heq. unfold json_loads.
  destruct (loads_plain (json rt) response Hroom Hplain)
    as [->|[v ->]]; reflexivity.
Qed.

Lemma reply_without_closing_brace_witness :
  _call_llm_json scenario_runtime (Ok (u8 "죄송합니다. 문서를 분석할 수 없습니다."))
  = Ok (parse_failure (u8 "죄송합니다. 문서를 분석할 수 없습니다.")).
Proof.
  destruct (reply_without_closing_brace scenario_runtime
              (u8 "죄송합니다. 문서를 분석할 수 없습니다.")) as [_ H].
  - vm_compute. reflexivity.
  - rewrite H; vm_compute; reflexivity.
Defined.











(** ** The classifier *)

Lemma first_keyword_found_iff (kws : list pystr) (text_lower : pystr) :
  Keywords.first_keyword_found kws text_lower = true <->
  exists keyword, In keyword kws /\ str_contains keyword text_lower = true.
Proof.
  induction kws as [|k kws IH]; simpl.
  - split; [discriminate | intros [k [[] _]]].
  - destruct (str_contains k text_lower) eqn:E.
    + split; [|reflexivity]. intros _. exists k. auto.
    + rewrite IH. split.
      * intros [k' [Hin Hc]]. exists k'. auto.
      * intros [k' [[<-|Hin] Hc]]; [congruence|]. exists k'. auto.
Qed.

Lemma match_types_spec (catalog : list Keywords.DocumentType) (text_lower : pystr) :
  forall acc,
    fold_left
      (fun matches info =>
         if Keywords.first_keyword_found (Keywords.keywords info) text_lower
         then matches ++ [Keywords.type_code info]
         else matches)
      catalog acc
    = acc ++ map Keywords.type_code
                 (filter (fun info =>
                            Keywords.first_keyword_found (Keywords.keywords info)
                                                         text_lower)
                         catalog).
Proof.
  induction catalog as [|info catalog IH]; intros acc; simpl.
  - now rewrite app_nil_r.
  - rewrite IH.
    destruct (Keywords.first_keyword_found (Keywords.keywords info) text_lower);
      simpl; [now rewrite <- app_assoc | reflexivity].
Qed.

Lemma catalog_codes_distinct : NoDup (map Keywords.type_code Keywords.DOCUMENT_TYPES).
Proof.
  vm_compute.
  repeat (constructor; [simpl; intuition discriminate|]). constructor.
Qed.

(** The codes of the types that match are as distinct as the codes of
    the catalog. *)
Lemma matched_codes_distinct (text_lower : pystr)
      (catalog : list Keywords.DocumentType) :
  NoDup (map Keywords.type_code catalog) ->
  NoDup (map Keywords.type_code
             (filter (fun info =>
                        Keywords.first_keyword_found (Keywords.keywords info)
                                                     text_lower)
                     catalog)).
Proof.
  induction catalog as [|info catalog IH]; cbn [map filter]; intros Hnd;
    [constructor|].
  apply NoDup_cons_iff in Hnd as [Hnew Hrest].
  destruct (Keywords.first_keyword_found (Keywords.keywords info) text_lower);
    [|now apply IH].
  cbn [map]. apply NoDup_cons; [|now apply IH].
  rewrite in_map_iff. intros [other [Hcode Hin]].
  apply filter_In in Hin as [Hin _]. apply Hnew.
  rewrite in_map_iff. now exists other.
Qed.

(** X6.  The keyword hint lists a type code exactly when one of the
    keywords of that type occurs in the lower-cased text; it lists no
    code twice, and never the catch-all code, which has no keywords. *)
Theorem keyword_match_lists_types_with_a_keyword :
  forall (rt : Runtime) (txt : pystr),
    (forall code,
        In code (Keywords._keyword_match rt txt) <->
        exists info keyword,
          In info Keywords.DOCUMENT_TYPES /\
          Keywords.type_code info = code /\
          In keyword (Keywords.keywords info) /\
          str_contains keyword (lower rt txt) = true) /\
    NoDup (Keywords._keyword_match rt txt) /\
    ~ In (u8 "기타_공공문서") (Keywords._keyword_match rt txt).
Proof.
  intros rt txt. unfold Keywords._keyword_match, Keywords.match_types.
  rewrite match_types_spec. cbn [app].
  assert (Hiff : forall code,
             In code (map Keywords.type_code
                          (filter (fun info =>
                                     Keywords.first_keyword_found
                                       (Keywords.keywords info) (lower rt txt))
                                  Keywords.DOCUMENT_TYPES)) <->
             exists info keyword,
               In info Keywords.DOCUMENT_TYPES /\
               Keywords.type_code info = code /\
               In keyword (Keywords.keywords info) /\
               str_contains keyword (lower rt txt) = true).
  { intros code. rewrite in_map_iff. split.
    - intros [info [Hcode Hin]]. apply filter_In in Hin as [Hin Hfound].
      apply first_keyword_found_iff in Hfound as [k [Hk Hc]].
      exists info, k. auto.
    - intros (info & k & Hin & Hcode & Hk & Hc). exists info.
      split; [exact Hcode|]. apply filter_In. split; [exact Hin|].
      apply first_keyword_found_iff. eauto. }
  split; [exact Hiff|]. split.
  - apply matched_codes_distinct, catalog_codes_distinct.
  - intros Hin. apply Hiff in Hin as (info & k & Hin & Hcode & Hk & _).
    unfold Keywords.DOCUMENT_TYPES in Hin. simpl in Hin.
    repeat (destruct Hin as [<-|Hin]; [vm_compute in Hcode; discriminate|]).
    destruct Hin as [<-|[]]. simpl in Hk. contradiction.
Qed.

(** X7.  When the generated classification is a JSON object, the
    classifier returns it with its own [doc_type], [doc_type_name],
    [confidence] and [organization] whatever they are (a type code
    outside the catalog is not replaced), and with the defaults
    기타_공공문서, 기타 공공문서, 0.5 and 알 수 없음 under the keys that are
    missing; every other generated key is returned unchanged. *)
Theorem classifier_fills_missing_keys_only :
  forall (rt : Runtime) (reply : res pystr) (ocr_text : pystr)
         (generated : list (pystr * pyval)),
    _call_llm_json rt reply = Ok (PDict generated) ->
    exists classification,
      DocumentClassifier.process rt reply ocr_text = Ok (PDict classification) /\
      lookup (u8 "doc_type") classification
      = Some (lookup_or generated (u8 "doc_type") (PStr (u8 "기타_공공문서"))) /\
      lookup (u8 "doc_type_name") classification
      = Some (lookup_or generated (u8 "doc_type_name") (PStr (u8 "기타 공공문서"))) /\
      lookup (u8 "confidence") classification
      = Some (lookup_or generated (u8 "confidence") (PFloat (FDec false 5 (-1)))) /\
      lookup (u8 "organization") classification
      = Some (lookup_or generated (u8 "organization") (PStr (u8 "알 수 없음"))) /\
      forall k v, lookup k generated = Some v -> lookup k classification = Some v.
Proof.
  intros rt reply ocr_text generated Hgen.
  unfold DocumentClassifier.process, DocumentClassifier._llm_classify.
  rewrite Hgen. cbn [bind].
  match goal with
  | |- context [fill setdefault_missing ?defs _] =>
      destruct (fill_missing_dict defs generated) as [c [Hfill Hlook]]
  end.
  exists c. split; [exact Hfill|].
  unfold lookup_or. rewrite !Hlook.
  repeat split;
    try (match goal with
         | |- context [lookup ?k generated] => destruct (lookup k generated)
         end; reflexivity).
  intros k v Hk. now rewrite Hlook, Hk.
Qed.

Lemma classifier_fills_missing_keys_only_witness :
  exists classification,
    DocumentClassifier.process scenario_runtime
      (Ok (jq "{'doc_type': '알수없는_코드', 'reasoning': '근거'}"))
      (u8 "건강보험료 납부 고지서") = Ok (PDict classification) /\
    lookup (u8 "doc_type") classification = Some (PStr (u8 "알수없는_코드")) /\
    lookup (u8 "organization") classification = Some (PStr (u8 "알 수 없음")).
Proof.
  destruct (classifier_fills_missing_keys_only scenario_runtime
              (Ok (jq "{'doc_type': '알수없는_코드', 'reasoning': '근거'}"))
              (u8 "건강보험료 납부 고지서")
              [(u8 "doc_type", PStr (u8 "알수없는_코드"));
               (u8 "reasoning", PStr (u8 "근거"))])
    as [c [Hp [Hd [_ [_ [Ho _]]]]]].
  - vm_compute. reflexivity.
  - exists c. split; [exact Hp|]. split; [exact Hd | exact Ho].
Defined.

(** ** The extractor *)

(** X8.  When the generated refinement is a JSON object, the facts that
    [process] returns have all eight fact keys, keep every generated key
    with its value, and have [None] (["NONE"] for [penalty_risk],
    [False] for [action_required]) under each fact key that the
    generation left out. *)
Theorem extracted_facts_are_complete :
  forall (rt : Runtime) (reply : res pystr) (ocr_text : pystr)
         (doc_type : pyval) (generated : list (pystr * pyval)),
    _call_llm_json rt reply = Ok (PDict generated) ->
    exists facts,
      InfoExtractor.process rt reply ocr_text doc_type = Ok (PDict facts) /\
      (forall k v, lookup k generated = Some v -> lookup k facts = Some v) /\
      (forall k default,
          lookup k InfoExtractor.defaults = Some default ->
          lookup k generated = None ->
          lookup k facts = Some default) /\
      (forall k, In k (map fst InfoExtractor.defaults) -> lookup k facts <> None).
Proof.
  intros rt reply ocr_text doc_type generated Hgen.
  unfold InfoExtractor.process, InfoExtractor._extract_with_llm.
  rewrite Hgen. cbn [bind].
  destruct (fill_missing_dict InfoExtractor.defaults generated)
    as [facts [Hfill Hlook]].
  exists facts. split; [exact Hfill|]. split; [|split].
  - intros k v Hk. now rewrite Hlook, Hk.
  - intros k default Hd Hk. now rewrite Hlook, Hk.
  - intros k Hin. rewrite Hlook.
    destruct (lookup k generated); [discriminate|].
    revert Hin. generalize InfoExtractor.defaults as defs.
    induction defs as [|[k' v'] defs IH]; simpl; [intros []|].
    destruct (str_eqb k k') eqn:E; [discriminate|].
    intros [Heq|Hin]; [|now apply IH].
    subst k'. now rewrite str_eqb_refl in E.
Qed.

Lemma extracted_facts_are_complete_witness :
  exists facts,
    InfoExtractor.process scenario_runtime mild_refinement overdue_notice
                          (PStr (u8 "세금_통지서"))
    = Ok (PDict facts) /\
    lookup (u8 "amount") facts = Some (PStr (u8 "150,000원")) /\
    lookup (u8 "due_date") facts = Some PNone.
Proof.
  destruct (extracted_facts_are_complete scenario_runtime mild_refinement
              overdue_notice (PStr (u8 "세금_통지서"))
              [(u8 "amount", PStr (u8 "150,000원"));
               (u8 "penalty_risk", PStr (u8 "LOW"));
               (u8 "action_required", PBool false)])
    as [facts [Hp [Hkept [Hdef _]]]].
  - vm_compute. reflexivity.
  - exists facts. split; [exact Hp|]. split.
    + apply Hkept. reflexivity.
    + apply Hdef; reflexivity.
Defined.

(** ** The planner *)

(** X9.  What the decision of the planner never is: it is URGENT only
    when [penalty_risk] is HIGH or the type code names a 통지서 or 체납; PAY
    only when an amount is present; NONE only when no action is
    required and the type code names an 안내문. *)
Theorem action_type_needs_its_evidence :
  forall (rt : Runtime) (type_code : pystr) (facts : list (pystr * pyval))
         (a : ActionPlanner.ActionType),
    ActionPlanner._determine_action_type rt (PStr type_code) (PDict facts) = Ok a ->
    (a = ActionPlanner.URGENT ->
     PlannerTable.risk_is_high facts = true \/
     PlannerTable.category PlannerTable.collection_or_overdue (lower rt type_code)
     = true) /\
    (a = ActionPlanner.PAY -> PlannerTable.present facts (u8 "amount") = true) /\
    (a = ActionPlanner.NONE ->
     PlannerTable.present facts (u8 "action_required") = false /\
     PlannerTable.category PlannerTable.informational (lower rt type_code) = true) /\
    a <> ActionPlanner.CALL /\ a <> ActionPlanner.VISIT /\ a <> ActionPlanner.SUBMIT.
Proof.
  intros rt type_code facts a.
  unfold PlannerTable.present, PlannerTable.risk_is_high, PlannerTable.category,
    PlannerTable.collection_or_overdue, PlannerTable.informational.
  planner_cases facts;
    intros H; injection H as <-;
    repeat split; try discriminate; intros _; auto.
Qed.

Lemma action_type_needs_its_evidence_witness :
  PlannerTable.present [(u8 "amount", PStr (u8 "150,000원"))] (u8 "amount") = true.
Proof.
  destruct (action_type_needs_its_evidence scenario_runtime (u8 "지방세_고지서")
              [(u8 "amount", PStr (u8 "150,000원"))] ActionPlanner.PAY)
    as [_ [H _]].
  - vm_compute. reflexivity.
  - apply H. reflexivity.
Defined.

(** X10.  With [penalty_risk] HIGH the urgency is HIGH, and the action
    is URGENT as soon as the facts show a payment (an amount and a due
    date) or a required action; with neither, the type code decides and
    a HIGH risk changes nothing. *)
Theorem high_risk_is_urgent_only_with_an_action :
  forall (rt : Runtime) (type_code : pystr) (facts : list (pystr * pyval)),
    lookup (u8 "penalty_risk") facts = Some (PStr (u8 "HIGH")) ->
    ActionPlanner._determine_urgency (PDict facts) = Ok (u8 "HIGH") /\
    (PlannerTable.present facts (u8 "amount")
       && PlannerTable.present facts (u8 "due_date")
     || PlannerTable.present facts (u8 "action_required") = true ->
     ActionPlanner._determine_action_type rt (PStr type_code) (PDict facts)
     = Ok ActionPlanner.URGENT) /\
    (PlannerTable.present facts (u8 "amount")
       && PlannerTable.present facts (u8 "due_date")
     || PlannerTable.present facts (u8 "action_required") = false ->
     ActionPlanner._determine_action_type rt (PStr type_code) (PDict facts)
     = ActionPlanner._determine_action_type rt (PStr type_code)
         (PDict (store (u8 "penalty_risk") (PStr (u8 "NONE")) facts))).
Proof.
  intros rt type_code facts Hrisk. split; [|split].
  - unfold ActionPlanner._determine_urgency, get, lookup_or. simpl.
    rewrite Hrisk. reflexivity.
  - unfold PlannerTable.present.
    unfold ActionPlanner._determine_action_type, ActionPlanner.lower_method,
      get, lookup_or. simpl. rewrite Hrisk.
    destruct (lookup (u8 "amount") facts) as [amount|];
      destruct (lookup (u8 "due_date") facts) as [due|];
      destruct (lookup (u8 "action_required") facts) as [req|]; simpl;
      repeat match goal with
             | |- context [truthy ?v] =>
                 let E := fresh "E" in destruct (truthy v) eqn:E; simpl; rewrite ?E
             end; intros H; try discriminate; reflexivity.
  - unfold PlannerTable.present.
    unfold ActionPlanner._determine_action_type, ActionPlanner.lower_method,
      get, lookup_or.
    destruct (lookup (u8 "amount") facts) as [amount|] eqn:Ha;
      destruct (lookup (u8 "due_date") facts) as [due|] eqn:Hd;
      destruct (lookup (u8 "action_required") facts) as [req|] eqn:Hq;
      repeat first
        [ rewrite lookup_store_same
        | rewrite lookup_store_other by reflexivity
        | rewrite Ha | rewrite Hd | rewrite Hq | rewrite Hrisk
        | progress simpl
        | match goal with
          | |- context [truthy ?v] =>
              let E := fresh "E" in destruct (truthy v) eqn:E; rewrite ?E
          end ];
      intros H; try discriminate; reflexivity.
Qed.

Lemma high_risk_is_urgent_only_with_an_action_witness :
  ActionPlanner._determine_urgency (PDict urgent_facts) = Ok (u8 "HIGH") /\
  ActionPlanner._determine_action_type scenario_runtime (PStr (u8 "복지_안내문"))
    (PDict urgent_facts) = Ok ActionPlanner.URGENT.
Proof.
  destruct (high_risk_is_urgent_only_with_an_action scenario_runtime
              (u8 "복지_안내문") urgent_facts) as [Hu [Ha _]].
  - reflexivity.
  - split; [exact Hu | apply Ha; reflexivity].
Defined.

(** ** Generated values that are not objects *)

Lemma planner_process_object rt reply doc_type key_info rag plan :
  ActionPlanner.process rt reply doc_type key_info rag = Ok plan ->
  exists generated, _call_llm_json rt reply = Ok (PDict generated).
Proof.
  unfold ActionPlanner.process, ActionPlanner._generate_action_plan.
  destruct (ActionPlanner._determine_action_type rt doc_type key_info) as [a|];
    [cbn [bind]|discriminate].
  destruct (ActionPlanner._determine_urgency key_info) as [u|];
    [cbn [bind]|discriminate].
  destruct (ActionPlanner.context_summary rag); [cbn [bind]|discriminate].
  destruct (get key_info (u8 "amount") PNone); [cbn [bind]|discriminate].
  destruct (_call_llm_json rt reply) as [result|]; [cbn [bind]|discriminate].
  destruct (setdefault_falsy result (u8 "steps") ActionPlanner.generic_step)
    eqn:E; [|discriminate].
  intros _. destruct (setdefault_falsy_needs_dict _ _ _ _ E) as [d ->]. eauto.
Qed.

(** X11.  A generated plan or explanation that is valid JSON but not an
    object (a list, a string, a number, [null]) is never returned: the
    planner and the simplifier raise on it, whatever their other
    arguments are. *)
Theorem planner_and_simplifier_reject_non_objects :
  forall (rt : Runtime) (reply : res pystr) (v : pyval),
    _call_llm_json rt reply = Ok v ->
    (forall d, v <> PDict d) ->
    (forall doc_type key_info rag,
        exists e, ActionPlanner.process rt reply doc_type key_info rag = Raise e) /\
    (forall doc_type key_info plan rag,
        exists e, Simplifier.process rt reply doc_type key_info plan rag = Raise e).
Proof.
  intros rt reply v Hv Hnot. split.
  - intros doc_type key_info rag.
    destruct (ActionPlanner.process rt reply doc_type key_info rag) as [plan|e] eqn:E;
      [|eauto].
    destruct (planner_process_object _ _ _ _ _ _ E) as [d Hd].
    rewrite Hv in Hd. injection Hd as ->. now destruct (Hnot d).
  - intros doc_type key_info plan rag.
    destruct (Simplifier.process rt reply doc_type key_info plan rag) as [s|e] eqn:E;
      [|eauto].
    destruct (simplifier_process_dict _ _ _ _ _ _ _ E) as [d [_ [Hd _]]].
    rewrite Hv in Hd. injection Hd as ->. now destruct (Hnot d).
Qed.

Lemma planner_and_simplifier_reject_non_objects_witness :
  exists e,
    ActionPlanner.process scenario_runtime (Ok (jq "['납부하세요', '전화하세요']"))
      (PStr (u8 "세금_통지서")) (PDict urgent_facts) PNone = Raise e.
Proof.
  destruct (planner_and_simplifier_reject_non_objects scenario_runtime
              (Ok (jq "['납부하세요', '전화하세요']"))
              (PList [PStr (u8 "납부하세요"); PStr (u8 "전화하세요")]))
    as [H _].
  - vm_compute. reflexivity.
  - intros d. discriminate.
  - apply H.
Defined.

(** ** The retrieved context and the action guide *)

Lemma find_action_guide_chunk_dicts (chunks : list RAGAgent.Chunk) :
  Guide.find_action_guide (map RAGAgent.chunk_dict chunks) = Ok None.
Proof. induction chunks as [|ch chunks IH]; [reflexivity | exact IH]. Qed.

Lemma scan_chunks_chunk_dicts (rt : Runtime) (chunks : list RAGAgent.Chunk) :
  Simplifier.scan_chunks rt (map RAGAgent.chunk_dict chunks) = Ok tt.
Proof. induction chunks as [|ch chunks IH]; [reflexivity | exact IH]. Qed.

Lemma rag_process_result rt attempt doc_type key_info rag :
  RAGAgent.process rt attempt doc_type key_info = Ok rag ->
  exists d chunks,
    rag = PDict d /\
    lookup (u8 "retrieved_chunks") d = Some (PList (map RAGAgent.chunk_dict chunks)) /\
    (exists summary, lookup (u8 "summary") d = Some summary).
Proof.
  unfold RAGAgent.process.
  destruct (RAGAgent._build_query doc_type key_info) as [query|]; [cbn [bind]|discriminate].
  destruct attempt as [[chunks summary]|e]; intros H; injection H as <-.
  - eexists. exists chunks. split; [reflexivity|]. split; [reflexivity|]. eexists. reflexivity.
  - eexists. exists []. split; [reflexivity|]. split; [reflexivity|]. eexists. reflexivity.
Qed.

(** The loop of the simplifier and [find_action_guide] agree: the loop
    renders the guide that is found, and does nothing when none is. *)
Lemma scan_chunks_find (rt : Runtime) (chunks : list pyval) :
  Simplifier.scan_chunks rt chunks
  = (found <- Guide.find_action_guide chunks ;;
     match found with
     | Some action_guide => Simplifier.render_action_guide rt action_guide
     | None => Ok tt
     end).
Proof.
  induction chunks as [|chunk rest IH]; [reflexivity|].
  cbn [Simplifier.scan_chunks Guide.find_action_guide].
  destruct (get chunk (u8 "metadata") (PDict [])) as [metadata|]; [cbn [bind]|reflexivity].
  destruct (get metadata (u8 "action_guide") PNone) as [g|]; [cbn [bind]|reflexivity].
  destruct (truthy g); [reflexivity | exact IH].
Qed.

(** X12.  Whatever the search returns, the context that the retrieval
    agent builds holds chunk dicts without a [metadata] key: the
    simplifier finds no action guide in it and its guide branch does
    nothing. *)
Theorem retrieved_context_has_no_action_guide :
  forall (rt : Runtime) (attempt : res (list RAGAgent.Chunk * pyval))
         (doc_type key_info rag : pyval),
    RAGAgent.process rt attempt doc_type key_info = Ok rag ->
    (exists chunks,
        get rag (u8 "retrieved_chunks") PNone = Ok (PList chunks) /\
        Guide.find_action_guide chunks = Ok None) /\
    Simplifier.action_guide_info rt rag = Ok tt.
Proof.
  intros rt attempt doc_type key_info rag H.
  destruct (rag_process_result _ _ _ _ _ H) as [d [chunks [-> [Hc _]]]].
  split.
  - exists (map RAGAgent.chunk_dict chunks). split.
    + unfold get, lookup_or. now rewrite Hc.
    + apply find_action_guide_chunk_dicts.
  - unfold Simplifier.action_guide_info, get, lookup_or.
    destruct (truthy (PDict d)); [cbn [bind]|reflexivity].
    rewrite Hc. destruct (truthy _); [|reflexivity].
    apply scan_chunks_chunk_dicts.
Qed.

Lemma retrieved_context_has_no_action_guide_witness :
  Simplifier.action_guide_info scenario_runtime
    (PDict [(u8 "retrieved_chunks",
             PList [RAGAgent.chunk_dict
                      {| RAGAgent.chunk_text := PStr (u8 "납부 기한 안내");
                         RAGAgent.chunk_source := PStr (u8 "국민건강보험공단");
                         RAGAgent.chunk_doc_type := PStr (u8 "건강보험료_고지서");
                         RAGAgent.chunk_topic := PStr (u8 "납부");
                         RAGAgent.chunk_score := PFloat (FDec false 9 (-1)) |}]);
            (u8 "query", PStr (u8 "건강보험료_고지서"));
            (u8 "summary", PStr (u8 "기한 안에 납부하세요."))])
  = Ok tt.
Proof.
  apply (retrieved_context_has_no_action_guide scenario_runtime
           (Ok ([{| RAGAgent.chunk_text := PStr (u8 "납부 기한 안내");
                    RAGAgent.chunk_source := PStr (u8 "국민건강보험공단");
                    RAGAgent.chunk_doc_type := PStr (u8 "건강보험료_고지서");
                    RAGAgent.chunk_topic := PStr (u8 "납부");
                    RAGAgent.chunk_score := PFloat (FDec false 9 (-1)) |}],
                PStr (u8 "기한 안에 납부하세요.")))
           (PStr (u8 "건강보험료_고지서")) (PDict [])).
  vm_compute. reflexivity.
Defined.

(** ** The delivered risk level *)

Lemma simplified_risk_level_default rt reply doc_type key_info plan rag simplified
      generated default v' :
  Simplifier.process rt reply doc_type key_info plan rag = Ok simplified ->
  _call_llm_json rt reply = Ok (PDict generated) ->
  absent_or_empty generated (u8 "risk_level") = true ->
  get simplified (u8 "risk_level") default = Ok v' ->
  v' = PStr (u8 "LOW").
Proof.
  intros H Hgen Habs Hg.
  destruct (simplifier_process_dict _ _ _ _ _ _ _ H) as [g [d [Hgen' [-> Hl]]]].
  rewrite Hgen in Hgen'. injection Hgen' as <-.
  unfold get, lookup_or in Hg. rewrite Hl in Hg.
  change (lookup (u8 "risk_level") Simplifier.defaults)
    with (Some (PStr (u8 "LOW"))) in Hg.
  unfold absent_or_empty, lookup_or in Habs.
  destruct (lookup (u8 "risk_level") generated) as [v|].
  - apply negb_true_iff in Habs. rewrite Habs in Hg. now injection Hg as <-.
  - now injection Hg as <-.
Qed.

Lemma simplification_stage_risk_default rt w f f' generated :
  simplification_stage rt w f = (Done tt, f') ->
  _call_llm_json rt (reply_simplifier w) = Ok (PDict generated) ->
  absent_or_empty generated (u8 "risk_level") = true ->
  risk_level (result f') = PStr (u8 "LOW").
Proof.
  intros H Hgen Habs. revert H.
  unfold simplification_stage.
  unfold bindM, call, read, assign, let_key_info, let_rag_result,
    let_action_plan, ret.
  repeat match goal with
         | |- context [match ?x with Ok _ => _ | Raise _ => _ end] =>
             let E := fresh "E" in destruct x eqn:E
         end; try discriminate.
  intros H. injection H as <-. simpl.
  eapply simplified_risk_level_default; eauto.
Qed.

Lemma stages_run_risk_default rt w f0 f' generated :
  run_all (stages rt w) f0 = (Done tt, f') ->
  _call_llm_json rt (reply_simplifier w) = Ok (PDict generated) ->
  absent_or_empty generated (u8 "risk_level") = true ->
  risk_level (result f') = PStr (u8 "LOW").
Proof.
  intros H Hgen Habs. unfold stages in H. cbn [run_all] in H. unfold bindM in H.
  destruct (classification_stage rt w f0) as [[[]| |e1] f1]; try discriminate.
  destruct (extraction_stage rt w f1) as [[[]| |e2] f2]; try discriminate.
  destruct (retrieval_stage rt w f2) as [[[]| |e3] f3]; try discriminate.
  destruct (planning_stage rt w f3) as [[[]| |e4] f4]; try discriminate.
  destruct (simplification_stage rt w f4) as [[[]| |e5] f5] eqn:E5; try discriminate.
  unfold ret in H. injection H as <-.
  eapply simplification_stage_risk_default; eauto.
Qed.

(** X13.  In a run in which every stage returns and the generated
    simplification has no [risk_level], or an empty one, the delivered
    [risk_level] is LOW whatever risk was extracted: the simplifier
    fills in LOW before the orchestrator reads the key, so the risk
    level that the orchestrator derived from the extracted
    [penalty_risk] is never the one delivered by a completed run. *)
Theorem unrated_simplification_delivers_low :
  forall (rt : Runtime) (w : World) (generated : list (pystr * pyval)),
    _call_llm_json rt (reply_simplifier w) = Ok (PDict generated) ->
    absent_or_empty generated (u8 "risk_level") = true ->
    (forall txt f',
        run_all (stages rt w) (text_frame txt) = (Done tt, f') ->
        risk_level (analyze_text rt w txt) = PStr (u8 "LOW")) /\
    (forall fa f',
        acquisition_stage rt w file_frame = (Done tt, fa) ->
        run_all (stages rt w) fa = (Done tt, f') ->
        risk_level (analyze rt w) = PStr (u8 "LOW")).
Proof.
  intros rt w generated Hgen Habs. split.
  - intros txt f' H. unfold analyze_text, guarded. fold (text_frame txt).
    rewrite H. simpl. eapply stages_run_risk_default; eauto.
  - intros fa f' Ha H. unfold analyze, guarded, bindM. fold file_frame.
    rewrite Ha, H. simpl. eapply stages_run_risk_default; eauto.
Qed.

Lemma unrated_simplification_delivers_low_witness :
  get (key_info (analyze scenario_runtime unrated)) (u8 "penalty_risk") PNone
  = Ok (PStr (u8 "HIGH")) /\
  risk_level (analyze scenario_runtime unrated) = PStr (u8 "LOW").
Proof.
  split; [vm_compute; reflexivity|].
  destruct (unrated_simplification_delivers_low scenario_runtime unrated
              [(u8 "summary_one_line", PStr (u8 "보험료를 내세요."));
               (u8 "steps_easy", PList [PStr (u8 "전화하세요.")])])
    as [_ Hfile].
  - vm_compute. reflexivity.
  - vm_compute. reflexivity.
  - apply (Hfile (snd (acquisition_stage scenario_runtime unrated file_frame))
                 (snd (run_all (acquisition_stage scenario_runtime unrated
                                  :: stages scenario_runtime unrated)
                               file_frame))).
    + vm_compute. reflexivity.
    + vm_compute. reflexivity.
Defined.

(** ** A type code that is not text *)

Lemma join_values_head_not_str (sep : pystr) (v : pyval) (rest : list pyval) :
  is_str v = false -> RAGAgent.join_values sep (v :: rest) = Raise TypeError.
Proof. destruct v; try discriminate; reflexivity. Qed.

Lemma build_query_needs_text (doc_type key_info : pyval) :
  is_str doc_type = false ->
  exists e, RAGAgent._build_query doc_type key_info = Raise e.
Proof.
  intros Hv. unfold RAGAgent._build_query.
  destruct (get key_info (u8 "organization") PNone) as [org|]; [cbn [bind]|cbn [bind]; eauto].
  destruct (get key_info (u8 "action_required") PNone) as [req|]; [cbn [bind]|cbn [bind]; eauto].
  destruct (get key_info (u8 "penalty_risk") PNone) as [risk|]; [cbn [bind]|cbn [bind]; eauto].
  exists TypeError.
  destruct (truthy org), (truthy req),
    (eq_str risk (u8 "MEDIUM") || eq_str risk (u8 "HIGH"));
    cbv zeta; cbn [app]; apply join_values_head_not_str; exact Hv.
Qed.

Lemma retrieval_stage_needs_text rt w f :
  is_str (doc_type (result f)) = false ->
  exists e, retrieval_stage rt w f = (Raised e, f).
Proof.
  intros Hv. unfold retrieval_stage, bindM, read, call, RAGAgent.process.
  destruct (build_query_needs_text (doc_type (result f)) (v_key_info f) Hv)
    as [e ->].
  exists e. reflexivity.
Qed.

Lemma classification_stage_type rt w f generated v :
  _call_llm_json rt (reply_classifier w) = Ok (PDict generated) ->
  lookup (u8 "doc_type") generated = Some v ->
  exists f1,
    classification_stage rt w f = (Done tt, f1) /\
    doc_type (result f1) = v /\
    action_plan (result f1) = action_plan (result f) /\
    evidence_chunks (result f1) = evidence_chunks (result f).
Proof.
  intros Hgen Hv.
  unfold classification_stage, bindM, read, call, assign,
    DocumentClassifier.process, DocumentClassifier._llm_classify.
  rewrite Hgen. cbn [bind].
  match goal with
  | |- context [fill setdefault_missing ?defs _] =>
      destruct (fill_missing_dict defs generated) as [c [-> Hlook]]
  end.
  cbn [get]. eexists. split; [reflexivity|].
  cbn [result doc_type set_organization set_doc_type_name set_doc_type
         action_plan evidence_chunks].
  repeat split. unfold lookup_or. now rewrite Hlook, Hv.
Qed.

Lemma extraction_stage_keeps rt w f o f' :
  extraction_stage rt w f = (o, f') ->
  o <> Returned /\
  doc_type (result f') = doc_type (result f) /\
  action_plan (result f') = action_plan (result f) /\
  evidence_chunks (result f') = evidence_chunks (result f).
Proof. unfold extraction_stage. run_stage. Qed.

(** X14.  When the generated classification gives a [doc_type] that is
    not a string ([null], a number, a list), no run can complete: the
    query for the retrieval cannot be joined, so the run fails at the
    retrieval stage at the latest.  The result is the failure
    diagnostic, with the generated type code in it, no evidence and the
    untouched action plan. *)
Theorem non_text_type_code_fails_the_run :
  forall (rt : Runtime) (w : World) (generated : list (pystr * pyval))
         (v : pyval) (txt : pystr),
    _call_llm_json rt (reply_classifier w) = Ok (PDict generated) ->
    lookup (u8 "doc_type") generated = Some v ->
    is_str v = false ->
    failure_diagnostic (analyze_text rt w txt) /\
    doc_type (analyze_text rt w txt) = v /\
    evidence_chunks (analyze_text rt w txt) = PList [] /\
    action_plan (analyze_text rt w txt) = PDict [].
Proof.
  intros rt w generated v txt Hgen Hv Hstr.
  assert (Hrun : exists e f,
             run_all (stages rt w) (text_frame txt) = (Raised e, f) /\
             doc_type (result f) = v /\
             evidence_chunks (result f) = PList [] /\
             action_plan (result f) = PDict []).
  { unfold stages. cbn [run_all]. unfold bindM at 1.
    destruct (classification_stage_type rt w (text_frame txt) generated v Hgen Hv)
      as [f1 [-> [Hd1 [Hp1 He1]]]].
    unfold bindM at 1.
    destruct (extraction_stage rt w f1) as [o2 f2] eqn:E2.
    destruct (extraction_stage_keeps rt w _ _ _ E2) as [N2 [Hd2 [Hp2 He2]]].
    destruct o2 as [[]| |e2]; [| congruence |].
    - unfold bindM at 1.
      destruct (retrieval_stage_needs_text rt w f2) as [e ->];
        [now rewrite Hd2, Hd1|].
      exists e, f2. split; [reflexivity|].
      rewrite Hd2, Hp2, He2, Hd1, Hp1, He1. auto.
    - exists e2, f2. split; [reflexivity|].
      rewrite Hd2, Hp2, He2, Hd1, Hp1, He1. auto. }
  destruct Hrun as [e [f [Hrun [Hd [He Hp]]]]].
  unfold analyze_text. fold (text_frame txt).
  rewrite (guarded_raised rt w _ _ _ _ Hrun).
  split; [split; reflexivity|]. auto.
Qed.

Lemma non_text_type_code_fails_the_run_witness :
  failure_diagnostic
    (analyze_text scenario_runtime null_type (u8 "건강보험료 체납 독촉장")) /\
  doc_type (analyze_text scenario_runtime null_type (u8 "건강보험료 체납 독촉장"))
  = PNone.
Proof.
  destruct (non_text_type_code_fails_the_run scenario_runtime null_type
              [(u8 "doc_type", PNone);
               (u8 "doc_type_name", PStr (u8 "알 수 없는 문서"))]
              PNone (u8 "건강보험료 체납 독촉장"))
    as [Hf [Hd _]].
  - vm_compute. reflexivity.
  - reflexivity.
  - reflexivity.
  - split; [exact Hf | exact Hd].
Defined.

(** ** A scanned file and its text *)

Ltac frame_simpl :=
  cbn [result full_text v_key_info v_rag_result v_action_plan fst snd
       doc_type doc_type_name organization risk_level action_required key_info
       summary_one_line what_is_this key_points steps_easy dont_worry
       need_help_message action_plan evidence_chunks ocr_confidence
       processing_time_ms
       set_doc_type set_doc_type_name set_organization set_risk_level
       set_action_required set_key_info set_summary_one_line set_what_is_this
       set_key_points set_steps_easy set_dont_worry set_need_help_message
       set_action_plan set_evidence_chunks set_ocr_confidence
       set_processing_time_ms].


Ltac stage_cases :=
  unfold ignores_confidence, bindM, call, read, assign, let_key_info,
    let_rag_result, let_action_plan, ret, with_confidence;
  intros; frame_simpl;
  repeat match goal with
         | |- context [match ?x with Ok _ => _ | Raise _ => _ end] =>
             destruct x; frame_simpl
         | |- context [if ?b then _ else _] => destruct b; frame_simpl
         end;
  reflexivity.

Lemma stages_ignore_confidence rt w :
  Forall ignores_confidence (stages rt w).
Proof.
  unfold stages. repeat constructor.
  - unfold classification_stage. stage_cases.
  - unfold extraction_stage. stage_cases.
  - unfold retrieval_stage. stage_cases.
  - unfold planning_stage. stage_cases.
  - unfold simplification_stage. stage_cases.
Qed.

Lemma run_all_ignores_confidence (ms : list (M unit)) :
  Forall ignores_confidence ms -> ignores_confidence (run_all ms).
Proof.
  induction 1 as [|m ms Hm _ IH]; intros c f; [reflexivity|].
  cbn [run_all]. unfold bindM. rewrite (Hm c f).
  destruct (m f) as [[[]| |e] f1]; cbn [fst snd]; [apply IH | reflexivity..].
Qed.

(** X15.  On pages that hold more than white space, analysing the file
    gives what analysing the joined page text gives, except for the
    confidence: [analyze] reports the mean page confidence where
    [analyze_text] reports 100. *)
Theorem file_analysis_is_text_analysis :
  forall (rt : Runtime) (w : World) (pages : list OCRResult),
    acquired w = Ok pages ->
    is_blank (page_text pages) = false ->
    analyze rt w
    = set_ocr_confidence (page_confidence rt pages)
        (analyze_text rt w (page_text pages)).
Proof.
  intros rt w pages Hacq Hblank.
  pose proof (run_all_ignores_confidence _ (stages_ignore_confidence rt w)
                (page_confidence rt pages) (text_frame (page_text pages))) as Hrun.
  unfold analyze, analyze_text, guarded. fold (text_frame (page_text pages)).
  unfold bindM at 1. unfold acquisition_stage at 1.
  unfold bindM, call. rewrite Hacq. cbv beta iota.
  fold (page_text pages). rewrite Hblank. unfold ret.
  change {| result := set_ocr_confidence _ (result (new_frame new_result []));
            full_text := page_text pages;
            v_key_info := v_key_info (new_frame new_result []);
            v_rag_result := v_rag_result (new_frame new_result []);
            v_action_plan := v_action_plan (new_frame new_result []) |}
    with (with_confidence (page_confidence rt pages) (text_frame (page_text pages))).
  rewrite Hrun.
  destruct (run_all (stages rt w) (text_frame (page_text pages))) as [[[]| |e] f];
    reflexivity.
Qed.

Lemma file_analysis_is_text_analysis_witness :
  analyze scenario_runtime softened
  = set_ocr_confidence
      (page_confidence scenario_runtime
         [{| text := u8 "건강보험료 체납 독촉장 납부금액: 150,000원";
             confidence := (9 # 10)%Q |}])
      (analyze_text scenario_runtime softened
         (page_text [{| text := u8 "건강보험료 체납 독촉장 납부금액: 150,000원";
                        confidence := (9 # 10)%Q |}])).
Proof.
  apply (file_analysis_is_text_analysis scenario_runtime softened
           [{| text := u8 "건강보험료 체납 독촉장 납부금액: 150,000원";
               confidence := (9 # 10)%Q |}]).
  - reflexivity.
  - vm_compute. reflexivity.
Defined.

(** ** A failure after the extraction *)

Lemma extraction_stage_risk rt w f f' :
  extraction_stage rt w f = (Done tt, f') ->
  exists penalty_risk,
    get (key_info (result f')) (u8 "penalty_risk") (PStr (u8 "NONE"))
    = Ok penalty_risk /\
    risk_level (result f') = risk_of_penalty penalty_risk.
Proof.
  unfold extraction_stage, bindM, read, call, assign, let_key_info.
  destruct (InfoExtractor.process _ _ _) as [ki|]; [|discriminate].
  destruct (get ki (u8 "action_required") (PBool false)); [|discriminate].
  destruct (get ki (u8 "penalty_risk") (PStr (u8 "NONE"))) as [pr|] eqn:E;
    [|discriminate].
  unfold risk_of_penalty.
  destruct (eq_str pr (u8 "HIGH")) eqn:H1;
    [|destruct (eq_str pr (u8 "MEDIUM")) eqn:H2];
    intros H; injection H as <-; exists pr; cbn; rewrite E, ?H1, ?H2; auto.
Qed.

Lemma retrieval_planning_keep_facts rt w m :
  In m [retrieval_stage rt w; planning_stage rt w] ->
  forall f o f',
    m f = (o, f') ->
    risk_level (result f') = risk_level (result f) /\
    key_info (result f') = key_info (result f).
Proof.
  intros Hin f o f'. simpl in Hin. destruct Hin as [<-|[<-|[]]].
  - unfold retrieval_stage. run_stage.
  - unfold planning_stage. run_stage.
Qed.

(** The simplification writes nothing into the result unless it
    completes: it can only raise in the call of the simplifier. *)
Lemma simplification_stage_all_or_nothing rt w f o f' :
  simplification_stage rt w f = (o, f') ->
  o = Done tt \/ f' = f.
Proof.
  unfold simplification_stage, bindM, read, call.
  destruct (Simplifier.process _ _ _ _ _) as [simplified|e] eqn:E.
  - destruct (simplifier_process_dict _ _ _ _ _ _ _ E) as [g [d [_ [-> _]]]].
    cbn [get]. unfold assign. intros H. left. symmetry. exact (f_equal fst H).
  - intros H. injection H as <- <-. now right.
Qed.

(** X16.  When the classification and the extraction return and one of
    the three later stages raises, the delivered result is the failure
    diagnostic with the extracted facts in it, and its [risk_level] is
    the one that stage 4 derived from the extracted [penalty_risk]:
    HIGH for HIGH, MEDIUM for MEDIUM, LOW for anything else. *)
Theorem late_failure_keeps_the_extracted_risk :
  forall (rt : Runtime) (w : World) (txt : pystr) (f2 f3 : Frame) (e : exn),
    run_all [classification_stage rt w; extraction_stage rt w] (text_frame txt)
    = (Done tt, f2) ->
    run_all [retrieval_stage rt w; planning_stage rt w; simplification_stage rt w] f2
    = (Raised e, f3) ->
    failure_diagnostic (analyze_text rt w txt) /\
    key_info (analyze_text rt w txt) = key_info (result f2) /\
    exists penalty_risk,
      get (key_info (result f2)) (u8 "penalty_risk") (PStr (u8 "NONE"))
      = Ok penalty_risk /\
      risk_level (analyze_text rt w txt) = risk_of_penalty penalty_risk.
Proof.
  intros rt w txt f2 f3 e Hearly Hlate.
  assert (Hrun : run_all (stages rt w) (text_frame txt) = (Raised e, f3)).
  { change (stages rt w)
      with ([classification_stage rt w; extraction_stage rt w]
              ++ [retrieval_stage rt w; planning_stage rt w; simplification_stage rt w]).
    now rewrite (run_all_app _ _ _ _ Hearly). }
  assert (Hkeep : risk_level (result f3) = risk_level (result f2) /\
                  key_info (result f3) = key_info (result f2)).
  { revert Hlate. cbn [run_all]. unfold bindM at 1.
    destruct (retrieval_stage rt w f2) as [o3 f3'] eqn:E3.
    destruct (retrieval_planning_keep_facts rt w _ (or_introl eq_refl) _ _ _ E3)
      as [R3 K3].
    destruct o3 as [[]| |e3];
      [| discriminate | intros H; injection H as _ <-; auto].
    unfold bindM at 1.
    destruct (planning_stage rt w f3') as [o4 f4] eqn:E4.
    destruct (retrieval_planning_keep_facts rt w _
                (or_intror (or_introl eq_refl)) _ _ _ E4) as [R4 K4].
    destruct o4 as [[]| |e4];
      [| discriminate | intros H; injection H as _ <-; split; congruence].
    unfold bindM at 1.
    destruct (simplification_stage rt w f4) as [o5 f5] eqn:E5.
    destruct (simplification_stage_all_or_nothing rt w _ _ _ E5) as [->| ->].
    - discriminate.
    - destruct o5 as [[]| |e5]; try discriminate.
      intros H; injection H as _ <-; split; congruence. }
  destruct Hkeep as [Hrisk Hkey].
  assert (Hext : exists penalty_risk,
             get (key_info (result f2)) (u8 "penalty_risk") (PStr (u8 "NONE"))
             = Ok penalty_risk /\
             risk_level (result f2) = risk_of_penalty penalty_risk).
  { revert Hearly. cbn [run_all]. unfold bindM at 1.
    destruct (classification_stage rt w (text_frame txt)) as [[[]| |e1] f1];
      try discriminate.
    unfold bindM at 1.
    destruct (extraction_stage rt w f1) as [[[]| |e2] f2'] eqn:E2; try discriminate.
    unfold ret. intros H. injection H as <-.
    now apply (extraction_stage_risk rt w f1). }
  destruct Hext as [pr [Hpr Hlevel]].
  unfold analyze_text. fold (text_frame txt).
  rewrite (guarded_raised rt w _ _ _ _ Hrun).
  split; [split; reflexivity|].
  split; [exact Hkey|].
  exists pr. split; [exact Hpr|]. cbn. congruence.
Qed.

Lemma late_failure_keeps_the_extracted_risk_witness :
  failure_diagnostic
    (analyze_text scenario_runtime broken_planner (u8 "건강보험료 체납 독촉장")) /\
  risk_level (analyze_text scenario_runtime broken_planner (u8 "건강보험료 체납 독촉장"))
  = PStr (u8 "HIGH").
Proof.
  destruct (late_failure_keeps_the_extracted_risk scenario_runtime broken_planner
              (u8 "건강보험료 체납 독촉장")
              (snd (run_all [classification_stage scenario_runtime broken_planner;
                             extraction_stage scenario_runtime broken_planner]
                            (text_frame (u8 "건강보험료 체납 독촉장"))))
              (snd (run_all (stages scenario_runtime broken_planner)
                            (text_frame (u8 "건강보험료 체납 독촉장"))))
              (External (u8 "Rate limit reached.")))
    as [Hf [_ [pr [Hpr Hlevel]]]].
  - vm_compute. reflexivity.
  - vm_compute. reflexivity.
  - split; [exact Hf|]. rewrite Hlevel.
    assert (Hv : get (key_info
                        (result
                           (snd (run_all [classification_stage scenario_runtime broken_planner;
                                          extraction_stage scenario_runtime broken_planner]
                                         (text_frame (u8 "건강보험료 체납 독촉장"))))))
                     (u8 "penalty_risk") (PStr (u8 "NONE"))
                 = Ok (PStr (u8 "HIGH"))) by (vm_compute; reflexivity).
    rewrite Hv in Hpr. injection Hpr as <-. reflexivity.
Defined.

(** ** Completions without JSON *)










(** ** The history log, in general *)

Lemma last_n_length {A : Type} (n : nat) (l : list A) :
  List.length (History.last_n n l) <= n.
Proof. unfold History.last_n. rewrite length_skipn. lia. Qed.

Lemma last_n_short {A : Type} (n : nat) (l : list A) :
  List.length l <= n -> History.last_n n l = l.
Proof.
  intros H. unfold History.last_n.
  replace (List.length l - n) with 0 by lia. reflexivity.
Qed.

Lemma last_n_cons_full {A : Type} (n : nat) (x : A) (l : list A) :
  List.length l = n -> History.last_n n (x :: l) = l.
Proof.
  intros H. unfold History.last_n. cbn [List.length].
  replace (S (List.length l) - n) with 1 by lia. reflexivity.
Qed.

(** X18.  After any sequence of appends to an empty log of which the
    last one could write the file, the file holds the entries of the
    first fifty requests, the latest of them first, while the list in
    memory holds all of them, newest first: from the fifty-first
    append on, the file no longer changes. *)
Theorem history_file_keeps_the_first_fifty :
  forall (rqs : list History.Request) (last : History.Request),
    History.req_write last = History.Written ->
    let st := History.add_all History.empty_store (rqs ++ [last]) in
    History.history_file st
    = History.Saved (rev (map History.history_entry (firstn 50 (rqs ++ [last])))) /\
    History.get_history (S (List.length rqs)) st
    = rev (map History.history_entry (rqs ++ [last])) /\
    (50 <= List.length rqs ->
     History.history_file st
     = History.Saved (rev (map History.history_entry (firstn 50 rqs)))).
Proof.
  intros rqs last Hok st. subst st.
  assert (Hfile := history_file_after_appends rqs last Hok).
  rewrite firstn_map in Hfile.
  split; [exact Hfile|]. split.
  - unfold History.get_history. rewrite add_all_memory.
    cbn [History.analysis_history History.empty_store]. rewrite app_nil_r.
    apply firstn_all2. rewrite length_rev, length_map, length_app.
    cbn [List.length]. lia.
  - intros Hlen. rewrite Hfile. rewrite firstn_app.
    replace (50 - List.length rqs) with 0 by lia.
    cbn [firstn]. now rewrite app_nil_r.
Qed.

Lemma history_file_keeps_the_first_fifty_witness :
  History.history_file
    (History.add_all History.empty_store (requests_up_to 59 ++ [request_no 60]))
  = History.Saved (rev (map History.history_entry (firstn 50 (requests_up_to 59)))).
Proof.
  destruct (history_file_keeps_the_first_fifty (requests_up_to 59) (request_no 60))
    as [_ [_ H]].
  - reflexivity.
  - apply H. vm_compute. lia.
Defined.

Lemma add_to_history_bounded (st : History.Store) (rq : History.Request) :
  file_bounded st -> file_bounded (History.add_to_history st rq).
Proof.
  unfold file_bounded, History.add_to_history, History.save_history.
  destruct (History.req_write rq);
    cbn [History.history_file History.analysis_history]; [|auto|auto].
  intros _. apply last_n_length.
Qed.

(** X19.  Bounded storage is an invariant of the log: from a store
    whose file holds at most fifty entries, every sequence of appends
    and every clearing leave a file that holds at most fifty entries,
    whether the writes complete, are refused when the file is opened,
    or are interrupted after the file has been emptied.  An interrupted
    write loses what was saved: the file is left broken, and the log
    that is loaded from it is empty. *)
Theorem history_file_stays_bounded :
  forall (st : History.Store) (rqs : list History.Request)
         (outcome : History.write),
    file_bounded st ->
    file_bounded (History.add_all st rqs) /\
    file_bounded (HistoryApi.clear_history outcome (History.add_all st rqs)) /\
    (forall (rq : History.Request) (readable : bool),
        History.req_write rq = History.Interrupted ->
        History.history_file (History.add_to_history (History.add_all st rqs) rq)
        = History.Broken /\
        History.analysis_history
          (History.load_history readable
             (History.add_to_history (History.add_all st rqs) rq)) = []).
Proof.
  intros st rqs outcome Hst.
  assert (Hall : file_bounded (History.add_all st rqs)).
  { revert st Hst. unfold History.add_all.
    induction rqs as [|rq rqs IH]; intros st Hst; [exact Hst|].
    cbn [fold_left]. apply IH. now apply add_to_history_bounded. }
  split; [exact Hall|]. split.
  - unfold file_bounded, HistoryApi.clear_history, History.save_history.
    destruct outcome; cbn [History.history_file History.analysis_history].
    + cbn. lia.
    + exact Hall.
    + exact I.
  - intros rq readable Hcut.
    unfold History.add_to_history, History.save_history, History.load_history.
    rewrite Hcut. cbn [History.history_file History.analysis_history].
    split; reflexivity.
Qed.

Lemma history_file_stays_bounded_witness :
  file_bounded (History.add_all History.empty_store (requests_up_to 60)).
Proof.
  apply (history_file_stays_bounded History.empty_store (requests_up_to 60)
           History.Written).
  exact I.
Defined.

(** X20.  After a restart with a full file, nothing new is saved: when
    the file holds fifty entries and the log is loaded from it, an
    append that writes the file writes back the same fifty entries,
    without the new one, which is in memory only. *)
Theorem full_file_is_frozen_after_restart :
  forall (st : History.Store) (entries : list pyval) (rq : History.Request),
    History.history_file st = History.Saved entries ->
    List.length entries = 50 ->
    History.req_write rq = History.Written ->
    let st' := History.add_to_history (History.load_history true st) rq in
    History.history_file st' = History.Saved entries /\
    History.analysis_history st' = History.history_entry rq :: entries.
Proof.
  intros st entries rq Hfile Hlen Hok st'. subst st'.
  unfold History.add_to_history, History.load_history, History.save_history.
  rewrite Hfile, Hok.
  cbn [History.history_file History.analysis_history].
  split; [|reflexivity].
  f_equal. now apply last_n_cons_full.
Qed.

Lemma full_file_is_frozen_after_restart_witness :
  History.history_file
    (History.add_to_history
       (History.load_history true
          (History.add_all History.empty_store (requests_up_to 50)))
       (request_no 51))
  = History.Saved (map History.history_entry (rev (requests_up_to 50))).
Proof.
  destruct (full_file_is_frozen_after_restart
              (History.add_all History.empty_store (requests_up_to 50))
              (map History.history_entry (rev (requests_up_to 50)))
              (request_no 51)) as [H _].
  - vm_compute. reflexivity.
  - vm_compute. reflexivity.
  - reflexivity.
  - exact H.
Defined.

Lemma store_absent (k : pystr) (v : pyval) (d : list (pystr * pyval)) :
  ~ In k (map fst d) -> store k v d = d ++ [(k, v)].
Proof.
  induction d as [|[k' v'] d IH]; cbn [store map fst In app]; intros H;
    [reflexivity|].
  destruct (str_eqb k k') eqn:E.
  - apply str_eqb_eq in E. subst. tauto.
  - rewrite IH by tauto. reflexivity.
Qed.

(** [{**mapping}] onto keys that the mapping does not have: the items
    are appended in their order. *)
Lemma fold_store_distinct (kvs pre : list (pystr * pyval)) :
  NoDup (map fst (pre ++ kvs)) ->
  fold_left (fun acc kv => store (fst kv) (snd kv) acc) kvs pre = pre ++ kvs.
Proof.
  revert pre. induction kvs as [|[k v] kvs IH]; intros pre Hnd; cbn [fold_left].
  - now rewrite app_nil_r.
  - cbn [fst snd]. rewrite store_absent.
    + rewrite IH; rewrite <- app_assoc; [reflexivity | exact Hnd].
    + rewrite map_app in Hnd. cbn [map fst] in Hnd.
      apply NoDup_remove_2 in Hnd. intros Hin. apply Hnd.
      apply in_or_app. now left.
Qed.

(** X21.  The detail of a result that was just appended is the response
    that was stored.  When the stored response begins with its [status]
    of success, has distinct keys and carries a string [analysis_id],
    as the responses of both analysis endpoints do, the detail lookup
    with that id returns exactly this response; it is the new entry
    that is found should an older one have the same id. *)
Theorem history_detail_returns_the_stored_response :
  forall (st : History.Store) (rq : History.Request) (analysis_id : pystr)
         (fields : list (pystr * pyval)),
    History.req_result rq = (u8 "status", PStr (u8 "success")) :: fields ->
    NoDup (map fst (History.req_result rq)) ->
    lookup (u8 "analysis_id") fields = Some (PStr analysis_id) ->
    HistoryApi.get_history_detail analysis_id (History.add_to_history st rq)
    = Ok (Some (PDict (History.req_result rq))).
Proof.
  intros st rq analysis_id fields Hres Hnd Hid.
  unfold HistoryApi.get_history_detail, History.add_to_history,
    History.save_history.
  assert (Hmem : forall st0,
             History.analysis_history (History.save_history (History.req_write rq) st0)
             = History.analysis_history st0).
  { intros st0. unfold History.save_history.
    now destruct (History.req_write rq). }
  fold (History.save_history (History.req_write rq)
          {| History.analysis_history :=
               History.history_entry rq :: History.analysis_history st;
             History.history_file := History.history_file st |}).
  rewrite Hmem. cbn [History.analysis_history HistoryApi.find_detail].
  unfold History.history_entry at 1. cbn [getitem lookup].
  rewrite str_eqb_refl. cbn [bind].
  assert (Hkey : lookup_or (History.req_result rq) (u8 "analysis_id")
                           (PStr (History.req_uuid rq)) = PStr analysis_id).
  { unfold lookup_or. rewrite Hres. cbn [lookup].
    replace (str_eqb (u8 "analysis_id") (u8 "status")) with false
      by (vm_compute; reflexivity).
    now rewrite Hid. }
  rewrite Hkey. cbn [eq_str]. rewrite str_eqb_refl.
  unfold History.history_entry.
  replace (getitem _ (u8 "result")) with (Ok (PDict (History.req_result rq)))
    by (vm_compute; reflexivity).
  cbn [bind HistoryApi.with_status].
  rewrite Hres in Hnd |- *. cbn [fold_left fst snd].
  replace (store (u8 "status") (PStr (u8 "success"))
                 [(u8 "status", PStr (u8 "success"))])
    with [(u8 "status", PStr (u8 "success"))] by (vm_compute; reflexivity).
  rewrite (fold_store_distinct fields [(u8 "status", PStr (u8 "success"))] Hnd).
  reflexivity.
Qed.

Lemma history_detail_returns_the_stored_response_witness :
  HistoryApi.get_history_detail (u8 "7f3c")
    (History.add_to_history History.empty_store stored_response)
  = Ok (Some (PDict (History.req_result stored_response))).
Proof.
  apply (history_detail_returns_the_stored_response History.empty_store
           stored_response (u8 "7f3c")
           [(u8 "analysis_id", PStr (u8 "7f3c"));
            (u8 "doc_type_name", PStr (u8 "건강보험료 납부 고지서"));
            (u8 "risk_level", PStr (u8 "MEDIUM"))]).
  - reflexivity.
  - vm_compute.
    repeat (constructor; [simpl; intuition discriminate|]). constructor.
  - vm_compute. reflexivity.
Defined.

(** ** The text sent for embedding *)

Lemma lstrip_split (s : pystr) :
  exists pre, s = pre ++ Embeddings.lstrip s /\ forallb is_space pre = true.
Proof.
  induction s as [|ch s [pre [IH Hpre]]].
  - exists []. auto.
  - cbn [Embeddings.lstrip]. destruct (is_space ch) eqn:E.
    + exists (ch :: pre). cbn [forallb app]. rewrite E, Hpre. split; [|reflexivity].
      now rewrite <- IH.
    + exists []. auto.
Qed.

Lemma lstrip_head (s : pystr) :
  match Embeddings.lstrip s with
  | ch :: _ => is_space ch = false
  | [] => True
  end.
Proof.
  induction s as [|ch s IH]; [exact I|].
  cbn [Embeddings.lstrip]. destruct (is_space ch) eqn:E; [exact IH | exact E].
Qed.

Lemma rstrip_split (s : pystr) :
  exists post, s = Embeddings.rstrip s ++ post /\ forallb is_space post = true.
Proof.
  unfold Embeddings.rstrip.
  destruct (lstrip_split (rev s)) as [pre [H Hpre]].
  exists (rev pre). split.
  - rewrite <- rev_app_distr, <- H. now rewrite rev_involutive.
  - rewrite forallb_forall in *. intros x Hx. apply Hpre. now apply in_rev.
Qed.

Lemma rstrip_head (s : pystr) :
  match s with
  | ch :: _ => is_space ch = false ->
               exists rest, Embeddings.rstrip s = ch :: rest
  | [] => True
  end.
Proof.
  destruct s as [|ch s]; [exact I|]. intros Hch.
  destruct (rstrip_split (ch :: s)) as [post [H Hpost]].
  destruct (Embeddings.rstrip (ch :: s)) as [|x r].
  - cbn [app] in H. subst post. cbn [forallb] in Hpost.
    rewrite Hch in Hpost. discriminate.
  - cbn [app] in H. injection H as <- _. eauto.
Qed.

Lemma replace_newlines_clean (s : pystr) :
  ~ In 10%N (Embeddings.replace_newlines s).
Proof.
  unfold Embeddings.replace_newlines. rewrite in_map_iff.
  intros [x [Hx _]]. destruct (x =? 10)%N eqn:E; [discriminate|].
  apply N.eqb_neq in E. congruence.
Qed.

Lemma strip_incl (s : pystr) (x : N) : In x (Embeddings.strip s) -> In x s.
Proof.
  unfold Embeddings.strip. intros H.
  destruct (lstrip_split s) as [pre [Hs _]].
  destruct (rstrip_split (Embeddings.lstrip s)) as [post [Hl _]].
  rewrite Hs, Hl. apply in_or_app. right. apply in_or_app. now left.
Qed.

(** X22.  The text that is sent for embedding has at most 8000
    characters and no line feed, and it does not begin with white
    space; when nothing was cut off it does not end with white space
    either, but a text cut at 8000 characters may. *)
Theorem embedded_text_is_clean :
  forall (txt : pystr),
    List.length (Embeddings.clean txt) <= Embeddings.max_chars /\
    ~ In 10%N (Embeddings.clean txt) /\
    match Embeddings.clean txt with
    | ch :: _ => is_space ch = false
    | [] => True
    end /\
    (List.length (Embeddings.strip (Embeddings.replace_newlines txt))
     <= Embeddings.max_chars ->
     match rev (Embeddings.clean txt) with
     | ch :: _ => is_space ch = false
     | [] => True
     end).
Proof.
  intros txt. unfold Embeddings.clean.
  set (t := Embeddings.strip (Embeddings.replace_newlines txt)).
  assert (Hhead : match t with ch :: _ => is_space ch = false | [] => True end).
  { subst t. unfold Embeddings.strip.
    pose proof (lstrip_head (Embeddings.replace_newlines txt)) as Hl.
    pose proof (rstrip_head (Embeddings.lstrip (Embeddings.replace_newlines txt)))
      as Hr.
    destruct (Embeddings.lstrip (Embeddings.replace_newlines txt)) as [|ch l];
      [exact I|].
    destruct (Hr Hl) as [rest ->]. exact Hl. }
  assert (Hin : ~ In 10%N t).
  { intros H. apply (replace_newlines_clean txt). subst t. now apply strip_incl. }
  destruct (Nat.ltb_spec Embeddings.max_chars (List.length t)) as [Hlt|Hle].
  - split; [apply firstn_le_length|]. split.
    + intros H. apply Hin. rewrite <- (firstn_skipn Embeddings.max_chars t).
      apply in_or_app. now left.
    + split; [|lia].
      destruct t as [|ch t']; [exact I|].
      unfold Embeddings.max_chars.
      destruct (N.to_nat 8000) eqn:E; [discriminate E | exact Hhead].
  - split; [exact Hle|]. split; [exact Hin|]. split; [exact Hhead|].
    intros _. subst t. unfold Embeddings.strip, Embeddings.rstrip.
    rewrite rev_involutive. apply lstrip_head.
Qed.

Lemma embedded_text_is_clean_witness :
  match rev (Embeddings.clean ([32; 10]%N ++ u8 "납부" ++ [10]%N ++ u8 "안내" ++ [32; 10]%N))
  with
  | ch :: _ => is_space ch = false
  | [] => True
  end.
Proof.
  destruct (embedded_text_is_clean
              ([32; 10]%N ++ u8 "납부" ++ [10]%N ++ u8 "안내" ++ [32; 10]%N))
    as [_ [_ [_ H]]].
  apply H. apply Nat.leb_le. vm_compute. reflexivity.
Defined.
